(** * Devika orchestration core: a shallow embedding of [devika.agents.agent]

    The development follows [src/devika/agents/agent.py] (class [Agent]),
    [src/devika/agents/roles/action/action.py] and
    [src/devika/services/netlify.py].  Python code that threads side effects
    through collaborators is written in a small state-and-exception monad over
    a [World]: the per-objective session store, the agent's keyword set and
    the trace of calls the agent has made. *)

From Stdlib Require Import String Ascii List Bool Arith NArith Lia.
From stdpp Require Import base option list gmap strings sets.

(** ** Python strings

    A Python [str] is a sequence of Unicode code points.  A [string] of this
    development holds its UTF-8 encoding; a byte that belongs to no
    well-formed sequence stands for itself, as under Python's
    [surrogateescape], and is changed by no function below. *)

Module Utf8.

Local Open Scope N_scope.

Definition continuation (b : N) : bool := (0x80 <=? b) && (b <=? 0xBF).

Definition low_bits (b : N) : N := N.land b 0x3F.

(** The code point of a byte outside every well-formed sequence. *)
Definition escaped (b : N) : N := 0xDC00 + b.

Definition two (b0 b1 : N) : option N :=
  if (0xC2 <=? b0) && (b0 <=? 0xDF) && continuation b1
  then Some (N.lor (N.shiftl (N.land b0 0x1F) 6) (low_bits b1))
  else None.

(** Three bytes: no overlong form and no surrogate. *)
Definition three (b0 b1 b2 : N) : option N :=
  if (0xE0 <=? b0) && (b0 <=? 0xEF) && continuation b1 && continuation b2
  then
    let c :=
      N.lor (N.shiftl (N.land b0 0x0F) 12)
        (N.lor (N.shiftl (low_bits b1) 6) (low_bits b2)) in
    if (0x800 <=? c) && negb ((0xD800 <=? c) && (c <=? 0xDFFF))
    then Some c else None
  else None.

(** Four bytes: from U+10000 to U+10FFFF. *)
Definition four (b0 b1 b2 b3 : N) : option N :=
  if (0xF0 <=? b0) && (b0 <=? 0xF4)
     && continuation b1 && continuation b2 && continuation b3
  then
    let c :=
      N.lor (N.shiftl (N.land b0 0x07) 18)
        (N.lor (N.shiftl (low_bits b1) 12)
           (N.lor (N.shiftl (low_bits b2) 6) (low_bits b3))) in
    if (0x10000 <=? c) && (c <=? 0x10FFFF) then Some c else None
  else None.

(** The code points of a string. *)
Fixpoint decode (s : string) : list N :=
  match s with
  | EmptyString => []
  | String a0 s1 =>
      let b0 := N_of_ascii a0 in
      if b0 <? 0x80 then b0 :: decode s1
      else
        match s1 with
        | EmptyString => [escaped b0]
        | String a1 s2 =>
            match two b0 (N_of_ascii a1) with
            | Some c => c :: decode s2
            | None =>
                match s2 with
                | EmptyString => escaped b0 :: decode s1
                | String a2 s3 =>
                    match three b0 (N_of_ascii a1) (N_of_ascii a2) with
                    | Some c => c :: decode s3
                    | None =>
                        match s3 with
                        | EmptyString => escaped b0 :: decode s1
                        | String a3 s4 =>
                            match
                              four b0 (N_of_ascii a1) (N_of_ascii a2)
                                (N_of_ascii a3)
                            with
                            | Some c => c :: decode s4
                            | None => escaped b0 :: decode s1
                            end
                        end
                    end
                end
            end
        end
  end.

Fixpoint bytes (l : list N) : string :=
  match l with
  | [] => EmptyString
  | b :: l' => String (ascii_of_N b) (bytes l')
  end.

Definition encode_point (c : N) : string :=
  if c <? 0x80 then bytes [c]
  else if c <? 0x800 then
    bytes [N.lor 0xC0 (N.shiftr c 6); N.lor 0x80 (low_bits c)]
  else if (0xDC80 <=? c) && (c <=? 0xDCFF) then bytes [c - 0xDC00]
  else if c <? 0x10000 then
    bytes [N.lor 0xE0 (N.shiftr c 12);
           N.lor 0x80 (low_bits (N.shiftr c 6));
           N.lor 0x80 (low_bits c)]
  else
    bytes [N.lor 0xF0 (N.shiftr c 18);
           N.lor 0x80 (low_bits (N.shiftr c 12));
           N.lor 0x80 (low_bits (N.shiftr c 6));
           N.lor 0x80 (low_bits c)].

(** The string of a sequence of code points. *)
Fixpoint encode (l : list N) : string :=
  match l with
  | [] => EmptyString
  | c :: l' => encode_point c +:+ encode l'
  end.

End Utf8.

(** ** The character data read by [str.strip] and [str.lower]

    The tables are those of the Unicode Character Database 14.0, which
    CPython 3.11 carries. *)

Module Unicode.

Local Open Scope N_scope.

(** The characters [str.isspace] holds of, which [str.strip] removes. *)
Definition whitespace_points : list N :=
  [0x9; 0xA; 0xB; 0xC; 0xD; 0x1C; 0x1D; 0x1E; 0x1F; 0x20; 0x85; 0xA0; 0x1680;
   0x2000; 0x2001; 0x2002; 0x2003; 0x2004; 0x2005; 0x2006; 0x2007; 0x2008;
   0x2009; 0x200A; 0x2028; 0x2029; 0x202F; 0x205F; 0x3000].

Definition whitespace (c : N) : bool := existsb (N.eqb c) whitespace_points.

Fixpoint within (ranges : list (N * N)) (c : N) : bool :=
  match ranges with
  | [] => false
  | (first, last) :: rest => (first <=? c) && (c <=? last) || within rest c
  end.

(** The case-ignorable characters, which the rule for the final sigma
    skips. *)
Definition case_ignorable_ranges : list (N * N) :=
  [(0x27, 0x27); (0x2E, 0x2E); (0x3A, 0x3A); (0x5E, 0x5E); (0x60, 0x60);
   (0xA8, 0xA8); (0xAD, 0xAD); (0xAF, 0xAF); (0xB4, 0xB4); (0xB7, 0xB8);
   (0x2B0, 0x36F); (0x374, 0x375); (0x37A, 0x37A); (0x384, 0x385);
   (0x387, 0x387); (0x483, 0x489); (0x559, 0x559); (0x55F, 0x55F);
   (0x591, 0x5BD); (0x5BF, 0x5BF); (0x5C1, 0x5C2); (0x5C4, 0x5C5);
   (0x5C7, 0x5C7); (0x5F4, 0x5F4); (0x600, 0x605); (0x610, 0x61A);
   (0x61C, 0x61C); (0x640, 0x640); (0x64B, 0x65F); (0x670, 0x670);
   (0x6D6, 0x6DD); (0x6DF, 0x6E8); (0x6EA, 0x6ED); (0x70F, 0x70F);
   (0x711, 0x711); (0x730, 0x74A); (0x7A6, 0x7B0); (0x7EB, 0x7F5);
   (0x7FA, 0x7FA); (0x7FD, 0x7FD); (0x816, 0x82D); (0x859, 0x85B);
   (0x888, 0x888); (0x890, 0x891); (0x898, 0x89F); (0x8C9, 0x902);
   (0x93A, 0x93A); (0x93C, 0x93C); (0x941, 0x948); (0x94D, 0x94D);
   (0x951, 0x957); (0x962, 0x963); (0x971, 0x971); (0x981, 0x981);
   (0x9BC, 0x9BC); (0x9C1, 0x9C4); (0x9CD, 0x9CD); (0x9E2, 0x9E3);
   (0x9FE, 0x9FE); (0xA01, 0xA02); (0xA3C, 0xA3C); (0xA41, 0xA42);
   (0xA47, 0xA48); (0xA4B, 0xA4D); (0xA51, 0xA51); (0xA70, 0xA71);
   (0xA75, 0xA75); (0xA81, 0xA82); (0xABC, 0xABC); (0xAC1, 0xAC5);
   (0xAC7, 0xAC8); (0xACD, 0xACD); (0xAE2, 0xAE3); (0xAFA, 0xAFF);
   (0xB01, 0xB01); (0xB3C, 0xB3C); (0xB3F, 0xB3F); (0xB41, 0xB44);
   (0xB4D, 0xB4D); (0xB55, 0xB56); (0xB62, 0xB63); (0xB82, 0xB82);
   (0xBC0, 0xBC0); (0xBCD, 0xBCD); (0xC00, 0xC00); (0xC04, 0xC04);
   (0xC3C, 0xC3C); (0xC3E, 0xC40); (0xC46, 0xC48); (0xC4A, 0xC4D);
   (0xC55, 0xC56); (0xC62, 0xC63); (0xC81, 0xC81); (0xCBC, 0xCBC);
   (0xCBF, 0xCBF); (0xCC6, 0xCC6); (0xCCC, 0xCCD); (0xCE2, 0xCE3);
   (0xD00, 0xD01); (0xD3B, 0xD3C); (0xD41, 0xD44); (0xD4D, 0xD4D);
   (0xD62, 0xD63); (0xD81, 0xD81); (0xDCA, 0xDCA); (0xDD2, 0xDD4);
   (0xDD6, 0xDD6); (0xE31, 0xE31); (0xE34, 0xE3A); (0xE46, 0xE4E);
   (0xEB1, 0xEB1); (0xEB4, 0xEBC); (0xEC6, 0xEC6); (0xEC8, 0xECD);
   (0xF18, 0xF19); (0xF35, 0xF35); (0xF37, 0xF37); (0xF39, 0xF39);
   (0xF71, 0xF7E); (0xF80, 0xF84); (0xF86, 0xF87); (0xF8D, 0xF97);
   (0xF99, 0xFBC); (0xFC6, 0xFC6); (0x102D, 0x1030); (0x1032, 0x1037);
   (0x1039, 0x103A); (0x103D, 0x103E); (0x1058, 0x1059); (0x105E, 0x1060);
   (0x1071, 0x1074); (0x1082, 0x1082); (0x1085, 0x1086); (0x108D, 0x108D);
   (0x109D, 0x109D); (0x10FC, 0x10FC); (0x135D, 0x135F); (0x1712, 0x1714);
   (0x1732, 0x1733); (0x1752, 0x1753); (0x1772, 0x1773); (0x17B4, 0x17B5);
   (0x17B7, 0x17BD); (0x17C6, 0x17C6); (0x17C9, 0x17D3); (0x17D7, 0x17D7);
   (0x17DD, 0x17DD); (0x180B, 0x180F); (0x1843, 0x1843); (0x1885, 0x1886);
   (0x18A9, 0x18A9); (0x1920, 0x1922); (0x1927, 0x1928); (0x1932, 0x1932);
   (0x1939, 0x193B); (0x1A17, 0x1A18); (0x1A1B, 0x1A1B); (0x1A56, 0x1A56);
   (0x1A58, 0x1A5E); (0x1A60, 0x1A60); (0x1A62, 0x1A62); (0x1A65, 0x1A6C);
   (0x1A73, 0x1A7C); (0x1A7F, 0x1A7F); (0x1AA7, 0x1AA7); (0x1AB0, 0x1ACE);
   (0x1B00, 0x1B03); (0x1B34, 0x1B34); (0x1B36, 0x1B3A); (0x1B3C, 0x1B3C);
   (0x1B42, 0x1B42); (0x1B6B, 0x1B73); (0x1B80, 0x1B81); (0x1BA2, 0x1BA5);
   (0x1BA8, 0x1BA9); (0x1BAB, 0x1BAD); (0x1BE6, 0x1BE6); (0x1BE8, 0x1BE9);
   (0x1BED, 0x1BED); (0x1BEF, 0x1BF1); (0x1C2C, 0x1C33); (0x1C36, 0x1C37);
   (0x1C78, 0x1C7D); (0x1CD0, 0x1CD2); (0x1CD4, 0x1CE0); (0x1CE2, 0x1CE8);
   (0x1CED, 0x1CED); (0x1CF4, 0x1CF4); (0x1CF8, 0x1CF9); (0x1D2C, 0x1D6A);
   (0x1D78, 0x1D78); (0x1D9B, 0x1DFF); (0x1FBD, 0x1FBD); (0x1FBF, 0x1FC1);
   (0x1FCD, 0x1FCF); (0x1FDD, 0x1FDF); (0x1FED, 0x1FEF); (0x1FFD, 0x1FFE);
   (0x200B, 0x200F); (0x2018, 0x2019); (0x2024, 0x2024); (0x2027, 0x2027);
   (0x202A, 0x202E); (0x2060, 0x2064); (0x2066, 0x206F); (0x2071, 0x2071);
   (0x207F, 0x207F); (0x2090, 0x209C); (0x20D0, 0x20F0); (0x2C7C, 0x2C7D);
   (0x2CEF, 0x2CF1); (0x2D6F, 0x2D6F); (0x2D7F, 0x2D7F); (0x2DE0, 0x2DFF);
   (0x2E2F, 0x2E2F); (0x3005, 0x3005); (0x302A, 0x302D); (0x3031, 0x3035);
   (0x303B, 0x303B); (0x3099, 0x309E); (0x30FC, 0x30FE); (0xA015, 0xA015);
   (0xA4F8, 0xA4FD); (0xA60C, 0xA60C); (0xA66F, 0xA672); (0xA674, 0xA67D);
   (0xA67F, 0xA67F); (0xA69C, 0xA69F); (0xA6F0, 0xA6F1); (0xA700, 0xA721);
   (0xA770, 0xA770); (0xA788, 0xA78A); (0xA7F2, 0xA7F4); (0xA7F8, 0xA7F9);
   (0xA802, 0xA802); (0xA806, 0xA806); (0xA80B, 0xA80B); (0xA825, 0xA826);
   (0xA82C, 0xA82C); (0xA8C4, 0xA8C5); (0xA8E0, 0xA8F1); (0xA8FF, 0xA8FF);
   (0xA926, 0xA92D); (0xA947, 0xA951); (0xA980, 0xA982); (0xA9B3, 0xA9B3);
   (0xA9B6, 0xA9B9); (0xA9BC, 0xA9BD); (0xA9CF, 0xA9CF); (0xA9E5, 0xA9E6);
   (0xAA29, 0xAA2E); (0xAA31, 0xAA32); (0xAA35, 0xAA36); (0xAA43, 0xAA43);
   (0xAA4C, 0xAA4C); (0xAA70, 0xAA70); (0xAA7C, 0xAA7C); (0xAAB0, 0xAAB0);
   (0xAAB2, 0xAAB4); (0xAAB7, 0xAAB8); (0xAABE, 0xAABF); (0xAAC1, 0xAAC1);
   (0xAADD, 0xAADD); (0xAAEC, 0xAAED); (0xAAF3, 0xAAF4); (0xAAF6, 0xAAF6);
   (0xAB5B, 0xAB5F); (0xAB69, 0xAB6B); (0xABE5, 0xABE5); (0xABE8, 0xABE8);
   (0xABED, 0xABED); (0xFB1E, 0xFB1E); (0xFBB2, 0xFBC2); (0xFE00, 0xFE0F);
   (0xFE13, 0xFE13); (0xFE20, 0xFE2F); (0xFE52, 0xFE52); (0xFE55, 0xFE55);
   (0xFEFF, 0xFEFF); (0xFF07, 0xFF07); (0xFF0E, 0xFF0E); (0xFF1A, 0xFF1A);
   (0xFF3E, 0xFF3E); (0xFF40, 0xFF40); (0xFF70, 0xFF70); (0xFF9E, 0xFF9F);
   (0xFFE3, 0xFFE3); (0xFFF9, 0xFFFB); (0x101FD, 0x101FD); (0x102E0, 0x102E0);
   (0x10376, 0x1037A); (0x10780, 0x10785); (0x10787, 0x107B0);
   (0x107B2, 0x107BA); (0x10A01, 0x10A03); (0x10A05, 0x10A06);
   (0x10A0C, 0x10A0F); (0x10A38, 0x10A3A); (0x10A3F, 0x10A3F);
   (0x10AE5, 0x10AE6); (0x10D24, 0x10D27); (0x10EAB, 0x10EAC);
   (0x10F46, 0x10F50); (0x10F82, 0x10F85); (0x11001, 0x11001);
   (0x11038, 0x11046); (0x11070, 0x11070); (0x11073, 0x11074);
   (0x1107F, 0x11081); (0x110B3, 0x110B6); (0x110B9, 0x110BA);
   (0x110BD, 0x110BD); (0x110C2, 0x110C2); (0x110CD, 0x110CD);
   (0x11100, 0x11102); (0x11127, 0x1112B); (0x1112D, 0x11134);
   (0x11173, 0x11173); (0x11180, 0x11181); (0x111B6, 0x111BE);
   (0x111C9, 0x111CC); (0x111CF, 0x111CF); (0x1122F, 0x11231);
   (0x11234, 0x11234); (0x11236, 0x11237); (0x1123E, 0x1123E);
   (0x112DF, 0x112DF); (0x112E3, 0x112EA); (0x11300, 0x11301);
   (0x1133B, 0x1133C); (0x11340, 0x11340); (0x11366, 0x1136C);
   (0x11370, 0x11374); (0x11438, 0x1143F); (0x11442, 0x11444);
   (0x11446, 0x11446); (0x1145E, 0x1145E); (0x114B3, 0x114B8);
   (0x114BA, 0x114BA); (0x114BF, 0x114C0); (0x114C2, 0x114C3);
   (0x115B2, 0x115B5); (0x115BC, 0x115BD); (0x115BF, 0x115C0);
   (0x115DC, 0x115DD); (0x11633, 0x1163A); (0x1163D, 0x1163D);
   (0x1163F, 0x11640); (0x116AB, 0x116AB); (0x116AD, 0x116AD);
   (0x116B0, 0x116B5); (0x116B7, 0x116B7); (0x1171D, 0x1171F);
   (0x11722, 0x11725); (0x11727, 0x1172B); (0x1182F, 0x11837);
   (0x11839, 0x1183A); (0x1193B, 0x1193C); (0x1193E, 0x1193E);
   (0x11943, 0x11943); (0x119D4, 0x119D7); (0x119DA, 0x119DB);
   (0x119E0, 0x119E0); (0x11A01, 0x11A0A); (0x11A33, 0x11A38);
   (0x11A3B, 0x11A3E); (0x11A47, 0x11A47); (0x11A51, 0x11A56);
   (0x11A59, 0x11A5B); (0x11A8A, 0x11A96); (0x11A98, 0x11A99);
   (0x11C30, 0x11C36); (0x11C38, 0x11C3D); (0x11C3F, 0x11C3F);
   (0x11C92, 0x11CA7); (0x11CAA, 0x11CB0); (0x11CB2, 0x11CB3);
   (0x11CB5, 0x11CB6); (0x11D31, 0x11D36); (0x11D3A, 0x11D3A);
   (0x11D3C, 0x11D3D); (0x11D3F, 0x11D45); (0x11D47, 0x11D47);
   (0x11D90, 0x11D91); (0x11D95, 0x11D95); (0x11D97, 0x11D97);
   (0x11EF3, 0x11EF4); (0x13430, 0x13438); (0x16AF0, 0x16AF4);
   (0x16B30, 0x16B36); (0x16B40, 0x16B43); (0x16F4F, 0x16F4F);
   (0x16F8F, 0x16F9F); (0x16FE0, 0x16FE1); (0x16FE3, 0x16FE4);
   (0x1AFF0, 0x1AFF3); (0x1AFF5, 0x1AFFB); (0x1AFFD, 0x1AFFE);
   (0x1BC9D, 0x1BC9E); (0x1BCA0, 0x1BCA3); (0x1CF00, 0x1CF2D);
   (0x1CF30, 0x1CF46); (0x1D167, 0x1D169); (0x1D173, 0x1D182);
   (0x1D185, 0x1D18B); (0x1D1AA, 0x1D1AD); (0x1D242, 0x1D244);
   (0x1DA00, 0x1DA36); (0x1DA3B, 0x1DA6C); (0x1DA75, 0x1DA75);
   (0x1DA84, 0x1DA84); (0x1DA9B, 0x1DA9F); (0x1DAA1, 0x1DAAF);
   (0x1E000, 0x1E006); (0x1E008, 0x1E018); (0x1E01B, 0x1E021);
   (0x1E023, 0x1E024); (0x1E026, 0x1E02A); (0x1E130, 0x1E13D);
   (0x1E2AE, 0x1E2AE); (0x1E2EC, 0x1E2EF); (0x1E8D0, 0x1E8D6);
   (0x1E944, 0x1E94B); (0x1F3FB, 0x1F3FF); (0xE0001, 0xE0001);
   (0xE0020, 0xE007F); (0xE0100, 0xE01EF)].

(** The cased characters among those that are not case-ignorable; the rule
    for the final sigma asks it of no other. *)
Definition cased_ranges : list (N * N) :=
  [(0x41, 0x5A); (0x61, 0x7A); (0xAA, 0xAA); (0xB5, 0xB5); (0xBA, 0xBA);
   (0xC0, 0xD6); (0xD8, 0xF6); (0xF8, 0x1BA); (0x1BC, 0x1BF); (0x1C4, 0x293);
   (0x295, 0x2AF); (0x370, 0x373); (0x376, 0x377); (0x37B, 0x37D);
   (0x37F, 0x37F); (0x386, 0x386); (0x388, 0x38A); (0x38C, 0x38C);
   (0x38E, 0x3A1); (0x3A3, 0x3F5); (0x3F7, 0x481); (0x48A, 0x52F);
   (0x531, 0x556); (0x560, 0x588); (0x10A0, 0x10C5); (0x10C7, 0x10C7);
   (0x10CD, 0x10CD); (0x10D0, 0x10FA); (0x10FD, 0x10FF); (0x13A0, 0x13F5);
   (0x13F8, 0x13FD); (0x1C80, 0x1C88); (0x1C90, 0x1CBA); (0x1CBD, 0x1CBF);
   (0x1D00, 0x1D2B); (0x1D6B, 0x1D77); (0x1D79, 0x1D9A); (0x1E00, 0x1F15);
   (0x1F18, 0x1F1D); (0x1F20, 0x1F45); (0x1F48, 0x1F4D); (0x1F50, 0x1F57);
   (0x1F59, 0x1F59); (0x1F5B, 0x1F5B); (0x1F5D, 0x1F5D); (0x1F5F, 0x1F7D);
   (0x1F80, 0x1FB4); (0x1FB6, 0x1FBC); (0x1FBE, 0x1FBE); (0x1FC2, 0x1FC4);
   (0x1FC6, 0x1FCC); (0x1FD0, 0x1FD3); (0x1FD6, 0x1FDB); (0x1FE0, 0x1FEC);
   (0x1FF2, 0x1FF4); (0x1FF6, 0x1FFC); (0x2102, 0x2102); (0x2107, 0x2107);
   (0x210A, 0x2113); (0x2115, 0x2115); (0x2119, 0x211D); (0x2124, 0x2124);
   (0x2126, 0x2126); (0x2128, 0x2128); (0x212A, 0x212D); (0x212F, 0x2134);
   (0x2139, 0x2139); (0x213C, 0x213F); (0x2145, 0x2149); (0x214E, 0x214E);
   (0x2160, 0x217F); (0x2183, 0x2184); (0x24B6, 0x24E9); (0x2C00, 0x2C7B);
   (0x2C7E, 0x2CE4); (0x2CEB, 0x2CEE); (0x2CF2, 0x2CF3); (0x2D00, 0x2D25);
   (0x2D27, 0x2D27); (0x2D2D, 0x2D2D); (0xA640, 0xA66D); (0xA680, 0xA69B);
   (0xA722, 0xA76F); (0xA771, 0xA787); (0xA78B, 0xA78E); (0xA790, 0xA7CA);
   (0xA7D0, 0xA7D1); (0xA7D3, 0xA7D3); (0xA7D5, 0xA7D9); (0xA7F5, 0xA7F6);
   (0xA7FA, 0xA7FA); (0xAB30, 0xAB5A); (0xAB60, 0xAB68); (0xAB70, 0xABBF);
   (0xFB00, 0xFB06); (0xFB13, 0xFB17); (0xFF21, 0xFF3A); (0xFF41, 0xFF5A);
   (0x10400, 0x1044F); (0x104B0, 0x104D3); (0x104D8, 0x104FB);
   (0x10570, 0x1057A); (0x1057C, 0x1058A); (0x1058C, 0x10592);
   (0x10594, 0x10595); (0x10597, 0x105A1); (0x105A3, 0x105B1);
   (0x105B3, 0x105B9); (0x105BB, 0x105BC); (0x10C80, 0x10CB2);
   (0x10CC0, 0x10CF2); (0x118A0, 0x118DF); (0x16E40, 0x16E7F);
   (0x1D400, 0x1D454); (0x1D456, 0x1D49C); (0x1D49E, 0x1D49F);
   (0x1D4A2, 0x1D4A2); (0x1D4A5, 0x1D4A6); (0x1D4A9, 0x1D4AC);
   (0x1D4AE, 0x1D4B9); (0x1D4BB, 0x1D4BB); (0x1D4BD, 0x1D4C3);
   (0x1D4C5, 0x1D505); (0x1D507, 0x1D50A); (0x1D50D, 0x1D514);
   (0x1D516, 0x1D51C); (0x1D51E, 0x1D539); (0x1D53B, 0x1D53E);
   (0x1D540, 0x1D544); (0x1D546, 0x1D546); (0x1D54A, 0x1D550);
   (0x1D552, 0x1D6A5); (0x1D6A8, 0x1D6C0); (0x1D6C2, 0x1D6DA);
   (0x1D6DC, 0x1D6FA); (0x1D6FC, 0x1D714); (0x1D716, 0x1D734);
   (0x1D736, 0x1D74E); (0x1D750, 0x1D76E); (0x1D770, 0x1D788);
   (0x1D78A, 0x1D7A8); (0x1D7AA, 0x1D7C2); (0x1D7C4, 0x1D7CB);
   (0x1DF00, 0x1DF09); (0x1DF0B, 0x1DF1E); (0x1E900, 0x1E943);
   (0x1F130, 0x1F149); (0x1F150, 0x1F169); (0x1F170, 0x1F189)].

Definition case_ignorable (c : N) : bool := within case_ignorable_ranges c.

Definition cased (c : N) : bool := within cased_ranges c.

(** The simple lower-case mappings.  An entry [(first, last, step, target)]
    maps [first + k * step], up to [last], to [target + k * step]. *)
Definition lower_ranges : list (N * N * N * N) :=
  [(0x41, 0x5A, 1, 0x61); (0xC0, 0xD6, 1, 0xE0); (0xD8, 0xDE, 1, 0xF8);
   (0x100, 0x12E, 2, 0x101); (0x132, 0x136, 2, 0x133);
   (0x139, 0x147, 2, 0x13A); (0x14A, 0x176, 2, 0x14B);
   (0x178, 0x178, 1, 0xFF); (0x179, 0x17D, 2, 0x17A);
   (0x181, 0x181, 1, 0x253); (0x182, 0x184, 2, 0x183);
   (0x186, 0x186, 1, 0x254); (0x187, 0x187, 1, 0x188);
   (0x189, 0x18A, 1, 0x256); (0x18B, 0x18B, 1, 0x18C);
   (0x18E, 0x18E, 1, 0x1DD); (0x18F, 0x18F, 1, 0x259);
   (0x190, 0x190, 1, 0x25B); (0x191, 0x191, 1, 0x192);
   (0x193, 0x193, 1, 0x260); (0x194, 0x194, 1, 0x263);
   (0x196, 0x196, 1, 0x269); (0x197, 0x197, 1, 0x268);
   (0x198, 0x198, 1, 0x199); (0x19C, 0x19C, 1, 0x26F);
   (0x19D, 0x19D, 1, 0x272); (0x19F, 0x19F, 1, 0x275);
   (0x1A0, 0x1A4, 2, 0x1A1); (0x1A6, 0x1A6, 1, 0x280);
   (0x1A7, 0x1A7, 1, 0x1A8); (0x1A9, 0x1A9, 1, 0x283);
   (0x1AC, 0x1AC, 1, 0x1AD); (0x1AE, 0x1AE, 1, 0x288);
   (0x1AF, 0x1AF, 1, 0x1B0); (0x1B1, 0x1B2, 1, 0x28A);
   (0x1B3, 0x1B5, 2, 0x1B4); (0x1B7, 0x1B7, 1, 0x292);
   (0x1B8, 0x1B8, 1, 0x1B9); (0x1BC, 0x1BC, 1, 0x1BD);
   (0x1C4, 0x1C4, 1, 0x1C6); (0x1C5, 0x1C5, 1, 0x1C6);
   (0x1C7, 0x1C7, 1, 0x1C9); (0x1C8, 0x1C8, 1, 0x1C9);
   (0x1CA, 0x1CA, 1, 0x1CC); (0x1CB, 0x1DB, 2, 0x1CC);
   (0x1DE, 0x1EE, 2, 0x1DF); (0x1F1, 0x1F1, 1, 0x1F3);
   (0x1F2, 0x1F4, 2, 0x1F3); (0x1F6, 0x1F6, 1, 0x195);
   (0x1F7, 0x1F7, 1, 0x1BF); (0x1F8, 0x21E, 2, 0x1F9);
   (0x220, 0x220, 1, 0x19E); (0x222, 0x232, 2, 0x223);
   (0x23A, 0x23A, 1, 0x2C65); (0x23B, 0x23B, 1, 0x23C);
   (0x23D, 0x23D, 1, 0x19A); (0x23E, 0x23E, 1, 0x2C66);
   (0x241, 0x241, 1, 0x242); (0x243, 0x243, 1, 0x180);
   (0x244, 0x244, 1, 0x289); (0x245, 0x245, 1, 0x28C);
   (0x246, 0x24E, 2, 0x247); (0x370, 0x372, 2, 0x371);
   (0x376, 0x376, 1, 0x377); (0x37F, 0x37F, 1, 0x3F3);
   (0x386, 0x386, 1, 0x3AC); (0x388, 0x38A, 1, 0x3AD);
   (0x38C, 0x38C, 1, 0x3CC); (0x38E, 0x38F, 1, 0x3CD);
   (0x391, 0x3A1, 1, 0x3B1); (0x3A3, 0x3AB, 1, 0x3C3);
   (0x3CF, 0x3CF, 1, 0x3D7); (0x3D8, 0x3EE, 2, 0x3D9);
   (0x3F4, 0x3F4, 1, 0x3B8); (0x3F7, 0x3F7, 1, 0x3F8);
   (0x3F9, 0x3F9, 1, 0x3F2); (0x3FA, 0x3FA, 1, 0x3FB);
   (0x3FD, 0x3FF, 1, 0x37B); (0x400, 0x40F, 1, 0x450);
   (0x410, 0x42F, 1, 0x430); (0x460, 0x480, 2, 0x461);
   (0x48A, 0x4BE, 2, 0x48B); (0x4C0, 0x4C0, 1, 0x4CF);
   (0x4C1, 0x4CD, 2, 0x4C2); (0x4D0, 0x52E, 2, 0x4D1);
   (0x531, 0x556, 1, 0x561); (0x10A0, 0x10C5, 1, 0x2D00);
   (0x10C7, 0x10C7, 1, 0x2D27); (0x10CD, 0x10CD, 1, 0x2D2D);
   (0x13A0, 0x13EF, 1, 0xAB70); (0x13F0, 0x13F5, 1, 0x13F8);
   (0x1C90, 0x1CBA, 1, 0x10D0); (0x1CBD, 0x1CBF, 1, 0x10FD);
   (0x1E00, 0x1E94, 2, 0x1E01); (0x1E9E, 0x1E9E, 1, 0xDF);
   (0x1EA0, 0x1EFE, 2, 0x1EA1); (0x1F08, 0x1F0F, 1, 0x1F00);
   (0x1F18, 0x1F1D, 1, 0x1F10); (0x1F28, 0x1F2F, 1, 0x1F20);
   (0x1F38, 0x1F3F, 1, 0x1F30); (0x1F48, 0x1F4D, 1, 0x1F40);
   (0x1F59, 0x1F5F, 2, 0x1F51); (0x1F68, 0x1F6F, 1, 0x1F60);
   (0x1F88, 0x1F8F, 1, 0x1F80); (0x1F98, 0x1F9F, 1, 0x1F90);
   (0x1FA8, 0x1FAF, 1, 0x1FA0); (0x1FB8, 0x1FB9, 1, 0x1FB0);
   (0x1FBA, 0x1FBB, 1, 0x1F70); (0x1FBC, 0x1FBC, 1, 0x1FB3);
   (0x1FC8, 0x1FCB, 1, 0x1F72); (0x1FCC, 0x1FCC, 1, 0x1FC3);
   (0x1FD8, 0x1FD9, 1, 0x1FD0); (0x1FDA, 0x1FDB, 1, 0x1F76);
   (0x1FE8, 0x1FE9, 1, 0x1FE0); (0x1FEA, 0x1FEB, 1, 0x1F7A);
   (0x1FEC, 0x1FEC, 1, 0x1FE5); (0x1FF8, 0x1FF9, 1, 0x1F78);
   (0x1FFA, 0x1FFB, 1, 0x1F7C); (0x1FFC, 0x1FFC, 1, 0x1FF3);
   (0x2126, 0x2126, 1, 0x3C9); (0x212A, 0x212A, 1, 0x6B);
   (0x212B, 0x212B, 1, 0xE5); (0x2132, 0x2132, 1, 0x214E);
   (0x2160, 0x216F, 1, 0x2170); (0x2183, 0x2183, 1, 0x2184);
   (0x24B6, 0x24CF, 1, 0x24D0); (0x2C00, 0x2C2F, 1, 0x2C30);
   (0x2C60, 0x2C60, 1, 0x2C61); (0x2C62, 0x2C62, 1, 0x26B);
   (0x2C63, 0x2C63, 1, 0x1D7D); (0x2C64, 0x2C64, 1, 0x27D);
   (0x2C67, 0x2C6B, 2, 0x2C68); (0x2C6D, 0x2C6D, 1, 0x251);
   (0x2C6E, 0x2C6E, 1, 0x271); (0x2C6F, 0x2C6F, 1, 0x250);
   (0x2C70, 0x2C70, 1, 0x252); (0x2C72, 0x2C72, 1, 0x2C73);
   (0x2C75, 0x2C75, 1, 0x2C76); (0x2C7E, 0x2C7F, 1, 0x23F);
   (0x2C80, 0x2CE2, 2, 0x2C81); (0x2CEB, 0x2CED, 2, 0x2CEC);
   (0x2CF2, 0x2CF2, 1, 0x2CF3); (0xA640, 0xA66C, 2, 0xA641);
   (0xA680, 0xA69A, 2, 0xA681); (0xA722, 0xA72E, 2, 0xA723);
   (0xA732, 0xA76E, 2, 0xA733); (0xA779, 0xA77B, 2, 0xA77A);
   (0xA77D, 0xA77D, 1, 0x1D79); (0xA77E, 0xA786, 2, 0xA77F);
   (0xA78B, 0xA78B, 1, 0xA78C); (0xA78D, 0xA78D, 1, 0x265);
   (0xA790, 0xA792, 2, 0xA791); (0xA796, 0xA7A8, 2, 0xA797);
   (0xA7AA, 0xA7AA, 1, 0x266); (0xA7AB, 0xA7AB, 1, 0x25C);
   (0xA7AC, 0xA7AC, 1, 0x261); (0xA7AD, 0xA7AD, 1, 0x26C);
   (0xA7AE, 0xA7AE, 1, 0x26A); (0xA7B0, 0xA7B0, 1, 0x29E);
   (0xA7B1, 0xA7B1, 1, 0x287); (0xA7B2, 0xA7B2, 1, 0x29D);
   (0xA7B3, 0xA7B3, 1, 0xAB53); (0xA7B4, 0xA7C2, 2, 0xA7B5);
   (0xA7C4, 0xA7C4, 1, 0xA794); (0xA7C5, 0xA7C5, 1, 0x282);
   (0xA7C6, 0xA7C6, 1, 0x1D8E); (0xA7C7, 0xA7C9, 2, 0xA7C8);
   (0xA7D0, 0xA7D0, 1, 0xA7D1); (0xA7D6, 0xA7D8, 2, 0xA7D7);
   (0xA7F5, 0xA7F5, 1, 0xA7F6); (0xFF21, 0xFF3A, 1, 0xFF41);
   (0x10400, 0x10427, 1, 0x10428); (0x104B0, 0x104D3, 1, 0x104D8);
   (0x10570, 0x1057A, 1, 0x10597); (0x1057C, 0x1058A, 1, 0x105A3);
   (0x1058C, 0x10592, 1, 0x105B3); (0x10594, 0x10595, 1, 0x105BB);
   (0x10C80, 0x10CB2, 1, 0x10CC0); (0x118A0, 0x118BF, 1, 0x118C0);
   (0x16E40, 0x16E5F, 1, 0x16E60); (0x1E900, 0x1E921, 1, 0x1E922)].

Fixpoint lower_in (ranges : list (N * N * N * N)) (c : N) : option N :=
  match ranges with
  | [] => None
  | (first, last, step, target) :: rest =>
      if (first <=? c) && (c <=? last) && ((c - first) mod step =? 0)
      then Some (target + (c - first))
      else lower_in rest c
  end.

(** The full lower-case mapping of one character out of context: the
    capital I with dot above becomes two characters. *)
Definition to_lower (c : N) : list N :=
  if c =? 0x130 then [0x69; 0x307]
  else
    match lower_in lower_ranges c with
    | Some d => [d]
    | None => [c]
    end.

Fixpoint skip_ignorable (l : list N) : list N :=
  match l with
  | [] => []
  | c :: l' => if case_ignorable c then skip_ignorable l' else l
  end.

(** The first character that is not case-ignorable is cased. *)
Definition cased_next (l : list N) : bool :=
  match skip_ignorable l with
  | [] => false
  | c :: _ => cased c
  end.

(** A capital sigma is final when a cased character comes before it and
    none comes after it, case-ignorable characters apart.  [before] holds
    the characters before it, the nearest first. *)
Definition final_sigma (before after : list N) : bool :=
  cased_next before && negb (cased_next after).

End Unicode.

Module PyStr.

Local Open Scope N_scope.

Fixpoint lstrip_points (l : list N) : list N :=
  match l with
  | [] => []
  | c :: l' => if Unicode.whitespace c then lstrip_points l' else l
  end.

Definition rstrip_points (l : list N) : list N :=
  rev (lstrip_points (rev l)).

(** [s.strip()] *)
Definition strip (s : string) : string :=
  Utf8.encode (rstrip_points (lstrip_points (Utf8.decode s))).

(** The lower-case form of [l], which follows [before] (the nearest
    character first). *)
Fixpoint lower_points (before l : list N) : list N :=
  match l with
  | [] => []
  | c :: l' =>
      (if c =? 0x3A3
       then [if Unicode.final_sigma before l' then 0x3C2 else 0x3C3]
       else Unicode.to_lower c)
      ++ lower_points (c :: before) l'
  end.

(** [s.lower()] *)
Definition lower (s : string) : string :=
  Utf8.encode (lower_points [] (Utf8.decode s)).

(** [s.replace(old, new)] for a one-character [old] *)
Fixpoint replace (old : ascii) (new : string) (s : string) : string :=
  match s with
  | EmptyString => EmptyString
  | String c s' =>
      if Ascii.eqb c old then new +:+ replace old new s'
      else String c (replace old new s')
  end.

(** [sep.join(l)] *)
Fixpoint join (sep : string) (l : list string) : string :=
  match l with
  | [] => EmptyString
  | [x] => x
  | x :: rest => x +:+ sep +:+ join sep rest
  end.

(** Truth value of an optional string: [None] and [""] are falsy. *)
Definition truthy (o : option string) : bool :=
  match o with
  | Some (String _ _) => true
  | _ => false
  end.

End PyStr.

(** ** Data model *)

(** Modelled from the spec: the origin of a message, [user] or [system]
    (the agent's own messages, "from devika"); the type lives in
    [devika.project], outside [src/]. *)
Inductive Origin := user | system.

(** Modelled from the spec: a message of the objective's log.  The store
    stamps messages with a time on its own; the agent neither supplies nor
    reads it, so the stamp is left out. *)
Record Message := { origin : Origin; body : string }.

(** Modelled from the spec: the Session State of one objective, which
    [devika.state] and [devika.project] hold outside [src/]: the two flags
    and the ordered, append-only log. *)
Record Session := {
  active : bool;
  completed : bool;
  messages : list Message
}.

Inductive Role :=
  Planner | Researcher | Formatter | Coder | Action | InternalMonologue
| Answer | Runner | Feature | Patcher | Reporter | Decision.

(** [researcher.execute] receives the keyword set itself in [execute] and
    [list(...)] of it in [make_decision]. *)
Inductive KeywordsArg :=
| KwSet (ks : gset string)
| KwList (ks : list string).

(** One [role.execute(...)] call with its arguments. *)
Inductive RoleCall :=
| PlannerExecute (prompt : string) (project_name : option string)
| ResearcherExecute (plan : string) (kws : KeywordsArg) (project_name : string)
| FormatterExecute (content project_name : string)
| CoderExecute (step_by_step_plan user_context : string)
    (search_results : gmap string string) (project_name : string)
| ActionExecute (conversation : list string) (project_name : string)
| AnswerExecute (conversation : list string) (code_markdown project_name : string)
| RunnerExecute (conversation : list string)
    (code_markdown os_system project_path project_name : string)
| FeatureExecute (conversation : list string)
    (code_markdown system_os project_name : string)
| PatcherExecute (conversation : list string) (code_markdown : string)
    (commands : list string) (error system_os project_name : string)
| ReporterExecute (conversation : list string) (code_markdown project_name : string)
| DecisionExecute (prompt project_name : string).

Definition role_of (c : RoleCall) : Role :=
  match c with
  | PlannerExecute _ _ => Planner
  | ResearcherExecute _ _ _ => Researcher
  | FormatterExecute _ _ => Formatter
  | CoderExecute _ _ _ _ => Coder
  | ActionExecute _ _ => Action
  | AnswerExecute _ _ _ => Answer
  | RunnerExecute _ _ _ _ _ => Runner
  | FeatureExecute _ _ _ _ => Feature
  | PatcherExecute _ _ _ _ _ _ => Patcher
  | ReporterExecute _ _ _ => Reporter
  | DecisionExecute _ _ => Decision
  end.

(** What [print] was given; the rendering of the value is not modelled. *)
Inductive Printed :=
| PSeparator
| PAction (action : string)
| PPlan (plan : string)
| PResearch (queries : list string) (ask_user : string)
| PSearchResults (results : gmap string string)
| PCode (code : string).

(** The calls with an effect outside the agent, in the order they are made. *)
Inductive Event :=
| EvSetActive (project_name : string) (b : bool)
| EvSetCompleted (project_name : string) (b : bool)
| EvCreateProject (project_name : string)
| EvAddMessage (o : Origin) (project_name body : string)
| EvRole (c : RoleCall)
| EvSaveCode (r : Role) (code project_name : string)
| EvSearch (query : string)
| EvGoTo (url : string)
| EvScreenshot (project_name : string)
| EvPdf (markdown project_name : string)
| EvInteraction (base_model user_prompt project_name : string)
| EvNetlifyCreateSite
| EvNetlifyDeploySite (site_id project_path : string)
| EvLogInfo (text : string)
| EvSleep (seconds : nat)
| EvPrint (p : Printed).

Record World := {
  sessions : gmap string Session;
  collected_context_keywords : gset string;
  trace : list Event
}.

(** Structured results of the roles, as the agent indexes them. *)
Record PlannerResponse := {
  project : string;
  planner_reply : string;
  focus : string;
  plans : string;
  summary : string
}.

Record Research := { queries : list string; ask_user : string }.

Record DecisionItem := {
  function : string;
  args : gmap string string;
  reply : string
}.

(** ** Outcomes *)

Inductive exn :=
| UnboundLocalError (name : string)
| KeyError (key : string)
| InvalidObjectiveState (objective : string)
| RoleInvocationError (r : Role)
| CollaboratorError (service : string).

(** A call returns, raises, or is still waiting for user input when the
    arrivals it was given are used up. *)
Inductive outcome (A : Type) :=
| Return (a : A)
| Raise (e : exn)
| Waiting.
Arguments Return {A} a.
Arguments Raise {A} e.
Arguments Waiting {A}.

(** ** Collaborators

    Roles and services outside [src/] are taken as parameters: what each call
    answers, with [None] for a call that fails.  [Score] is the type of the
    keyword scores, which the agent never inspects. *)
Record Collaborators (Score : Type) := {
  base_model : string;
  planner_execute : string -> option string -> option string;
  planner_parse_response : string -> option PlannerResponse;
  researcher_execute : string -> KeywordsArg -> string -> option Research;
  formatter_execute : string -> string -> option string;
  coder_execute :
    string -> string -> gmap string string -> string -> option string;
  (** [BaseAgent._execute] of the action role *)
  action__execute : list string -> string -> option (string * string);
  answer_execute : list string -> string -> string -> option string;
  runner_execute :
    list string -> string -> string -> string -> string -> option unit;
  feature_execute : list string -> string -> string -> string -> option string;
  patcher_execute :
    list string -> string -> list string -> string -> string -> string ->
    option string;
  reporter_execute : list string -> string -> string -> option string;
  decision_execute : string -> string -> option (list DecisionItem);
  save_code_to_project : Role -> string -> string -> option unit;
  extract_keywords : string -> option (list (string * Score));
  web_search_search : string -> option unit;
  web_search_get_first_link : string -> option string;
  browser_go_to : string -> option unit;
  browser_screenshot : string -> option unit;
  browser_extract_text : string -> option string;
  markdown_to_pdf : string -> string -> option string;
  code_to_markdown_convert : string -> option string;
  start_interaction : string -> string -> string -> option unit;
  netlify_create_site : option (gmap string string);
  netlify_deploy_site : string -> string -> option (gmap string string);
  get_project_path : string -> string;
  platform_platform : string;
  json_dumps : string -> string;
  json_dumps_deploy : string -> string -> string;
  format_message : Message -> string
}.
Arguments base_model {Score} _.
Arguments planner_execute {Score} _ _ _.
Arguments planner_parse_response {Score} _ _.
Arguments researcher_execute {Score} _ _ _ _.
Arguments formatter_execute {Score} _ _ _.
Arguments coder_execute {Score} _ _ _ _ _.
Arguments action__execute {Score} _ _ _.
Arguments answer_execute {Score} _ _ _ _.
Arguments runner_execute {Score} _ _ _ _ _ _.
Arguments feature_execute {Score} _ _ _ _ _.
Arguments patcher_execute {Score} _ _ _ _ _ _ _.
Arguments reporter_execute {Score} _ _ _ _.
Arguments decision_execute {Score} _ _ _.
Arguments save_code_to_project {Score} _ _ _ _.
Arguments extract_keywords {Score} _ _.
Arguments web_search_search {Score} _ _.
Arguments web_search_get_first_link {Score} _ _.
Arguments browser_go_to {Score} _ _.
Arguments browser_screenshot {Score} _ _.
Arguments browser_extract_text {Score} _ _.
Arguments markdown_to_pdf {Score} _ _ _.
Arguments code_to_markdown_convert {Score} _ _.
Arguments start_interaction {Score} _ _ _ _.
Arguments netlify_create_site {Score} _.
Arguments netlify_deploy_site {Score} _ _ _.
Arguments get_project_path {Score} _ _.
Arguments platform_platform {Score} _.
Arguments json_dumps {Score} _ _.
Arguments json_dumps_deploy {Score} _ _ _.
Arguments format_message {Score} _ _.

(** ** The monad of agent code *)

Definition M (A : Type) : Type := World -> outcome A * World.

Definition ret {A} (a : A) : M A := fun w => (Return a, w).

Definition bind {A B} (m : M A) (k : A -> M B) : M B :=
  fun w =>
    match m w with
    | (Return a, w') => k a w'
    | (Raise e, w') => (Raise e, w')
    | (Waiting, w') => (Waiting, w')
    end.

Definition raise {A} (e : exn) : M A := fun w => (Raise e, w).

Definition waiting {A} : M A := fun w => (Waiting, w).

Notation "'let!' x ':=' m 'in' k" := (bind m (fun x => k))
  (at level 10, x pattern, m at level 100, k at level 200).
Notation "m ';;;' k" := (bind m (fun _ => k))
  (at level 100, k at level 200, right associativity).

Definition emit (e : Event) : M unit :=
  fun w =>
    (Return tt,
     {| sessions := sessions w;
        collected_context_keywords := collected_context_keywords w;
        trace := trace w ++ [e] |}).

(** The answer of a collaborator, or the exception its failure raises. *)
Definition answer_of {A} (e : exn) (o : option A) : M A :=
  match o with
  | Some a => ret a
  | None => raise e
  end.

Definition get_world : M World := fun w => (Return w, w).

Definition set_sessions (ss : gmap string Session) : M unit :=
  fun w =>
    (Return tt,
     {| sessions := ss;
        collected_context_keywords := collected_context_keywords w;
        trace := trace w |}).

Definition set_keywords (ks : gset string) : M unit :=
  fun w =>
    (Return tt,
     {| sessions := sessions w;
        collected_context_keywords := ks;
        trace := trace w |}).

Definition print (p : Printed) : M unit := emit (EvPrint p).

(** [self.logger.info(text)] *)
Definition logger_info (text : string) : M unit := emit (EvLogInfo text).

(** [time.sleep(seconds)] *)
Definition time_sleep (seconds : nat) : M unit := emit (EvSleep seconds).

(** A role invocation: the call is recorded, then answers or raises. *)
Definition call_role {A} (c : RoleCall) (o : option A) : M A :=
  emit (EvRole c) ;;; answer_of (RoleInvocationError (role_of c)) o.

(** A service call: recorded, then answers or raises. *)
Definition call_service {A} (e : Event) (service : string) (o : option A) : M A :=
  emit e ;;; answer_of (CollaboratorError service) o.

(** Reading a local variable that may not have been assigned yet. *)
Definition read_local (name : string) (v : option string) : M string :=
  answer_of (UnboundLocalError name) v.

(** [d[key]] on a dictionary *)
Definition getitem (d : gmap string string) (key : string) : M string :=
  answer_of (KeyError key) (d !! key).

(** ** Session state ([ProjectManager] and [AgentState]) *)

(** Modelled from the spec: the state of an objective just created. *)
Definition new_session : Session :=
  {| active := false; completed := false; messages := [] |}.

Definition with_active (b : bool) (s : Session) : Session :=
  {| active := b; completed := completed s; messages := messages s |}.

Definition with_completed (b : bool) (s : Session) : Session :=
  {| active := active s; completed := b; messages := messages s |}.

Definition append_messages (ms : list Message) (s : Session) : Session :=
  {| active := active s; completed := completed s;
     messages := messages s ++ ms |}.

(** Modelled from the spec: mutation of the Session State of an objective,
    which lives in [devika.project] and [devika.state], outside [src/].  The
    state is keyed by objective; mutating an objective that was never created
    fails loudly (InvalidObjectiveState) and creates nothing. *)
Definition update_session (project_name : string) (f : Session -> Session)
  : M unit :=
  let! w := get_world in
  match sessions w !! project_name with
  | Some s => set_sessions (<[project_name := f s]> (sessions w))
  | None => raise (InvalidObjectiveState project_name)
  end.

(** Modelled from the spec: [SessionState.create(objective)], the absent
    [ProjectManager.create_project]; a new objective starts inactive, not
    completed and with an empty log, an existing one is kept as it is. *)
Definition create_project (project_name : string) : M unit :=
  emit (EvCreateProject project_name) ;;;
  let! w := get_world in
  match sessions w !! project_name with
  | Some _ => ret tt
  | None => set_sessions (<[project_name := new_session]> (sessions w))
  end.

(** Modelled from the spec: [SessionState.set_active(objective, bool)], the
    absent [AgentState.set_agent_active]. *)
Definition set_agent_active (project_name : string) (b : bool) : M unit :=
  emit (EvSetActive project_name b) ;;;
  update_session project_name (with_active b).

(** Modelled from the spec: [SessionState.set_completed(objective, bool)],
    the absent [AgentState.set_agent_completed]. *)
Definition set_agent_completed (project_name : string) (b : bool) : M unit :=
  emit (EvSetCompleted project_name b) ;;;
  update_session project_name (with_completed b).

(** Modelled from the spec: [SessionState.append_user_message], the absent
    [ProjectManager.add_message_from_user]; the log is append-only. *)
Definition add_message_from_user (project_name message : string) : M unit :=
  emit (EvAddMessage user project_name message) ;;;
  update_session project_name
    (append_messages [{| origin := user; body := message |}]).

(** Modelled from the spec: [SessionState.append_system_message], the absent
    [ProjectManager.add_message_from_devika]. *)
Definition add_message_from_devika (project_name message : string) : M unit :=
  emit (EvAddMessage system project_name message) ;;;
  update_session project_name
    (append_messages [{| origin := system; body := message |}]).

(** Modelled from the spec: the log of an objective, empty when the
    objective does not exist. *)
Definition log_of (w : World) (project_name : string) : list Message :=
  match sessions w !! project_name with
  | Some s => messages s
  | None => []
  end.

Definition is_user (m : Message) : bool :=
  match origin m with user => true | system => false end.

(** Modelled from the spec: the most recent message of origin [user] in a
    log, if any. *)
Definition latest_from_user (log : list Message) : option Message :=
  head (filter (fun m => is_user m = true) (reverse log)).

(** Modelled from the spec: whether the last message of a log has origin
    [user]. *)
Definition last_is_from_user (log : list Message) : bool :=
  match last log with
  | Some m => is_user m
  | None => false
  end.

(** Modelled from the spec: [SessionState.get_latest_user_message(objective)
    -> Message|none], the absent [ProjectManager.get_latest_message_from_user]. *)
Definition get_latest_message_from_user (project_name : string)
  : M (option Message) :=
  let! w := get_world in ret (latest_from_user (log_of w project_name)).

(** Modelled from the spec: [SessionState.is_latest_message_from_user
    (objective) -> bool], the absent
    [ProjectManager.validate_last_message_is_from_user]. *)
Definition validate_last_message_is_from_user (project_name : string)
  : M bool :=
  let! w := get_world in ret (last_is_from_user (log_of w project_name)).

(** Modelled from the spec: a concurrent writer (the interface layer that
    accepts the user's messages) appends to the log of an objective while the
    agent is between two of its own steps.  Its appends are not calls of the
    agent, so they leave no event in the trace. *)
Definition concurrent_append (project_name : string) (ms : list Message)
  : M unit :=
  let! w := get_world in
  match sessions w !! project_name with
  | Some s => set_sessions (<[project_name := append_messages ms s]> (sessions w))
  | None => ret tt
  end.

(** ** The agent *)

Section Agent.

Context {Score : Type} (C : Collaborators Score).

(** Modelled from the spec: [SessionState.get_conversation(objective)], the
    absent [ProjectManager.get_all_messages_formatted]: the log in order,
    each message rendered by [format_message]. *)
Definition get_all_messages_formatted (project_name : string)
  : M (list string) :=
  let! w := get_world in
  ret (map (format_message C) (log_of w project_name)).

(** [role.save_code_to_project(code, project_name)] *)
Definition save_code (r : Role) (code project_name : string) : M unit :=
  call_service (EvSaveCode r code project_name) "save_code_to_project"
    (save_code_to_project C r code project_name).

Definition go_to (url : string) : M unit :=
  call_service (EvGoTo url) "browser" (browser_go_to C url).

Definition screenshot (project_name : string) : M unit :=
  call_service (EvScreenshot project_name) "browser"
    (browser_screenshot C project_name).

(** [PDFGenerator().markdown_to_pdf(markdown, project_name)] *)
Definition pdf (markdown project_name : string) : M string :=
  call_service (EvPdf markdown project_name) "pdf"
    (markdown_to_pdf C markdown project_name).

(** *** [Agent.search_queries] (agent.py, lines 65-89) *)

Fixpoint search_queries_from (results : gmap string string)
    (queries : list string) (project_name : string)
  : M (gmap string string) :=
  match queries with
  | [] => ret results
  | query :: rest =>
      let query := PyStr.lower (PyStr.strip query) in
      call_service (EvSearch query) "search" (web_search_search C query) ;;;
      let! result_url :=
        answer_of (CollaboratorError "search")
          (web_search_get_first_link C query) in
      go_to result_url ;;;
      screenshot project_name ;;;
      let! result_content :=
        answer_of (CollaboratorError "browser")
          (browser_extract_text C result_url) in
      let! formatted :=
        call_role (FormatterExecute result_content project_name)
          (formatter_execute C result_content project_name) in
      search_queries_from (<[query := formatted]> results) rest project_name
  end.

Definition search_queries (queries : list string) (project_name : string)
  : M (gmap string string) :=
  search_queries_from ∅ queries project_name.

(** *** [Agent.update_contextual_keywords] (lines 91-100)

    The method returns the set object it holds, not a copy; the returned
    value is the content of that set when the call returns. *)

Fixpoint add_keywords (keywords : list (string * Score)) (ks : gset string)
  : gset string :=
  match keywords with
  | [] => ks
  | keyword :: rest => add_keywords rest (ks ∪ {[ fst keyword ]})
  end.

Definition update_contextual_keywords (sentence : string) : M (gset string) :=
  let! keywords :=
    answer_of (CollaboratorError "bert") (extract_keywords C sentence) in
  let! w := get_world in
  set_keywords (add_keywords keywords (collected_context_keywords w)) ;;;
  let! w' := get_world in
  ret (collected_context_keywords w').

(** *** The download link (lines 121-123 and 231-233) *)

Definition pdf_download_url (project_name : string) : string :=
  let project_name_space_url := PyStr.replace " " "%20" project_name in
  "http://127.0.0.1:1337/api/download-project-pdf?project_name="
    +:+ project_name_space_url.

Definition pdf_response (project_name : string) : string :=
  "I have generated the PDF document. You can download it from here: "
    +:+ pdf_download_url project_name.

(** *** [Agent.make_decision] (lines 102-154) *)

(** The branch taken for one item, after its reply was appended. *)
Definition decision_branch (item : DecisionItem) (project_name : string)
  : M unit :=
  let function := function item in
  let args := args item in
  if String.eqb function "generate_pdf_document" then
    let! user_prompt := getitem args "user_prompt" in
    let! markdown :=
      call_role (ReporterExecute [user_prompt] "" project_name)
        (reporter_execute C [user_prompt] "" project_name) in
    let! _out_pdf_file := pdf markdown project_name in
    let response := pdf_response project_name in
    go_to (pdf_download_url project_name) ;;;
    screenshot project_name ;;;
    add_message_from_devika project_name response
  else if String.eqb function "browser_interaction" then
    let! user_prompt := getitem args "user_prompt" in
    call_service (EvInteraction (base_model C) user_prompt project_name)
      "interaction" (start_interaction C (base_model C) user_prompt project_name)
  else if String.eqb function "coding_project" then
    let! user_prompt := getitem args "user_prompt" in
    let! plan :=
      call_role (PlannerExecute user_prompt (Some project_name))
        (planner_execute C user_prompt (Some project_name)) in
    let! planner_response :=
      answer_of (RoleInvocationError Planner) (planner_parse_response C plan) in
    let! w := get_world in
    let kws := KwList (elements (collected_context_keywords w)) in
    let! research :=
      call_role (ResearcherExecute plan kws project_name)
        (researcher_execute C plan kws project_name) in
    let! search_results := search_queries (queries research) project_name in
    let! code :=
      call_role
        (CoderExecute plan (ask_user research) search_results project_name)
        (coder_execute C plan (ask_user research) search_results project_name) in
    save_code Coder code project_name
  else ret tt.

Fixpoint decision_items (decision : list DecisionItem) (project_name : string)
  : M unit :=
  match decision with
  | [] => ret tt
  | item :: rest =>
      add_message_from_devika project_name (reply item) ;;;
      decision_branch item project_name ;;;
      decision_items rest project_name
  end.

Definition make_decision (prompt project_name : string) : M unit :=
  let! decision :=
    call_role (DecisionExecute prompt project_name)
      (decision_execute C prompt project_name) in
  decision_items decision project_name.

(** *** [Netlify.deploy] (services/netlify.py) *)

Definition netlify_deploy (project_name : string) : M (gmap string string) :=
  let project_path := get_project_path C project_name in
  let! site :=
    call_service EvNetlifyCreateSite "netlify" (netlify_create_site C) in
  let! site_id := getitem site "id" in
  call_service (EvNetlifyDeploySite site_id project_path) "netlify"
    (netlify_deploy_site C site_id project_path).

(** *** [Action.execute] (roles/action/action.py)

    The conversation handed over by the agent is a list already, so the
    wrapping of a lone string does not apply. *)
Definition action_execute (conversation : list string) (project_name : string)
  : M (string * string) :=
  call_role (ActionExecute conversation project_name)
    (action__execute C conversation project_name).

(** *** [Agent.subsequent_execute] (lines 156-243) *)

(** The [if]/[elif] chain of lines 173-238.  [os_system] is assigned in the
    body of the method, so Python treats it as a local variable of the
    method: it is unbound on entry, the [run] branch alone assigns it, and
    a read while it is unbound raises [UnboundLocalError].  The arguments of
    a call are evaluated before the call is made. *)

Definition dispatch (action prompt project_name : string)
    (conversation : list string) (code_markdown : string) : M unit :=
  let os_system : option string := None in
  if String.eqb action "answer" then
    let! response :=
      call_role (AnswerExecute conversation code_markdown project_name)
        (answer_execute C conversation code_markdown project_name) in
    add_message_from_devika project_name response
  else if String.eqb action "run" then
    let os_system := Some (platform_platform C) in
    let project_path := get_project_path C project_name in
    let! os := read_local "os_system" os_system in
    call_role
      (RunnerExecute conversation code_markdown os project_path project_name)
      (runner_execute C conversation code_markdown os project_path project_name)
  else if String.eqb action "deploy" then
    let! deploy_metadata := netlify_deploy project_name in
    let! deploy_url := getitem deploy_metadata "deploy_url" in
    let response :=
      json_dumps_deploy C "Done! I deployed your project on Netflify." deploy_url in
    add_message_from_devika project_name response
  else if String.eqb action "feature" then
    let! os := read_local "os_system" os_system in
    let! code :=
      call_role (FeatureExecute conversation code_markdown os project_name)
        (feature_execute C conversation code_markdown os project_name) in
    print (PCode code) ;;;
    print PSeparator ;;;
    save_code Feature code project_name
  else if String.eqb action "bug" then
    let! os := read_local "os_system" os_system in
    let! code :=
      call_role
        (PatcherExecute conversation code_markdown [] prompt os project_name)
        (patcher_execute C conversation code_markdown [] prompt os project_name) in
    print (PCode code) ;;;
    print PSeparator ;;;
    save_code Patcher code project_name
  else if String.eqb action "report" then
    let! markdown :=
      call_role (ReporterExecute conversation code_markdown project_name)
        (reporter_execute C conversation code_markdown project_name) in
    let! _out_pdf_file := pdf markdown project_name in
    let response := pdf_response project_name in
    go_to (pdf_download_url project_name) ;;;
    screenshot project_name ;;;
    add_message_from_devika project_name response
  else ret tt.

Definition subsequent_execute (prompt project_name : string) : M unit :=
  set_agent_active project_name true ;;;
  let! conversation := get_all_messages_formatted project_name in
  let! code_markdown :=
    answer_of (CollaboratorError "filesystem")
      (code_to_markdown_convert C project_name) in
  let! (response, action) := action_execute conversation project_name in
  add_message_from_devika project_name response ;;;
  print PSeparator ;;;
  print (PAction action) ;;;
  print PSeparator ;;;
  dispatch action prompt project_name conversation code_markdown ;;;
  set_agent_active project_name false ;;;
  set_agent_completed project_name true ;;;
  ret tt.

(** *** The wait for user input in [Agent.execute] (lines 295-318)

    While the agent polls, the user's reply is appended by a concurrent
    writer.  [arrivals] lists, for each poll in turn, what that writer
    appends before the agent reads the latest user message and what it
    appends between that read and the check of the last message. *)

Definition acknowledgement : string := "Thanks! 🙌".

(** One pass through the body of the [while] loop: the reply it accepted,
    if it did. *)
Definition poll (project_name : string)
    (arrived : list Message * list Message) : M (option string) :=
  logger_info "Waiting for user query..." ;;;
  concurrent_append project_name (fst arrived) ;;;
  let! latest_message_from_user :=
    get_latest_message_from_user project_name in
  concurrent_append project_name (snd arrived) ;;;
  let! validate_last_message_is_from_user :=
    validate_last_message_is_from_user project_name in
  let! accepted :=
    match latest_message_from_user with
    | Some m =>
        if validate_last_message_is_from_user then
          add_message_from_devika project_name acknowledgement ;;;
          ret (Some (body m))
        else ret None
    | None => ret None
    end in
  time_sleep 5 ;;;
  ret accepted.

Fixpoint wait_for_user_query (project_name : string)
    (arrivals : list (list Message * list Message)) : M string :=
  match arrivals with
  | [] => waiting
  | arrived :: rest =>
      let! accepted := poll project_name arrived in
      match accepted with
      | Some ask_user_prompt => ret ask_user_prompt
      | None => wait_for_user_query project_name rest
      end
  end.

Definition suspend_for_input (project_name ask_user : string)
    (arrivals : list (list Message * list Message)) : M string :=
  let! ask_user_prompt :=
    if String.eqb ask_user "" then ret "Nothing from the user."
    else
      add_message_from_devika project_name ask_user ;;;
      set_agent_active project_name false ;;;
      wait_for_user_query project_name arrivals in
  set_agent_active project_name true ;;;
  ret ask_user_prompt.

(** *** [Agent.execute] (lines 245-344)

    [execute_pipeline] is the body of the method from line 270 on, once
    the plan is parsed and the objective is known; [execute] is the method,
    whose lines 245-268 plan and settle the objective. *)

Definition execute_pipeline (plan : string)
    (planner_response : PlannerResponse) (project_name : string)
    (arrivals : list (list Message * list Message)) : M unit :=
  let reply := planner_reply planner_response in
  let focus := focus planner_response in
  let plans := plans planner_response in
  let summary := summary planner_response in
  set_agent_active project_name true ;;;
  add_message_from_devika project_name reply ;;;
  add_message_from_devika project_name (json_dumps C plans) ;;;
  add_message_from_devika project_name ("In summary: " +:+ summary) ;;;
  update_contextual_keywords focus ;;;
  let! w := get_world in
  let kws := KwSet (collected_context_keywords w) in
  let! research :=
    call_role (ResearcherExecute plan kws project_name)
      (researcher_execute C plan kws project_name) in
  print (PResearch (queries research) (ask_user research)) ;;;
  print PSeparator ;;;
  let queries := queries research in
  let queries_combined := PyStr.join ", " queries in
  let ask_user := ask_user research in
  add_message_from_devika project_name
    ("I am browsing the web to research the following queries: "
       +:+ queries_combined
       +:+ ". If I need anything, I will make sure to ask you.") ;;;
  let! ask_user_prompt := suspend_for_input project_name ask_user arrivals in
  let! search_results := search_queries queries project_name in
  print (PSearchResults search_results) ;;;
  print PSeparator ;;;
  let! code :=
    call_role
      (CoderExecute plan ask_user_prompt search_results project_name)
      (coder_execute C plan ask_user_prompt search_results project_name) in
  print (PCode code) ;;;
  print PSeparator ;;;
  save_code Coder code project_name ;;;
  add_message_from_devika project_name
    "I have completed the coding task. You can now run the project." ;;;
  set_agent_active project_name false ;;;
  set_agent_completed project_name true ;;;
  ret tt.

Definition execute (prompt : string) (project_name_from_user : option string)
    (arrivals : list (list Message * list Message)) : M unit :=
  (if PyStr.truthy project_name_from_user
   then add_message_from_user (default "" project_name_from_user) prompt
   else ret tt) ;;;
  let! plan :=
    call_role (PlannerExecute prompt project_name_from_user)
      (planner_execute C prompt project_name_from_user) in
  print (PPlan plan) ;;;
  print PSeparator ;;;
  let! planner_response :=
    answer_of (RoleInvocationError Planner) (planner_parse_response C plan) in
  let! project_name :=
    if PyStr.truthy project_name_from_user
    then ret (default "" project_name_from_user)
    else
      let project_name := project planner_response in
      create_project project_name ;;;
      add_message_from_user project_name prompt ;;;
      ret project_name in
  execute_pipeline plan planner_response project_name arrivals.

End Agent.


(** * Observations on runs *)

(** [emits P m]: whatever its outcome, [m] only adds events to the end of the
    trace, and every event it adds satisfies [P]. *)
Definition emits (P : Event -> Prop) {A} (m : M A) : Prop :=
  forall w, exists t, trace (m w).2 = trace w ++ t /\ Forall P t.

Definition is_role_invocation (e : Event) : bool :=
  match e with EvRole _ => true | _ => false end.






(** The action kinds that [subsequent_execute] has a branch for. *)
Definition action_kinds : list string :=
  ["answer"; "run"; "deploy"; "feature"; "bug"; "report"].

(** The sets held by the agent after each of a sequence of
    [update_contextual_keywords] calls, one per sentence. *)
Fixpoint keyword_history {Score} (C : Collaborators Score)
    (sentences : list string) (w : World) : list (gset string) :=
  match sentences with
  | [] => []
  | sentence :: rest =>
      let w' := (update_contextual_keywords C sentence w).2 in
      collected_context_keywords w' :: keyword_history C rest w'
  end.

(** ** Spellings of a query *)

Module Spelling.

Definition islower (c : ascii) : bool :=
  let n := nat_of_ascii c in (97 <=? n) && (n <=? 122).

Definition upper_char (c : ascii) : ascii :=
  if islower c then ascii_of_nat (nat_of_ascii c - 32) else c.

(** A word of the letters a to z. *)
Fixpoint lowercase (s : string) : bool :=
  match s with
  | EmptyString => true
  | String c s' => islower c && lowercase s'
  end.

(** Only whitespace: any of the characters Python strips. *)
Definition blank (l : list N) : Prop :=
  Forall (fun c => Unicode.whitespace c = true) l.

(** [q] is [target] with some of its letters in upper case. *)
Fixpoint cased (target q : string) : Prop :=
  match target, q with
  | EmptyString, EmptyString => True
  | String c target', String d q' =>
      (d = c \/ d = upper_char c) /\ cased target' q'
  | _, _ => False
  end.

(** [q] is [target] in some casing, with whitespace around it, given by the
    code points [pre] and [post]. *)
Definition written_as (target q : string) : Prop :=
  exists pre mid post,
    q = Utf8.encode pre +:+ mid +:+ Utf8.encode post
    /\ blank pre /\ blank post /\ cased target mid.

End Spelling.

(** ** URL encoding, as the spec words the download link *)

Module Url.

Definition isalnum (c : ascii) : bool :=
  let n := nat_of_ascii c in
  ((48 <=? n) && (n <=? 57)) || ((65 <=? n) && (n <=? 90))
  || ((97 <=? n) && (n <=? 122)).

(** Characters that percent-encoding leaves as they are. *)
Definition unreserved (c : ascii) : bool :=
  isalnum c
  || Ascii.eqb c "-" || Ascii.eqb c "." || Ascii.eqb c "_" || Ascii.eqb c "~".

Definition hex_digit (n : nat) : ascii :=
  if n <? 10 then ascii_of_nat (48 + n) else ascii_of_nat (55 + n).

Definition percent (c : ascii) : string :=
  let n := nat_of_ascii c in
  String "%" (String (hex_digit (n / 16)) (String (hex_digit (n mod 16)) EmptyString)).

(** Percent-encoding of a query parameter value. *)
Fixpoint url_encode (s : string) : string :=
  match s with
  | EmptyString => EmptyString
  | String c s' =>
      if unreserved c then String c (url_encode s')
      else percent c +:+ url_encode s'
  end.

Fixpoint starts_with (prefix s : string) : bool :=
  match prefix, s with
  | EmptyString, _ => true
  | String c prefix', String d s' => Ascii.eqb c d && starts_with prefix' s'
  | String _ _, EmptyString => false
  end.

(** [sub] occurs in [s]. *)
Fixpoint contains (sub s : string) : bool :=
  starts_with sub s
  || match s with
     | EmptyString => false
     | String _ s' => contains sub s'
     end.

(** Names made of unreserved characters and spaces only. *)
Fixpoint plain (s : string) : Prop :=
  match s with
  | EmptyString => True
  | String c s' => (unreserved c = true \/ c = " "%char) /\ plain s'
  end.

End Url.

(** The collaborators answer the search for [query]: its first link is
    [url], the page there reads [text], and the formatter renders that text
    as [formatted]. *)
Definition answers_query {Score} (C : Collaborators Score)
    (project_name query url text formatted : string) : Prop :=
  web_search_search C query = Some tt
  /\ web_search_get_first_link C query = Some url
  /\ browser_go_to C url = Some tt
  /\ browser_screenshot C project_name = Some tt
  /\ browser_extract_text C url = Some text
  /\ formatter_execute C text project_name = Some formatted.

(** The events of one answered search. *)
Definition search_events (project_name query url text : string) : list Event :=
  [EvSearch query; EvGoTo url; EvScreenshot project_name;
   EvRole (FormatterExecute text project_name)].

Definition is_search_event (e : Event) : Prop :=
  match e with
  | EvSearch _ | EvGoTo _ | EvScreenshot _ | EvRole (FormatterExecute _ _) => True
  | _ => False
  end.

Definition log_event (e : list Event) (w : World) : World :=
  {| sessions := sessions w;
     collected_context_keywords := collected_context_keywords w;
     trace := trace w ++ e |}.

Definition put_session (project_name : string) (s : Session) (w : World)
  : World :=
  {| sessions := <[project_name := s]> (sessions w);
     collected_context_keywords := collected_context_keywords w;
     trace := trace w |}.

Definition system_message (text : string) : Message :=
  {| origin := system; body := text |}.

(** What [subsequent_execute] does before it selects a branch: the events
    up to the last [print] ahead of the [if]. *)
Definition preamble_events (project_name : string) (conversation : list string)
    (narration action : string) : list Event :=
  [EvSetActive project_name true;
   EvRole (ActionExecute conversation project_name);
   EvAddMessage system project_name narration;
   EvPrint PSeparator; EvPrint (PAction action); EvPrint PSeparator].

(** The last two calls of [execute] and [subsequent_execute]. *)
Definition exit_events (project_name : string) : list Event :=
  [EvSetActive project_name false; EvSetCompleted project_name true].

(** The tail of [subsequent_execute], lines 240-243. *)
Definition finish (project_name : string) : M unit :=
  set_agent_active project_name false ;;;
  set_agent_completed project_name true ;;;
  ret tt.

(** The events of the [report] branch and of the [generate_pdf_document]
    branch, given the reporter's input and its markdown. *)
Definition report_events (project_name : string) (conversation : list string)
    (code_markdown markdown : string) : list Event :=
  [EvRole (ReporterExecute conversation code_markdown project_name);
   EvPdf markdown project_name;
   EvGoTo (pdf_download_url project_name);
   EvScreenshot project_name;
   EvAddMessage system project_name (pdf_response project_name)].

Definition any_event (e : Event) : Prop := True.



Definition waiting_events : list Event :=
  [EvLogInfo "Waiting for user query..."; EvSleep 5].

Definition accepting_events (project_name : string) : list Event :=
  [EvLogInfo "Waiting for user query...";
   EvAddMessage system project_name acknowledgement;
   EvSleep 5].

(** Events of a run that is not suspended: no poll of the wait loop (its
    log line and its sleep), no clearing of [active], and the Coder, when
    invoked, given the stand-in for the user's reply. *)
Definition calm (e : Event) : bool :=
  match e with
  | EvLogInfo _ | EvSleep _ => false
  | EvSetActive _ b => b
  | EvRole (CoderExecute _ user_context _ _) =>
      String.eqb user_context "Nothing from the user."
  | _ => true
  end.

(** What a run adds after its own events: the exit calls when it returns,
    nothing when it raises. *)
Definition closing_events {A} (r : outcome A) (project_name : string)
  : list Event :=
  match r with
  | Return _ => exit_events project_name
  | _ => []
  end.

(** * Sample collaborators

    Collaborators that answer every call, used to run the agent on concrete
    inputs.  The action selector answers [action], the researcher asks
    [question], and the Decision role returns [decision]. *)

Module Sample.

Definition planned : PlannerResponse :=
  {| project := "todo-app";
     planner_reply := "On it.";
     focus := "todo app";
     plans := "1. list 2. add 3. remove";
     summary := "a small todo app" |}.

Definition collaborators (action question : string)
    (decision : list DecisionItem) : Collaborators nat :=
  {| base_model := "model";
     planner_execute := fun _ _ => Some "plan";
     planner_parse_response := fun _ => Some planned;
     researcher_execute := fun _ _ _ =>
       Some {| queries := [" Alpha"; "BETA "]; ask_user := question |};
     formatter_execute := fun content _ => Some ("formatted " +:+ content);
     coder_execute := fun _ _ _ _ => Some "code";
     action__execute := fun _ _ => Some ("Let me see.", action);
     answer_execute := fun _ _ _ => Some "It is a list.";
     runner_execute := fun _ _ _ _ _ => Some tt;
     feature_execute := fun _ _ _ _ => Some "code";
     patcher_execute := fun _ _ _ _ _ _ => Some "code";
     reporter_execute := fun _ _ _ => Some "# Report";
     decision_execute := fun _ _ => Some decision;
     save_code_to_project := fun _ _ _ => Some tt;
     extract_keywords := fun sentence => Some [(sentence, 1)];
     web_search_search := fun _ => Some tt;
     web_search_get_first_link := fun query =>
       Some ("https://example.org/" +:+ query);
     browser_go_to := fun _ => Some tt;
     browser_screenshot := fun _ => Some tt;
     browser_extract_text := fun url => Some ("text of " +:+ url);
     markdown_to_pdf := fun _ project_name => Some (project_name +:+ ".pdf");
     code_to_markdown_convert := fun _ => Some "files";
     start_interaction := fun _ _ _ => Some tt;
     netlify_create_site := Some {[ "id" := "site-1" ]};
     netlify_deploy_site := fun _ _ =>
       Some {[ "deploy_url" := "https://site-1.netlify.app" ]};
     get_project_path := fun project_name => "/projects/" +:+ project_name;
     platform_platform := "Linux";
     json_dumps := fun text => text;
     json_dumps_deploy := fun message url => message +:+ " " +:+ url;
     format_message := body |}.

Definition session (log : list Message) : Session :=
  {| active := false; completed := false; messages := log |}.

(** A world holding one objective with the given log. *)
Definition world (project_name : string) (log : list Message) : World :=
  {| sessions := {[ project_name := session log ]};
     collected_context_keywords := ∅;
     trace := [] |}.

Definition greeting : list Message :=
  [{| origin := user; body := "Build a todo app" |};
   {| origin := system; body := "Which framework?" |}].

Definition todo : World := world "todo-app" greeting.

Definition asked : Session :=
  {| active := false; completed := false; messages := greeting |}.

(** Collaborators whose action selector answers [action]. *)
Definition selecting (action : string) : Collaborators nat :=
  collaborators action "" [].

Definition react : Message := {| origin := user; body := "React" |}.

Definition pdf_item : DecisionItem :=
  {| function := "generate_pdf_document";
     args := {[ "user_prompt" := "X" ]};
     reply := "ok" |}.

End Sample.

(** * Invariants of the store

    Properties of the sessions and of the keyword set that the agent's code
    keeps, whatever the collaborators answer. *)

(** [J] holds of the sessions and the keywords of a world. *)
Definition holds (J : gmap string Session -> gset string -> Prop) (w : World)
  : Prop :=
  J (sessions w) (collected_context_keywords w).

(** [keeps J m]: [m] is never left waiting, and whatever its outcome it
    leaves [J] true when it found it true. *)
Definition keeps (J : gmap string Session -> gset string -> Prop) {A}
    (m : M A) : Prop :=
  forall w, holds J w -> holds J (m w).2 /\ (m w).1 <> Waiting.

(** [preserves J m]: whatever its outcome, waiting included, [m] leaves [J]
    true when it found it true. *)
Definition preserves (J : gmap string Session -> gset string -> Prop) {A}
    (m : M A) : Prop :=
  forall w, holds J w -> holds J (m w).2.

(** [J] survives the update of the session of [project_name] by [f]. *)
Definition respects (J : gmap string Session -> gset string -> Prop)
    (project_name : string) (f : Session -> Session) : Prop :=
  forall ss ks s,
    J ss ks -> ss !! project_name = Some s ->
    J (<[project_name := f s]> ss) ks.

(** [J] survives the creation of [project_name]. *)
Definition admits (J : gmap string Session -> gset string -> Prop)
    (project_name : string) : Prop :=
  forall ss ks,
    J ss ks -> ss !! project_name = None ->
    J (<[project_name := new_session]> ss) ks.

(** [J] does not depend on the keyword set. *)
Definition ignores_keywords (J : gmap string Session -> gset string -> Prop)
  : Prop :=
  forall ss ks ks', J ss ks -> J ss ks'.

(** The objective exists and its log starts with [log]. *)
Definition log_extends (objective : string) (log : list Message)
  : gmap string Session -> gset string -> Prop :=
  fun ss _ => exists s, ss !! objective = Some s /\ log `prefix_of` messages s.

(** The session of the objective, or its absence, is [x]. *)
Definition session_is (objective : string) (x : option Session)
  : gmap string Session -> gset string -> Prop :=
  fun ss _ => ss !! objective = x.

(** The objective exists with these flags. *)
Definition flags_are (objective : string) (a c : bool)
  : gmap string Session -> gset string -> Prop :=
  fun ss _ =>
    exists s, ss !! objective = Some s /\ active s = a /\ completed s = c.

Definition keywords_are (ks0 : gset string)
  : gmap string Session -> gset string -> Prop :=
  fun _ ks => ks = ks0.

(** [triple I m QR QE QW]: started where [I] holds, [m] ends where [QR]
    holds of its result when it returns, where [QE] holds when it raises and
    where [QW] holds when it is left waiting. *)
Definition triple (I : World -> Prop) {A} (m : M A)
    (QR : A -> World -> Prop) (QE QW : World -> Prop) : Prop :=
  forall w,
    I w ->
    match m w with
    | (Return a, w') => QR a w'
    | (Raise _, w') => QE w'
    | (Waiting, w') => QW w'
    end.

(** The flags of an objective in a world. *)
Definition flagged (objective : string) (a c : bool) (w : World) : Prop :=
  holds (flags_are objective a c) w.




(** The function names [make_decision] has a branch for. *)
Definition decision_functions : list string :=
  ["generate_pdf_document"; "browser_interaction"; "coding_project"].

Definition reply_events (project_name : string) (items : list DecisionItem)
  : list Event :=
  map (fun item => EvAddMessage system project_name (reply item)) items.

Definition reply_messages (items : list DecisionItem) : list Message :=
  map (fun item => system_message (reply item)) items.

(** [c] occurs in [s]. *)
Fixpoint has_char (c : ascii) (s : string) : bool :=
  match s with
  | EmptyString => false
  | String d s' => Ascii.eqb d c || has_char c s'
  end.

Definition from_system (m : Message) : Prop := origin m = system.


(** ** More sample inputs *)

Module Faulty.

(** The collaborators [C] with a planner and a Netlify that answer as
    given. *)
Definition rewired (C : Collaborators nat) (plan : option string)
    (site metadata : option (gmap string string)) : Collaborators nat :=
  {| base_model := base_model C;
     planner_execute := fun _ _ => plan;
     planner_parse_response := planner_parse_response C;
     researcher_execute := researcher_execute C;
     formatter_execute := formatter_execute C;
     coder_execute := coder_execute C;
     action__execute := action__execute C;
     answer_execute := answer_execute C;
     runner_execute := runner_execute C;
     feature_execute := feature_execute C;
     patcher_execute := patcher_execute C;
     reporter_execute := reporter_execute C;
     decision_execute := decision_execute C;
     save_code_to_project := save_code_to_project C;
     extract_keywords := extract_keywords C;
     web_search_search := web_search_search C;
     web_search_get_first_link := web_search_get_first_link C;
     browser_go_to := browser_go_to C;
     browser_screenshot := browser_screenshot C;
     browser_extract_text := browser_extract_text C;
     markdown_to_pdf := markdown_to_pdf C;
     code_to_markdown_convert := code_to_markdown_convert C;
     start_interaction := start_interaction C;
     netlify_create_site := site;
     netlify_deploy_site := fun _ _ => metadata;
     get_project_path := get_project_path C;
     platform_platform := platform_platform C;
     json_dumps := json_dumps C;
     json_dumps_deploy := json_dumps_deploy C;
     format_message := format_message C |}.

(** A planner that fails. *)
Definition no_plan : Collaborators nat :=
  rewired (Sample.selecting "") None None None.

(** A Netlify whose site has no [id]. *)
Definition no_site_id : Collaborators nat :=
  rewired (Sample.selecting "deploy") (Some "plan")
    (Some {[ "name" := "site-1" ]}) None.

(** A Netlify whose deployment has no [deploy_url]. *)
Definition no_deploy_url : Collaborators nat :=
  rewired (Sample.selecting "deploy") (Some "plan")
    (Some {[ "id" := "site-1" ]}) (Some {[ "state" := "error" ]}).

Definition send_email : DecisionItem :=
  {| function := "send_email"; args := ∅; reply := "I cannot send email." |}.


Definition coding_item : DecisionItem :=
  {| function := "coding_project";
     args := {[ "user_prompt" := "Add a login page" ]};
     reply := "On it." |}.

Definition ping : Message := {| origin := system; body := "Still there?" |}.

End Faulty.

(** Queries as a user may write them. *)
Module Written.

(** Alpha after a no-break space and a space, before an em space. *)
Definition alpha_spelt : string :=
  Utf8.encode [0xA0; 0x20]%N +:+ "Alpha" +:+ Utf8.encode [0x2003]%N.

(** BETA after an ideographic space, before a tab and a next-line
    character. *)
Definition beta_spelt : string :=
  Utf8.encode [0x3000]%N +:+ "BETA" +:+ Utf8.encode [0x9; 0x85]%N.


End Written.

(** Two objectives side by side. *)
Module Pair.

Definition blog_log : list Message :=
  [{| origin := user; body := "Write a blog engine" |}].

Definition both : World :=
  {| sessions :=
       {[ "todo-app" := Sample.asked; "blog" := Sample.session blog_log ]};
     collected_context_keywords := ∅;
     trace := [] |}.

End Pair.
(** * Reasoning about runs *)

(** Unfolds the monad and the primitive calls at the head of a run. *)
Ltac run_cbn :=
  cbv beta iota zeta delta
      [bind ret raise waiting emit answer_of get_world set_sessions
       set_keywords print logger_info time_sleep call_role call_service
       read_local getitem update_session create_project set_agent_active
       set_agent_completed add_message_from_user add_message_from_devika
       get_latest_message_from_user validate_last_message_is_from_user
       concurrent_append get_all_messages_formatted save_code go_to
       screenshot pdf action_execute netlify_deploy log_of
       with_active with_completed append_messages];
  cbn [sessions collected_context_keywords trace fst snd default
       active completed messages].

(** Symbolic execution: unfold, then resolve the lookups of the session
    that was just written. *)
Ltac run :=
  repeat (progress (run_cbn; rewrite ?lookup_insert_eq, ?insert_insert_eq)).

(** Case analysis on the answer of the collaborator the run is stuck on. *)
Ltac ask_collaborator :=
  match goal with
  | |- context [match ?o with Some _ => _ | None => _ end] =>
      lazymatch type of o with
      | option _ => let E := fresh "Ans" in destruct o eqn:E
      end
  end.

Section Runs.

Context {Score : Type} (C : Collaborators Score).

Lemma emits_weaken (P Q : Event -> Prop) {A} (m : M A) :
  (forall e, P e -> Q e) -> emits P m -> emits Q m.
Proof.
  intros HPQ Hm w. destruct (Hm w) as (t & Ht & HP).
  exists t. split; [exact Ht|]. eapply Forall_impl; eauto.
Qed.

Lemma emits_silent (P : Event -> Prop) {A} (m : M A) :
  (forall w, trace (m w).2 = trace w) -> emits P m.
Proof.
  intros H w. exists []. rewrite H, app_nil_r. split; [reflexivity|constructor].
Qed.

Lemma emits_ret P {A} (a : A) : emits P (ret a).
Proof. apply emits_silent. reflexivity. Qed.

Lemma emits_raise P {A} (e : exn) : emits P (@raise A e).
Proof. apply emits_silent. reflexivity. Qed.

Lemma emits_waiting P {A} : emits P (@waiting A).
Proof. apply emits_silent. reflexivity. Qed.

Lemma emits_get_world P : emits P get_world.
Proof. apply emits_silent. reflexivity. Qed.

Lemma emits_set_sessions P ss : emits P (set_sessions ss).
Proof. apply emits_silent. reflexivity. Qed.

Lemma emits_set_keywords P ks : emits P (set_keywords ks).
Proof. apply emits_silent. reflexivity. Qed.

Lemma emits_answer_of P {A} e (o : option A) : emits P (answer_of e o).
Proof. apply emits_silent. intros w. destruct o; reflexivity. Qed.

Lemma emits_emit (P : Event -> Prop) e : P e -> emits P (emit e).
Proof.
  intros He w. exists [e]. split; [reflexivity|]. repeat constructor. exact He.
Qed.

Lemma emits_bind P {A B} (m : M A) (k : A -> M B) :
  emits P m -> (forall a, emits P (k a)) -> emits P (bind m k).
Proof.
  intros Hm Hk w. destruct (Hm w) as (t1 & Ht1 & HP1).
  unfold bind. destruct (m w) as [[a|e|] w1]; simpl in *.
  - destruct (Hk a w1) as (t2 & Ht2 & HP2).
    exists (t1 ++ t2). rewrite Ht2, Ht1, app_assoc.
    split; [reflexivity|]. apply Forall_app; auto.
  - exists t1; auto.
  - exists t1; auto.
Qed.

Lemma emits_update_session P pn f : emits P (update_session pn f).
Proof.
  apply emits_silent. intros w. unfold update_session. run_cbn.
  destruct (sessions w !! pn); reflexivity.
Qed.

Lemma emits_concurrent_append P pn ms : emits P (concurrent_append pn ms).
Proof.
  apply emits_silent. intros w. unfold concurrent_append. run_cbn.
  destruct (sessions w !! pn); reflexivity.
Qed.

Lemma emits_call_role (P : Event -> Prop) {A} c (o : option A) :
  P (EvRole c) -> emits P (call_role c o).
Proof.
  intros. apply emits_bind; [apply emits_emit; assumption|].
  intros _. apply emits_answer_of.
Qed.

Lemma emits_call_service (P : Event -> Prop) {A} e s (o : option A) :
  P e -> emits P (call_service e s o).
Proof.
  intros. apply emits_bind; [apply emits_emit; assumption|].
  intros _. apply emits_answer_of.
Qed.

End Runs.

(** * The keyword accumulator *)

Section Keywords.

Context {Score : Type} (C : Collaborators Score).

Lemma add_keywords_union (keywords : list (string * Score)) (ks : gset string) :
  add_keywords keywords ks = ks ∪ list_to_set (keywords.*1).
Proof.
  revert ks. induction keywords as [|kw rest IH]; intros ks; simpl.
  - set_solver.
  - rewrite IH. set_solver.
Qed.

Lemma update_contextual_keywords_run sentence w :
  update_contextual_keywords C sentence w =
  match extract_keywords C sentence with
  | Some keywords =>
      let ks := collected_context_keywords w ∪ list_to_set (keywords.*1) in
      (Return ks,
       {| sessions := sessions w; collected_context_keywords := ks;
          trace := trace w |})
  | None => (Raise (CollaboratorError "bert"), w)
  end.
Proof.
  unfold update_contextual_keywords.
  destruct (extract_keywords C sentence) as [keywords|]; run; [|reflexivity].
  rewrite add_keywords_union. reflexivity.
Qed.

Lemma update_contextual_keywords_grows sentence w :
  collected_context_keywords w
    ⊆ collected_context_keywords (update_contextual_keywords C sentence w).2.
Proof.
  rewrite update_contextual_keywords_run.
  destruct (extract_keywords C sentence); simpl; set_solver.
Qed.

(** C8.  Each call of [update_contextual_keywords] unions the terms of the
    extracted keywords, without their scores, into the set the agent holds
    and returns the updated set; over any sequence of calls every set is a
    superset of the one before it. *)
Theorem contextual_keywords_monotone :
  (forall sentence w keywords,
      extract_keywords C sentence = Some keywords ->
      let ks := collected_context_keywords w ∪ list_to_set (keywords.*1) in
      (update_contextual_keywords C sentence w).1 = Return ks
      /\ collected_context_keywords
           (update_contextual_keywords C sentence w).2 = ks)
  /\ (forall sentence w,
        collected_context_keywords w
          ⊆ collected_context_keywords
              (update_contextual_keywords C sentence w).2)
  /\ (forall sentences w i (before after : gset string),
        (collected_context_keywords w :: keyword_history C sentences w) !! i
          = Some before ->
        keyword_history C sentences w !! i = Some after ->
        before ⊆ after).
Proof.
  split; [|split].
  - intros sentence w keywords Hk. rewrite update_contextual_keywords_run, Hk.
    split; reflexivity.
  - apply update_contextual_keywords_grows.
  - induction sentences as [|sentence rest IH]; intros w i before after Hb Ha.
    + destruct i; discriminate.
    + destruct i as [|i]; simpl in Hb, Ha.
      * inversion Hb; inversion Ha; subst.
        apply update_contextual_keywords_grows.
      * eapply IH; eauto.
Qed.

End Keywords.

(** * Strings *)

Section Strings.

Import PyStr Spelling.

Lemma append_assoc (s t u : string) : (s +:+ t) +:+ u = s +:+ (t +:+ u).
Proof.
  induction s as [|c s IH]; [reflexivity|].
  change (String c ((s +:+ t) +:+ u) = String c (s +:+ (t +:+ u))).
  now rewrite IH.
Qed.

Lemma append_empty (s : string) : s +:+ EmptyString = s.
Proof.
  induction s as [|c s IH]; [reflexivity|].
  change (String c (s +:+ EmptyString) = String c s). now rewrite IH.
Qed.

(** Decoding reads a whitespace character, whatever follows it. *)
Lemma decode_whitespace c s :
  Unicode.whitespace c = true ->
  Utf8.decode (Utf8.encode_point c +:+ s) = c :: Utf8.decode s.
Proof.
  intros H. apply existsb_exists in H as (x & Hx & E).
  apply N.eqb_eq in E. subst x. unfold Unicode.whitespace_points in Hx.
  cbn [In] in Hx.
  repeat (destruct Hx as [<-|Hx]; [reflexivity|]).
  destruct Hx.
Qed.

Lemma decode_blank pre s :
  blank pre -> Utf8.decode (Utf8.encode pre +:+ s) = pre ++ Utf8.decode s.
Proof.
  induction 1 as [|c pre Hc _ IH]; [reflexivity|].
  cbn [Utf8.encode]. rewrite append_assoc, decode_whitespace by exact Hc.
  now rewrite IH.
Qed.

Lemma decode_ascii a s :
  (N_of_ascii a <? 0x80)%N = true ->
  Utf8.decode (String a s) = N_of_ascii a :: Utf8.decode s.
Proof. intros H. cbn [Utf8.decode]. now rewrite H. Qed.

(** A letter of a word, in either case: one byte, no whitespace, and
    lowered to the letter. *)
Lemma letter_lowered c d :
  islower c = true ->
  d = c \/ d = upper_char c ->
  (N_of_ascii d <? 0x80)%N = true
  /\ Unicode.whitespace (N_of_ascii d) = false
  /\ (forall before after,
         lower_points before (N_of_ascii d :: after)
         = N_of_ascii c :: lower_points (N_of_ascii d :: before) after)
  /\ Utf8.encode_point (N_of_ascii d) = String d EmptyString.
Proof.
  destruct c as [[] [] [] [] [] [] [] []]; intros Hc; try discriminate Hc;
    intros [->| ->]; repeat split; try (intros before after);
    vm_compute; reflexivity.
Qed.

Lemma lstrip_points_blank pre l :
  blank pre -> lstrip_points (pre ++ l) = lstrip_points l.
Proof.
  induction 1 as [|c pre Hc _ IH]; [reflexivity|].
  cbn [app lstrip_points]. now rewrite Hc.
Qed.

Lemma lstrip_points_kept l :
  Forall (fun c => Unicode.whitespace c = false) l -> lstrip_points l = l.
Proof.
  destruct 1 as [|c l Hc _]; [reflexivity|].
  cbn [lstrip_points]. now rewrite Hc.
Qed.

(** Stripping takes the whitespace off both ends of [pre ++ l ++ post]
    when [l] holds none. *)
Lemma strip_points_surrounded pre l post :
  blank pre -> blank post ->
  Forall (fun c => Unicode.whitespace c = false) l ->
  rstrip_points (lstrip_points (pre ++ l ++ post)) = l.
Proof.
  intros Hpre Hpost Hl. rewrite lstrip_points_blank by exact Hpre.
  unfold rstrip_points. destruct l as [|c l].
  - cbn [app]. rewrite <- (app_nil_r post), lstrip_points_blank by exact Hpost.
    reflexivity.
  - assert (lstrip_points ((c :: l) ++ post) = (c :: l) ++ post) as ->.
    { inversion Hl as [|? ? Hc _]; subst.
      cbn [app lstrip_points]. now rewrite Hc. }
    rewrite rev_app_distr, lstrip_points_blank
      by (apply Forall_rev; exact Hpost).
    rewrite lstrip_points_kept by (apply Forall_rev; exact Hl).
    apply rev_involutive.
Qed.

(** A word of letters written in any casing: what decoding, lowering and
    encoding make of it. *)
Lemma cased_points target :
  lowercase target = true ->
  forall mid,
    cased target mid ->
    (forall s, Utf8.decode (mid +:+ s) = Utf8.decode mid ++ Utf8.decode s)
    /\ Forall (fun c => Unicode.whitespace c = false) (Utf8.decode mid)
    /\ (forall before,
           Utf8.encode (lower_points before (Utf8.decode mid)) = target)
    /\ Utf8.encode (Utf8.decode mid) = mid.
Proof.
  induction target as [|c target IH]; intros Hlow [|d mid] Hmid;
    cbn [cased] in Hmid; try tauto.
  - repeat split; constructor.
  - cbn [lowercase] in Hlow. apply andb_true_iff in Hlow as [Hc Hlow].
    destruct Hmid as [Hd Hmid].
    destruct (letter_lowered c d Hc Hd) as (Hbyte & Hws & Hlower & Henc).
    destruct (IH Hlow mid Hmid) as (Happ & Hnone & Hl & He).
    destruct (letter_lowered c c Hc (or_introl eq_refl)) as (_ & _ & _ & Hencc).
    repeat split.
    + intros s. change (String d mid +:+ s) with (String d (mid +:+ s)).
      rewrite !decode_ascii by exact Hbyte. now rewrite Happ.
    + rewrite decode_ascii by exact Hbyte. constructor; assumption.
    + intros before. rewrite decode_ascii, Hlower by exact Hbyte.
      cbn [Utf8.encode]. now rewrite Hencc, Hl.
    + rewrite decode_ascii by exact Hbyte. cbn [Utf8.encode].
      now rewrite Henc, He.
Qed.

(** A query that is a word of letters in any casing, with whitespace
    around it, is filed under the word. *)
Lemma normalise_written_as target q :
  lowercase target = true ->
  written_as target q -> lower (strip q) = target.
Proof.
  intros Hlow (pre & mid & post & -> & Hpre & Hpost & Hmid).
  destruct (cased_points target Hlow mid Hmid) as (Happ & Hnone & Hl & He).
  unfold strip, lower.
  rewrite decode_blank, Happ by exact Hpre.
  rewrite <- (append_empty (Utf8.encode post)), decode_blank by exact Hpost.
  cbn [Utf8.decode]. rewrite app_nil_r.
  rewrite strip_points_surrounded by assumption.
  rewrite He. rewrite <- (append_empty mid), Happ. cbn [Utf8.decode].
  rewrite app_nil_r. apply Hl.
Qed.

(** The model at strings outside ASCII: a no-break space and an em space
    are stripped, an accented capital is lowered, the capital I with dot
    above becomes an i and a combining dot, and a capital sigma at the end
    of a word becomes the final sigma. *)
Example strip_lower_beyond_ascii :
  strip (Utf8.encode [0xA0]%N +:+ "Alpha" +:+ Utf8.encode [0x2003]%N) = "Alpha"
  /\ lower "ÉCOLE" = "école"
  /\ lower (Utf8.encode [0x130]%N) = Utf8.encode [0x69; 0x307]%N
  /\ lower "ΟΔΟΣ ΣΑΣ" = "οδος σας".
Proof. repeat split; vm_compute; reflexivity. Qed.

Lemma replace_space_plain s :
  Url.plain s -> replace " " "%20" s = Url.url_encode s.
Proof.
  induction s as [|c s IH]; simpl; [reflexivity|].
  intros [Hc Hs]. rewrite (IH Hs). destruct Hc as [Hc| ->].
  - rewrite Hc.
    destruct (Ascii.eqb c " ") eqn:E; [|reflexivity].
    apply Ascii.eqb_eq in E. subst c. discriminate Hc.
  - reflexivity.
Qed.

End Strings.

(** * [search_queries] *)

Section SearchQueries.

Context {Score : Type} (C : Collaborators Score).

Lemma search_queries_from_step results query rest pn w url text formatted :
  answers_query C pn (PyStr.lower (PyStr.strip query)) url text formatted ->
  search_queries_from C results (query :: rest) pn w =
  search_queries_from C
    (<[PyStr.lower (PyStr.strip query) := formatted]> results) rest pn
    (log_event
       (search_events pn (PyStr.lower (PyStr.strip query)) url text) w).
Proof.
  intros (Hs & Hl & Hg & Hsh & Hx & Hf).
  cbn [search_queries_from]. run. rewrite Hs. run. rewrite Hl. run.
  rewrite Hg. run. rewrite Hsh. run. rewrite Hx. run. rewrite Hf. run.
  unfold log_event, search_events. rewrite <- !app_assoc. reflexivity.
Qed.

(** Searching touches neither the sessions nor the keywords, and only
    searches, browses and invokes the formatter. *)
Lemma search_queries_from_frame results queries pn w :
  let r := (search_queries_from C results queries pn w).1 in
  let w' := (search_queries_from C results queries pn w).2 in
  r <> Waiting
  /\ sessions w' = sessions w
  /\ collected_context_keywords w' = collected_context_keywords w
  /\ exists t, trace w' = trace w ++ t /\ Forall is_search_event t.
Proof.
  revert results w. induction queries as [|query rest IH]; intros results w.
  - simpl. repeat split; [discriminate|]. exists []. now rewrite app_nil_r.
  - cbn [search_queries_from]. set (q := PyStr.lower (PyStr.strip query)).
    run.
    destruct (web_search_search C q); run;
      [|repeat split; [discriminate|]; exists [EvSearch q];
        split; [reflexivity|repeat constructor]].
    destruct (web_search_get_first_link C q) as [url|]; run;
      [|repeat split; [discriminate|]; exists [EvSearch q];
        split; [reflexivity|repeat constructor]].
    destruct (browser_go_to C url); run;
      [|repeat split; [discriminate|]; exists [EvSearch q; EvGoTo url];
        split; [now rewrite <- !app_assoc|repeat constructor]].
    destruct (browser_screenshot C pn); run;
      [|repeat split; [discriminate|];
        exists [EvSearch q; EvGoTo url; EvScreenshot pn];
        split; [now rewrite <- !app_assoc|repeat constructor]].
    destruct (browser_extract_text C url) as [text|]; run;
      [|repeat split; [discriminate|];
        exists [EvSearch q; EvGoTo url; EvScreenshot pn];
        split; [now rewrite <- !app_assoc|repeat constructor]].
    destruct (formatter_execute C text pn) as [formatted|]; run;
      [|repeat split; [discriminate|];
        exists (search_events pn q url text);
        split; [now rewrite <- !app_assoc|repeat constructor]].
    match goal with
    | |- context [search_queries_from C ?r rest pn ?w1] =>
        destruct (IH r w1) as (Hr & Hs & Hk & t & Ht & HP)
    end.
    cbn [sessions collected_context_keywords trace] in Hs, Hk, Ht.
    repeat split; [exact Hr|exact Hs|exact Hk|].
    exists (search_events pn q url text ++ t). split.
    + rewrite Ht. unfold search_events. now rewrite <- !app_assoc.
    + apply Forall_app. split; [repeat constructor|exact HP].
Qed.

(** C5.  Given the queries alpha and beta, in any casing and with any
    whitespace around them (any run of the characters [str.strip] takes
    off, the non-ASCII ones included), and collaborators that answer both
    searches, [search_queries] returns a mapping with exactly two entries:
    the keys are the lower-cased, trimmed strings "alpha" and "beta", and
    each is mapped to the formatted content found for it. *)
Theorem search_queries_alpha_beta q1 q2 pn w url1 text1 f1 url2 text2 f2 :
  Spelling.written_as "alpha" q1 ->
  Spelling.written_as "beta" q2 ->
  answers_query C pn "alpha" url1 text1 f1 ->
  answers_query C pn "beta" url2 text2 f2 ->
  exists results w',
    search_queries C [q1; q2] pn w = (Return results, w')
    /\ size results = 2
    /\ dom results = {[ "alpha"; "beta" ]}
    /\ results !! "alpha" = Some f1
    /\ results !! "beta" = Some f2.
Proof.
  intros Hq1 Hq2 Ha Hb.
  apply normalise_written_as in Hq1; [|reflexivity].
  apply normalise_written_as in Hq2; [|reflexivity].
  unfold search_queries.
  rewrite (search_queries_from_step _ q1 _ pn w url1 text1 f1)
    by (rewrite Hq1; exact Ha).
  rewrite (search_queries_from_step _ q2 _ pn _ url2 text2 f2)
    by (rewrite Hq2; exact Hb).
  rewrite Hq1, Hq2. cbn [search_queries_from ret].
  eexists _, _. split; [reflexivity|].
  assert (("alpha" : string) ≠ "beta") as Hne by discriminate.
  split; [|split; [|split]].
  - rewrite map_size_insert_None by (rewrite lookup_insert_ne; [apply lookup_empty|exact Hne]).
    rewrite map_size_insert_None by apply lookup_empty.
    rewrite map_size_empty. reflexivity.
  - rewrite !dom_insert_L, dom_empty_L. set_solver.
  - rewrite lookup_insert_ne by (intros E; apply Hne; symmetry; exact E).
    apply lookup_insert_eq.
  - apply lookup_insert_eq.
Qed.

End SearchQueries.

(** * [subsequent_execute] *)

Section SubsequentExecute.

Context {Score : Type} (C : Collaborators Score).

Lemma finish_run pn w s :
  sessions w !! pn = Some s ->
  finish pn w =
  (Return tt,
   log_event (exit_events pn)
     (put_session pn
        {| active := false; completed := true; messages := messages s |} w)).
Proof.
  intros Hs. unfold finish. run. rewrite Hs. run.
  unfold log_event, put_session, exit_events. cbn [trace sessions].
  now rewrite <- app_assoc.
Qed.

(** Up to the dispatch the run is fixed by the session and by what the
    file renderer and the action selector answer. *)
Lemma subsequent_execute_preamble prompt pn w s md narration action :
  sessions w !! pn = Some s ->
  code_to_markdown_convert C pn = Some md ->
  action__execute C (map (format_message C) (messages s)) pn
    = Some (narration, action) ->
  subsequent_execute C prompt pn w =
  (dispatch C action prompt pn (map (format_message C) (messages s)) md ;;;
   finish pn)
    (log_event
       (preamble_events pn (map (format_message C) (messages s))
          narration action)
       (put_session pn
          {| active := true; completed := completed s;
             messages := messages s ++ [system_message narration] |} w)).
Proof.
  intros Hs Hmd Hact. unfold subsequent_execute.
  run. rewrite Hs. run. rewrite Hmd. run. rewrite Hact. run.
  unfold log_event, put_session, preamble_events, finish. run.
  rewrite <- !app_assoc. reflexivity.
Qed.

Lemma dispatch_other action prompt pn conversation md :
  action ∉ action_kinds ->
  dispatch C action prompt pn conversation md = ret tt.
Proof.
  intros Hno. unfold dispatch.
  repeat match goal with
    | |- context [String.eqb action ?k] =>
        destruct (String.eqb_spec action k) as [->|_];
        [exfalso; apply Hno; unfold action_kinds; set_solver|]
    end.
  reflexivity.
Qed.

(** C10.  When the action selector answers with a kind that has no branch,
    [subsequent_execute] raises nothing and runs no handler: after the
    narration is appended and the action printed, it goes straight to
    clearing [active] and setting [completed], and returns [None]. *)
Theorem subsequent_execute_unknown_action prompt pn w s md narration action :
  sessions w !! pn = Some s ->
  code_to_markdown_convert C pn = Some md ->
  action__execute C (map (format_message C) (messages s)) pn
    = Some (narration, action) ->
  action ∉ action_kinds ->
  exists w',
    subsequent_execute C prompt pn w = (Return tt, w')
    /\ trace w' =
         trace w
         ++ preamble_events pn (map (format_message C) (messages s))
              narration action
         ++ exit_events pn
    /\ sessions w' !! pn =
         Some {| active := false; completed := true;
                 messages := messages s ++ [system_message narration] |}.
Proof.
  intros Hs Hmd Hact Hno.
  rewrite (subsequent_execute_preamble prompt pn w s md narration action)
    by assumption.
  rewrite dispatch_other by assumption.
  cbv beta iota zeta delta [bind ret].
  erewrite finish_run by (apply lookup_insert_eq).
  eexists. split; [reflexivity|]. split.
  - cbn [log_event put_session trace]. now rewrite <- app_assoc.
  - cbn [log_event put_session sessions messages]. run. reflexivity.
Qed.

End SubsequentExecute.

Section Dispatch.

Context {Score : Type} (C : Collaborators Score).

Lemma dispatch_feature prompt pn conversation md :
  dispatch C "feature" prompt pn conversation md
  = raise (UnboundLocalError "os_system").
Proof. reflexivity. Qed.

Lemma dispatch_bug prompt pn conversation md :
  dispatch C "bug" prompt pn conversation md
  = raise (UnboundLocalError "os_system").
Proof. reflexivity. Qed.

Lemma dispatch_run prompt pn conversation md :
  dispatch C "run" prompt pn conversation md
  = call_role
      (RunnerExecute conversation md (platform_platform C)
         (get_project_path C pn) pn)
      (runner_execute C conversation md (platform_platform C)
         (get_project_path C pn) pn).
Proof. reflexivity. Qed.

(** C1.  [os_system] is assigned in the [run] branch only.  When the
    selected action is [feature] or [bug], the branch reads it unbound: the
    run stops with [UnboundLocalError] before the Feature or Patcher role
    is invoked, leaving the session active.  The [run] branch assigns it
    first and hands the platform descriptor to the Runner. *)
Theorem os_system_bound_in_run_only prompt pn w s md narration :
  sessions w !! pn = Some s ->
  code_to_markdown_convert C pn = Some md ->
  let conversation := map (format_message C) (messages s) in
  (forall action,
      action = "feature" \/ action = "bug" ->
      action__execute C conversation pn = Some (narration, action) ->
      exists w',
        subsequent_execute C prompt pn w
          = (Raise (UnboundLocalError "os_system"), w')
        /\ trace w' =
             trace w ++ preamble_events pn conversation narration action
        /\ sessions w' !! pn =
             Some {| active := true; completed := completed s;
                     messages := messages s ++ [system_message narration] |})
  /\ (action__execute C conversation pn = Some (narration, "run") ->
      exists r w' rest,
        subsequent_execute C prompt pn w = (r, w')
        /\ trace w' =
             trace w ++ preamble_events pn conversation narration "run"
             ++ EvRole
                  (RunnerExecute conversation md (platform_platform C)
                     (get_project_path C pn) pn) :: rest
        /\ r <> Raise (UnboundLocalError "os_system")).
Proof.
  intros Hs Hmd conversation. subst conversation. split.
  - intros action Hkind Hact.
    rewrite (subsequent_execute_preamble C prompt pn w s md narration action)
      by assumption.
    set (conversation := map (format_message C) (messages s)).
    assert (dispatch C action prompt pn conversation md
            = raise (UnboundLocalError "os_system")) as ->
      by (destruct Hkind as [->| ->]; reflexivity).
    eexists. split; [reflexivity|]. split; [reflexivity|].
    unfold log_event, put_session. cbn [sessions].
    apply lookup_insert_eq.
  - intros Hact.
    rewrite (subsequent_execute_preamble C prompt pn w s md narration "run")
      by assumption.
    set (conversation := map (format_message C) (messages s)).
    rewrite dispatch_run.
    destruct (runner_execute C conversation md (platform_platform C)
                (get_project_path C pn) pn) as [[]|].
    + unfold log_event, put_session. run.
      erewrite (finish_run) by (cbn [sessions]; apply lookup_insert_eq).
      eexists _, _, (exit_events pn). split; [reflexivity|].
      split; [|discriminate].
      unfold log_event, put_session. cbn [trace].
      rewrite <- !app_assoc. reflexivity.
    + unfold log_event, put_session. run.
      eexists _, _, []. split; [reflexivity|].
      split; [|discriminate].
      rewrite <- !app_assoc. reflexivity.
Qed.

End Dispatch.

(** Decides the comparisons of literal strings in the goal. *)
Ltac eqb_compute :=
  repeat match goal with
    | |- context [String.eqb ?a ?b] =>
        let v := eval vm_compute in (String.eqb a b) in
        lazymatch v with
        | true => change (String.eqb a b) with true
        | false => change (String.eqb a b) with false
        end
    end;
  cbv iota.

(** * Traces only grow *)

Ltac emits_step :=
  first
    [ apply emits_ret | apply emits_raise | apply emits_waiting
    | apply emits_get_world | apply emits_set_sessions
    | apply emits_set_keywords | apply emits_answer_of
    | apply emits_update_session | apply emits_concurrent_append
    | apply emits_emit; first [exact I | reflexivity]
    | apply emits_call_role; first [exact I | reflexivity]
    | apply emits_call_service; first [exact I | reflexivity]
    | apply emits_bind; [|intros ?]
    | match goal with
      | |- emits _ (if ?b then _ else _) => destruct b
      | |- emits _ (match ?o with Some _ => _ | None => _ end) => destruct o
      | |- emits _ (let (_, _) := ?p in _) => destruct p
      end ].

Ltac emits_tac := repeat emits_step.

Section Growth.

Context {Score : Type} (C : Collaborators Score).

Lemma emits_run (P : Event -> Prop) {A} (m : M A) w r w' :
  emits P m -> m w = (r, w') -> exists t, trace w' = trace w ++ t /\ Forall P t.
Proof. intros Hm E. specialize (Hm w). now rewrite E in Hm. Qed.

Lemma grows_run {A} (m : M A) w r w' :
  emits any_event m -> m w = (r, w') -> exists t, trace w' = trace w ++ t.
Proof.
  intros Hm E. destruct (emits_run _ _ _ _ _ Hm E) as (t & Ht & _). eauto.
Qed.

Lemma grows_prefix {A} (m : M A) w r w' :
  m w = (r, w') -> emits any_event m -> trace w `prefix_of` trace w'.
Proof. intros E Hm. exact (grows_run m w r w' Hm E). Qed.

Lemma emits_session_ops pn b text :
  emits any_event (set_agent_active pn b)
  /\ emits any_event (set_agent_completed pn b)
  /\ emits any_event (add_message_from_user pn text)
  /\ emits any_event (add_message_from_devika pn text)
  /\ emits any_event (create_project pn).
Proof.
  unfold set_agent_active, set_agent_completed, add_message_from_user,
    add_message_from_devika, create_project.
  repeat split; emits_tac.
Qed.

Lemma emits_set_agent_active pn b : emits any_event (set_agent_active pn b).
Proof. apply (emits_session_ops pn b ""). Qed.

Lemma emits_set_agent_completed pn b :
  emits any_event (set_agent_completed pn b).
Proof. apply (emits_session_ops pn b ""). Qed.

Lemma emits_add_message_from_user pn text :
  emits any_event (add_message_from_user pn text).
Proof. apply (emits_session_ops pn true text). Qed.

Lemma emits_add_message_from_devika pn text :
  emits any_event (add_message_from_devika pn text).
Proof. apply (emits_session_ops pn true text). Qed.

Lemma emits_create_project pn : emits any_event (create_project pn).
Proof. apply (emits_session_ops pn true ""). Qed.

Lemma emits_search_queries queries pn :
  emits any_event (search_queries C queries pn).
Proof.
  intros w. unfold search_queries.
  destruct (search_queries_from_frame C ∅ queries pn w) as (_ & _ & _ & t & Ht & _).
  exists t. split; [exact Ht|]. apply Forall_forall. intros; exact I.
Qed.

Lemma emits_update_contextual_keywords sentence :
  emits any_event (update_contextual_keywords C sentence).
Proof. unfold update_contextual_keywords. emits_tac. Qed.


Lemma emits_dispatch action prompt pn conversation md :
  emits any_event (dispatch C action prompt pn conversation md).
Proof.
  unfold dispatch, netlify_deploy, read_local, getitem, pdf, go_to,
    screenshot, save_code, print.
  emits_tac; apply emits_add_message_from_devika.
Qed.

(** The [deploy] branch invokes no role: it calls the deployment service
    and appends its message. *)
Lemma dispatch_deploy_invokes_no_role prompt pn conversation md :
  emits (fun e => is_role_invocation e = false)
    (dispatch C "deploy" prompt pn conversation md).
Proof.
  unfold dispatch. eqb_compute.
  unfold netlify_deploy, getitem, add_message_from_devika. emits_tac.
Qed.

Lemma emits_poll pn arrived : emits any_event (poll pn arrived).
Proof.
  unfold poll, logger_info, time_sleep, get_latest_message_from_user,
    validate_last_message_is_from_user.
  emits_tac; apply emits_add_message_from_devika.
Qed.

Lemma emits_wait_for_user_query pn arrivals :
  emits any_event (wait_for_user_query pn arrivals).
Proof.
  induction arrivals as [|arrived rest IH]; cbn [wait_for_user_query].
  - apply emits_waiting.
  - apply emits_bind; [apply emits_poll|].
    intros [reply|]; [apply emits_ret|exact IH].
Qed.

Lemma emits_suspend_for_input pn ask_user arrivals :
  emits any_event (suspend_for_input pn ask_user arrivals).
Proof.
  unfold suspend_for_input.
  apply emits_bind; [|intros ?; apply emits_bind;
                       [apply emits_set_agent_active|intros ?; apply emits_ret]].
  destruct (String.eqb ask_user ""); [apply emits_ret|].
  apply emits_bind; [apply emits_add_message_from_devika|intros ?].
  apply emits_bind; [apply emits_set_agent_active|intros ?].
  apply emits_wait_for_user_query.
Qed.

End Growth.

(** * The roles of the branches *)


Section HandlerRoles.

Context {Score : Type} (C : Collaborators Score).






End HandlerRoles.

(** * The PDF branches *)

(** Follows a run that returned: every collaborator on the way answered. *)
Ltac run_returned :=
  repeat (run;
          try (let H := fresh in intros H; discriminate H);
          try ask_collaborator).

Section Pdf.

Context {Score : Type} (C : Collaborators Score).

Lemma dispatch_report_returned prompt pn conversation md w w' :
  dispatch C "report" prompt pn conversation md w = (Return tt, w') ->
  exists markdown s,
    sessions w !! pn = Some s
    /\ reporter_execute C conversation md pn = Some markdown
    /\ w' = log_event (report_events pn conversation md markdown)
              (put_session pn
                 (append_messages [system_message (pdf_response pn)] s) w).
Proof.
  unfold dispatch. eqb_compute. run_returned.
  intros H. injection H as <-. eexists _, _.
  do 2 (split; [first [reflexivity|eassumption]|]).
  unfold log_event, put_session, report_events, append_messages.
  cbn [sessions trace collected_context_keywords].
  rewrite <- !app_assoc. reflexivity.
Qed.

Lemma decision_branch_pdf_returned item pn w w' :
  function item = "generate_pdf_document" ->
  decision_branch C item pn w = (Return tt, w') ->
  exists user_prompt markdown s,
    sessions w !! pn = Some s
    /\ args item !! "user_prompt" = Some user_prompt
    /\ reporter_execute C [user_prompt] "" pn = Some markdown
    /\ w' = log_event (report_events pn [user_prompt] "" markdown)
              (put_session pn
                 (append_messages [system_message (pdf_response pn)] s) w).
Proof.
  intros Hf. unfold decision_branch. rewrite Hf. eqb_compute. run_returned.
  intros H. injection H as <-. eexists _, _, _.
  do 3 (split; [first [reflexivity|eassumption]|]).
  unfold log_event, put_session, report_events, append_messages.
  cbn [sessions trace collected_context_keywords].
  rewrite <- !app_assoc. reflexivity.
Qed.

Lemma last_log_put pn s m w t :
  last (log_of (log_event t (put_session pn (append_messages [m] s) w)) pn)
  = Some m.
Proof.
  unfold log_of, log_event, put_session, append_messages. cbn [sessions].
  rewrite lookup_insert_eq. cbn [messages]. apply last_snoc.
Qed.

(** C9, as amended.  The download-link message appended by the [report]
    branch of [subsequent_execute] and by the [generate_pdf_document]
    branch of [make_decision] ends with the URL
    http://127.0.0.1:1337/api/download-project-pdf?project_name=N, where N
    is the objective name with every space replaced by %20 and every other
    character as it is; for a name made of unreserved URL characters and
    spaces only, N is the url-encoded name. *)
Theorem download_link_replaces_spaces pn :
  let url :=
    "http://127.0.0.1:1337/api/download-project-pdf?project_name="
      +:+ PyStr.replace " " "%20" pn in
  let text :=
    "I have generated the PDF document. You can download it from here: "
      +:+ url in
  (forall prompt conversation md w w',
      dispatch C "report" prompt pn conversation md w = (Return tt, w') ->
      exists markdown,
        trace w' =
          trace w
          ++ [EvRole (ReporterExecute conversation md pn);
              EvPdf markdown pn; EvGoTo url; EvScreenshot pn;
              EvAddMessage system pn text]
        /\ last (log_of w' pn) = Some (system_message text))
  /\ (forall item w w',
        function item = "generate_pdf_document" ->
        decision_branch C item pn w = (Return tt, w') ->
        exists user_prompt markdown,
          trace w' =
            trace w
            ++ [EvRole (ReporterExecute [user_prompt] "" pn);
                EvPdf markdown pn; EvGoTo url; EvScreenshot pn;
                EvAddMessage system pn text]
          /\ last (log_of w' pn) = Some (system_message text))
  /\ (Url.plain pn -> PyStr.replace " " "%20" pn = Url.url_encode pn).
Proof.
  intros url text. split; [|split].
  - intros prompt conversation md w w' H.
    apply dispatch_report_returned in H as (markdown & s & _ & _ & ->).
    exists markdown. split; [reflexivity|apply last_log_put].
  - intros item w w' Hf H.
    apply decision_branch_pdf_returned in H as (up & markdown & s & _ & _ & _ & ->);
      [|exact Hf].
    exists up, markdown. split; [reflexivity|apply last_log_put].
  - apply replace_space_plain.
Qed.

End Pdf.

(** * [make_decision] *)

Section MakeDecision.

Context {Score : Type} (C : Collaborators Score).

Lemma bind_returned {A B} (m : M A) (k : A -> M B) w b w' :
  bind m k w = (Return b, w') ->
  exists a w1, m w = (Return a, w1) /\ k a w1 = (Return b, w').
Proof.
  unfold bind. destruct (m w) as [[a|e|] w1]; try discriminate. eauto.
Qed.

Lemma add_message_from_devika_returned pn text w w' :
  add_message_from_devika pn text w = (Return tt, w') ->
  exists s,
    sessions w !! pn = Some s
    /\ w' = log_event [EvAddMessage system pn text]
              (put_session pn (append_messages [system_message text] s) w).
Proof.
  run_returned. intros H. injection H as <-. eexists. split; reflexivity.
Qed.



End MakeDecision.

(** * The wait for user input *)

Section Wait.

Lemma latest_from_user_is_Some log :
  Exists (fun m => origin m = user) log -> is_Some (latest_from_user log).
Proof.
  intros H. apply Exists_exists in H as (m & Hin & Hm).
  unfold latest_from_user.
  assert (m ∈ filter (fun m => is_user m = true) (reverse log)) as Hf.
  { apply list_elem_of_filter. split.
    - unfold is_user. now rewrite Hm.
    - now apply elem_of_reverse. }
  destruct (filter _ (reverse log)) as [|m0 l]; [inversion Hf|].
  simpl. eauto.
Qed.

Lemma last_is_from_user_spec log :
  last_is_from_user log = true
  <-> exists m, last log = Some m /\ origin m = user.
Proof.
  unfold last_is_from_user, is_user. split.
  - destruct (last log) as [m|]; [|discriminate].
    destruct (origin m) eqn:E; [eauto|discriminate].
  - intros (m & -> & ->). reflexivity.
Qed.

(** What one poll does, given the session it finds. *)
Lemma poll_run pn arrived w s :
  sessions w !! pn = Some s ->
  let seen := messages s ++ arrived.1 in
  let log := messages s ++ arrived.1 ++ arrived.2 in
  poll pn arrived w =
  match latest_from_user seen with
  | Some m =>
      if last_is_from_user log then
        (Return (Some (body m)),
         log_event (accepting_events pn)
           (put_session pn
              {| active := active s; completed := completed s;
                 messages := log ++ [system_message acknowledgement] |} w))
      else
        (Return None,
         log_event waiting_events
           (put_session pn
              {| active := active s; completed := completed s;
                 messages := log |} w))
  | None =>
      (Return None,
       log_event waiting_events
         (put_session pn
            {| active := active s; completed := completed s;
               messages := log |} w))
  end.
Proof.
  intros Hs seen log. subst seen log. unfold poll. run. rewrite Hs. run.
  rewrite <- !app_assoc.
  destruct (latest_from_user (messages s ++ arrived.1)) as [m|].
  - destruct (last_is_from_user (messages s ++ arrived.1 ++ arrived.2)).
    + run. unfold log_event, put_session, accepting_events, system_message.
      cbn [trace sessions collected_context_keywords].
      rewrite <- !app_assoc. reflexivity.
    + run. unfold log_event, put_session, waiting_events.
      cbn [trace sessions collected_context_keywords].
      rewrite <- !app_assoc. reflexivity.
  - run. unfold log_event, put_session, waiting_events.
    cbn [trace sessions collected_context_keywords].
    rewrite <- !app_assoc. reflexivity.
Qed.

(** A poll that accepted a reply appended the acknowledgement last. *)
Lemma poll_accepted pn arrived w reply w' :
  poll pn arrived w = (Return (Some reply), w') ->
  trace w' = trace w ++ accepting_events pn
  /\ exists s',
      sessions w' !! pn = Some s'
      /\ last (messages s') = Some (system_message acknowledgement).
Proof.
  destruct (sessions w !! pn) as [s|] eqn:Hs.
  - rewrite (poll_run pn arrived w s Hs). cbv zeta.
    destruct (latest_from_user _); [|discriminate].
    destruct (last_is_from_user _); [|discriminate].
    intros H. injection H as _ <-. split; [reflexivity|].
    eexists. unfold log_event, put_session. cbn [sessions].
    rewrite lookup_insert_eq. split; [reflexivity|].
    cbn [messages]. apply last_snoc.
  - unfold poll. run. rewrite Hs. run. rewrite Hs. run. discriminate.
Qed.

Lemma wait_for_user_query_returned pn arrivals w reply w' :
  wait_for_user_query pn arrivals w = (Return reply, w') ->
  (exists t,
      trace w' = trace w ++ t
        ++ [EvAddMessage system pn acknowledgement; EvSleep 5])
  /\ exists s',
      sessions w' !! pn = Some s'
      /\ last (messages s') = Some (system_message acknowledgement).
Proof.
  revert w. induction arrivals as [|arrived rest IH]; intros w H.
  - discriminate H.
  - cbn [wait_for_user_query] in H.
    apply bind_returned in H as (accepted & w1 & Hpoll & H).
    destruct accepted as [reply'|].
    + injection H as <- <-.
      apply poll_accepted in Hpoll as (Ht & Hs). split; [|exact Hs].
      exists [EvLogInfo "Waiting for user query..."]. rewrite Ht. reflexivity.
    + destruct (grows_run _ _ _ _ (emits_poll pn arrived) Hpoll) as (t1 & Ht1).
      apply IH in H as ((t & Ht) & Hs). split; [|exact Hs].
      exists (t1 ++ t). rewrite Ht, Ht1, <- !app_assoc. reflexivity.
Qed.

Lemma latest_from_user_snoc log text :
  latest_from_user (log ++ [{| origin := user; body := text |}])
  = Some {| origin := user; body := text |}.
Proof. unfold latest_from_user. rewrite reverse_snoc. reflexivity. Qed.

(** A poll during which nothing arrives and whose log does not end with a
    user message changes nothing but the trace. *)
Lemma poll_idle pn w s :
  sessions w !! pn = Some s ->
  last_is_from_user (messages s) = false ->
  poll pn ([], []) w =
  (Return None,
   log_event waiting_events
     (put_session pn
        {| active := active s; completed := completed s;
           messages := messages s |} w)).
Proof.
  intros Hs Hlast. rewrite (poll_run pn ([], []) w s Hs). cbv zeta.
  cbn [fst snd]. rewrite !app_nil_r, Hlast.
  destruct (latest_from_user (messages s)); reflexivity.
Qed.

(** X12.  The wait resumes at the poll during which the user's reply
    arrives: after any number of idle polls, that poll accepts the reply,
    hands its text on and appends the acknowledgement. *)
Lemma wait_resumes_on_reply pn n text rest : forall w s,
  sessions w !! pn = Some s ->
  last_is_from_user (messages s) = false ->
  exists w',
    wait_for_user_query pn
      (replicate n ([], []) ++ ([{| origin := user; body := text |}], []) :: rest)
      w = (Return text, w')
    /\ log_of w' pn =
         messages s ++ [{| origin := user; body := text |};
                        system_message acknowledgement]
    /\ trace w' =
         trace w ++ concat (replicate n waiting_events) ++ accepting_events pn.
Proof.
  induction n as [|n IH]; intros w s Hs Hlast.
  - cbn [replicate app wait_for_user_query]. unfold bind.
    rewrite (poll_run pn _ w s Hs). cbv zeta. cbn [fst snd].
    rewrite app_nil_r, latest_from_user_snoc.
    assert (last_is_from_user
              (messages s ++ [{| origin := user; body := text |}]) = true) as ->
      by (unfold last_is_from_user; now rewrite last_snoc).
    eexists. split; [reflexivity|].
    unfold log_of, log_event, put_session. cbn [sessions trace].
    rewrite lookup_insert_eq. cbn [messages concat app].
    split; [now rewrite <- app_assoc|reflexivity].
  - cbn [replicate app wait_for_user_query]. unfold bind.
    rewrite (poll_idle pn w s Hs Hlast).
    edestruct (IH (log_event waiting_events
                     (put_session pn
                        {| active := active s; completed := completed s;
                           messages := messages s |} w)))
      as (w' & E & Hlog & Ht).
    + unfold log_event, put_session. cbn [sessions]. apply lookup_insert_eq.
    + exact Hlast.
    + exists w'. split; [exact E|]. split; [exact Hlog|].
      rewrite Ht. unfold log_event, put_session. cbn [trace concat].
      rewrite <- !app_assoc. reflexivity.
Qed.

End Wait.

Section SuspendForInput.

Lemma set_agent_active_returned pn b w w' :
  set_agent_active pn b w = (Return tt, w') ->
  exists s,
    sessions w !! pn = Some s
    /\ w' = log_event [EvSetActive pn b]
              (put_session pn
                 {| active := b; completed := completed s;
                    messages := messages s |} w).
Proof.
  run_returned. intros H. injection H as <-. eexists. split; reflexivity.
Qed.

(** C3.  A poll of the wait for user input accepts a reply exactly when
    the most recent message of the objective's log has origin user (a user
    message being on the log when the poll reads it, as the recorded prompt
    always is).  A system message that follows the user's message is
    therefore not accepted.  On acceptance the acknowledgement is appended,
    and [active] is set back to true when the wait is left. *)
Theorem wait_accepts_latest_user_message pn :
  (forall w s arrived,
      sessions w !! pn = Some s ->
      Exists (fun m => origin m = user) (messages s ++ arrived.1) ->
      let log := messages s ++ arrived.1 ++ arrived.2 in
      exists accepted w',
        poll pn arrived w = (Return accepted, w')
        /\ (is_Some accepted
            <-> exists m, last log = Some m /\ origin m = user)
        /\ log_of w' pn =
             log ++ match accepted with
                    | Some _ => [system_message acknowledgement]
                    | None => []
                    end
        /\ trace w' =
             trace w ++ match accepted with
                        | Some _ => accepting_events pn
                        | None => waiting_events
                        end)
  /\ (forall w s arrived earlier reply_text text,
        sessions w !! pn = Some s ->
        messages s ++ arrived.1 ++ arrived.2
          = earlier ++ [{| origin := user; body := reply_text |};
                        {| origin := system; body := text |}] ->
        exists w',
          poll pn arrived w = (Return None, w')
          /\ trace w' = trace w ++ waiting_events)
  /\ (forall w ask_user arrivals reply w',
        ask_user <> "" ->
        suspend_for_input pn ask_user arrivals w = (Return reply, w') ->
        exists t s',
          trace w' =
            trace w ++ t
            ++ [EvAddMessage system pn acknowledgement; EvSleep 5;
                EvSetActive pn true]
          /\ sessions w' !! pn = Some s'
          /\ active s' = true
          /\ last (messages s') = Some (system_message acknowledgement)).
Proof.
  split; [|split].
  - intros w s arrived Hs Huser log.
    rewrite (poll_run pn arrived w s Hs). cbv zeta. fold log.
    destruct (latest_from_user_is_Some _ Huser) as [m0 ->].
    pose proof (last_is_from_user_spec log) as Hlast.
    destruct (last_is_from_user log).
    + eexists _, _. split; [reflexivity|]. split.
      * split; [intros _; now apply Hlast|eauto].
      * unfold log_of, log_event, put_session. cbn [sessions trace].
        rewrite lookup_insert_eq. split; reflexivity.
    + eexists _, _. split; [reflexivity|]. split.
      * split; [intros [? [=]]|].
        intros H. apply Hlast in H. discriminate H.
      * unfold log_of, log_event, put_session. cbn [sessions trace].
        rewrite lookup_insert_eq, app_nil_r. split; reflexivity.
  - intros w s arrived earlier reply_text text Hs Hlog.
    rewrite (poll_run pn arrived w s Hs). cbv zeta. rewrite Hlog.
    assert (last_is_from_user
              (earlier ++ [{| origin := user; body := reply_text |};
                           {| origin := system; body := text |}]) = false)
      as ->.
    { unfold last_is_from_user.
      change [{| origin := user; body := reply_text |};
              {| origin := system; body := text |}]
        with ([{| origin := user; body := reply_text |}]
              ++ [{| origin := system; body := text |}]).
      now rewrite app_assoc, last_snoc. }
    destruct (latest_from_user _); eexists; split; reflexivity.
  - intros w ask_user arrivals reply w' Hask H.
    unfold suspend_for_input in H.
    apply String.eqb_neq in Hask. rewrite Hask in H.
    apply bind_returned in H as (reply' & w3 & Hwait & H).
    apply bind_returned in Hwait as ([] & w1 & Hadd & Hwait).
    apply bind_returned in Hwait as ([] & w2 & Hoff & Hwait).
    apply bind_returned in H as ([] & w4 & Hon & H).
    injection H as <- <-.
    apply add_message_from_devika_returned in Hadd as (s1 & _ & ->).
    apply set_agent_active_returned in Hoff as (s2 & _ & ->).
    apply wait_for_user_query_returned in Hwait as ((t & Ht) & s3 & Hs3 & Hlast).
    apply set_agent_active_returned in Hon as (s4 & Hs4 & ->).
    rewrite Hs3 in Hs4. injection Hs4 as <-.
    exists ([EvAddMessage system pn ask_user; EvSetActive pn false] ++ t).
    eexists. unfold log_event, put_session in *. cbn [trace sessions] in *.
    rewrite lookup_insert_eq. split; [|split; [reflexivity|split; [reflexivity|exact Hlast]]].
    rewrite Ht, <- !app_assoc. reflexivity.
Qed.

End SuspendForInput.

(** * Completed runs *)

(** Any step of [execute] or [subsequent_execute] only adds to the trace. *)
Ltac emits_any :=
  repeat first
    [ apply emits_add_message_from_devika
    | apply emits_add_message_from_user
    | apply emits_set_agent_active
    | apply emits_set_agent_completed
    | apply emits_create_project
    | apply emits_search_queries
    | apply emits_update_contextual_keywords
    | apply emits_dispatch
    | apply emits_suspend_for_input
    | progress unfold get_all_messages_formatted, action_execute, print,
        save_code
    | emits_step ].

(** Splits the first step off a run that returned, recording that the trace
    after it extends the trace before it. *)
Ltac first_step H E G :=
  let a := fresh "a" in
  let w1 := fresh "w" in
  apply bind_returned in H as (a & w1 & E & H);
  pose proof E as G;
  apply grows_prefix in G; [|solve [emits_any]].

(** Chains the recorded extensions from one world of the run to a later. *)
Ltac chain :=
  first [ reflexivity | etrans; [eassumption|chain] ].

Section Completed.

Context {Score : Type} (C : Collaborators Score).

Lemma set_agent_completed_returned pn b w w' :
  set_agent_completed pn b w = (Return tt, w') ->
  exists s,
    sessions w !! pn = Some s
    /\ w' = log_event [EvSetCompleted pn b]
              (put_session pn
                 {| active := active s; completed := b;
                    messages := messages s |} w).
Proof.
  run_returned. intros H. injection H as <-. eexists. split; reflexivity.
Qed.

Lemma finish_returned pn w w' :
  finish pn w = (Return tt, w') ->
  exists s',
    sessions w' !! pn = Some s'
    /\ completed s' = true /\ active s' = false
    /\ trace w' = trace w ++ exit_events pn.
Proof.
  intros H. destruct (sessions w !! pn) as [s|] eqn:Hs.
  - rewrite (finish_run pn w s Hs) in H. injection H as <-.
    eexists. unfold log_event, put_session. cbn [sessions trace].
    rewrite lookup_insert_eq. repeat split; reflexivity.
  - revert H. unfold finish. run. rewrite Hs. run. discriminate.
Qed.

Lemma call_role_returned {A} c (o : option A) w a w' :
  call_role c o w = (Return a, w') -> o = Some a.
Proof. destruct o; run; intros [=]; congruence. Qed.

Lemma answer_of_returned {A} e (o : option A) w a w' :
  answer_of e o w = (Return a, w') -> o = Some a.
Proof. destruct o; run; intros [=]; congruence. Qed.

End Completed.

Section CompletedRuns.

Context {Score : Type} (C : Collaborators Score).

Lemma subsequent_execute_returned prompt pn w w' :
  subsequent_execute C prompt pn w = (Return tt, w') ->
  exists s' t,
    sessions w' !! pn = Some s'
    /\ completed s' = true /\ active s' = false
    /\ trace w' = trace w ++ EvSetActive pn true :: t ++ exit_events pn.
Proof.
  intros H. unfold subsequent_execute in H.
  apply bind_returned in H as ([] & w1 & Hon & H).
  apply set_agent_active_returned in Hon as (s & Hs & ->).
  first_step H E1 G1. first_step H E2 G2. first_step H E3 G3.
  destruct a1 as [response action].
  first_step H E4 G4. first_step H E5 G5. first_step H E6 G6.
  first_step H E7 G7. first_step H E8 G8.
  apply finish_returned in H as (s' & Hs' & Hc & Ha & Ht).
  match type of G1 with
  | trace ?w1 `prefix_of` _ =>
      match type of Ht with
      | _ = trace ?wk ++ _ =>
          assert (trace w1 `prefix_of` trace wk) as [t Hgrow] by chain
      end
  end.
  exists s', t. do 3 (split; [assumption|]).
  rewrite Ht, Hgrow. unfold log_event, put_session. cbn [trace].
  rewrite <- !app_assoc. reflexivity.
Qed.

Lemma execute_returned prompt pnu arrivals w w' :
  execute C prompt pnu arrivals w = (Return tt, w') ->
  exists plan pr,
    planner_execute C prompt pnu = Some plan
    /\ planner_parse_response C plan = Some pr
    /\ let pn := if PyStr.truthy pnu then default "" pnu else project pr in
       exists s' t1 t2,
         sessions w' !! pn = Some s'
         /\ completed s' = true /\ active s' = false
         /\ trace w' =
              trace w ++ t1 ++ EvSetActive pn true :: t2 ++ exit_events pn.
Proof.
  intros H. unfold execute in H.
  first_step H E1 G1. first_step H Eplan G2.
  first_step H E3 G3. first_step H E4 G4. first_step H Eparse G5.
  first_step H Epn G6.
  apply call_role_returned in Eplan. apply answer_of_returned in Eparse.
  exists a0, a3. do 2 (split; [assumption|]). cbv zeta.
  assert (a4 = if PyStr.truthy pnu then default "" pnu else project a3) as <-.
  { destruct (PyStr.truthy pnu).
    - now injection Epn as <- _.
    - apply bind_returned in Epn as ([] & ? & _ & Epn).
      apply bind_returned in Epn as ([] & ? & _ & Epn).
      now injection Epn as <- _. }
  unfold execute_pipeline in H.
  apply bind_returned in H as ([] & w7 & Hon & H).
  apply set_agent_active_returned in Hon as (s & Hs & ->).
  first_step H E8 G8. first_step H E9 G9. first_step H E10 G10.
  first_step H E11 G11. first_step H E12 G12. first_step H E13 G13.
  first_step H E14 G14. first_step H E15 G15. first_step H E16 G16.
  first_step H E17 G17. first_step H E18 G18. first_step H E19 G19.
  first_step H E20 G20. first_step H E21 G21. first_step H E22 G22.
  first_step H E23 G23. first_step H E24 G24. first_step H E25 G25.
  apply finish_returned in H as (s' & Hs' & Hc & Ha & Ht).
  match type of G6 with
  | _ `prefix_of` trace ?w6 =>
      assert (trace w `prefix_of` trace w6) as [t1 Ht1] by chain
  end.
  match type of G8 with
  | trace ?w7 `prefix_of` _ =>
      match type of Ht with
      | _ = trace ?wk ++ _ =>
          assert (trace w7 `prefix_of` trace wk) as [t2 Ht2] by chain
      end
  end.
  exists s', t1, t2. do 3 (split; [assumption|]).
  rewrite Ht, Ht2. unfold log_event, put_session. cbn [trace].
  rewrite Ht1, <- !app_assoc. reflexivity.
Qed.

(** C2.  After a run of [subsequent_execute] or of [execute] that
    completes normally, the session of the objective has [completed] true
    and [active] false, and earlier in the same run [active] was set to
    true. *)
Theorem completed_run_final_state :
  (forall prompt pn w w',
      subsequent_execute C prompt pn w = (Return tt, w') ->
      exists s' t,
        sessions w' !! pn = Some s'
        /\ completed s' = true /\ active s' = false
        /\ trace w' = trace w ++ EvSetActive pn true :: t ++ exit_events pn)
  /\ (forall prompt project_name_from_user arrivals w w',
        execute C prompt project_name_from_user arrivals w = (Return tt, w') ->
        exists plan planner_response,
          planner_execute C prompt project_name_from_user = Some plan
          /\ planner_parse_response C plan = Some planner_response
          /\ let pn :=
               if PyStr.truthy project_name_from_user
               then default "" project_name_from_user
               else project planner_response in
             exists s' t1 t2,
               sessions w' !! pn = Some s'
               /\ completed s' = true /\ active s' = false
               /\ trace w' =
                    trace w ++ t1
                    ++ EvSetActive pn true :: t2 ++ exit_events pn).
Proof.
  split.
  - apply subsequent_execute_returned.
  - apply execute_returned.
Qed.

End CompletedRuns.

(** * Runs without a clarifying question *)

(** Closes the case of a run that raised: its events are those so far. *)
Ltac calm_events :=
  repeat first
    [ assumption
    | apply Forall_app; split; [assumption|]
    | constructor; [reflexivity|]
    | constructor ].

Ltac raised :=
  cbv beta iota;
  eexists _, _, _; split; [reflexivity|];
  cbn [trace closing_events];
  try match goal with
    | H : trace ?w1 = _ |- context [trace ?w1] => rewrite H
    end;
  split; [rewrite app_nil_r, <- !app_assoc; reflexivity|];
  split; [calm_events|];
  split; [discriminate|intros [=]].

Ltac find_event :=
  repeat first
    [ assumption
    | apply list_elem_of_here
    | apply list_elem_of_further
    | apply elem_of_app; right ].

Section NoQuestion.

Context {Score : Type} (C : Collaborators Score).

Lemma search_events_calm t : Forall is_search_event t -> Forall (fun e => calm e = true) t.
Proof.
  intros H. eapply Forall_impl; [exact H|].
  intros [] He; try reflexivity; try contradiction.
  destruct c; try reflexivity; contradiction.
Qed.

Lemma execute_pipeline_calm plan pr pn arrivals w s keywords research :
  sessions w !! pn = Some s ->
  extract_keywords C (focus pr) = Some keywords ->
  researcher_execute C plan
    (KwSet (collected_context_keywords w ∪ list_to_set (keywords.*1))) pn
    = Some research ->
  ask_user research = "" ->
  exists r w' t,
    execute_pipeline C plan pr pn arrivals w = (r, w')
    /\ trace w' = (trace w ++ t) ++ closing_events r pn
    /\ Forall (fun e => calm e = true) t
    /\ r <> Waiting
    /\ (r = Return tt ->
        exists results,
          EvRole (CoderExecute plan "Nothing from the user." results pn) ∈ t).
Proof.
  intros Hs Hkw Hres Hask. unfold execute_pipeline.
  run. rewrite Hs. run.
  rewrite update_contextual_keywords_run, Hkw. run.
  rewrite Hres. run. unfold suspend_for_input. rewrite Hask. eqb_compute. run.
  match goal with
  | |- context [search_queries C ?qs pn ?W] =>
      pose proof (search_queries_from_frame C ∅ qs pn W) as F;
      fold (search_queries C qs pn) in F;
      destruct (search_queries C qs pn W) as [r1 w1]
  end.
  cbn [fst snd sessions collected_context_keywords trace] in F.
  destruct F as (Hr1 & Hss & Hks & ts & Hts & Hsearch).
  apply search_events_calm in Hsearch.
  destruct r1 as [results|e|]; [|raised|contradiction].
  run. destruct (coder_execute C plan _ results pn) as [code|]; run;
    [|raised].
  destruct (save_code_to_project C Coder code pn); run;
    [|raised].
  rewrite Hss. run. rewrite Hts.
  eexists _, _, _. split; [reflexivity|]. cbn [trace closing_events].
  split; [|split; [|split; [discriminate|intros _]]].
  - rewrite <- app_assoc. f_equal. rewrite <- !app_assoc. reflexivity.
  - calm_events.
  - eexists. find_event.
Qed.

(** Continues a run of [execute] with the pipeline, whose run without a
    clarifying question is [execute_pipeline_calm]. *)
Ltac enter_pipeline w Hkw Hres Hask :=
  match goal with
  | |- context [execute_pipeline C ?plan ?pr ?pn ?arrivals ?W] =>
      let r := fresh "r" in
      let w' := fresh "w'" in
      let t := fresh "t" in
      let E := fresh "E" in
      let Ht := fresh "Ht" in
      let Hcalm := fresh "Hcalm" in
      let Hnw := fresh "Hnw" in
      let Hcoder := fresh "Hcoder" in
      edestruct (execute_pipeline_calm plan pr pn arrivals W)
        as (r & w' & t & E & Ht & Hcalm & Hnw & Hcoder);
      [ cbn [sessions]; apply lookup_insert_eq
      | exact Hkw | exact Hres | exact Hask | ];
      rewrite E; cbn [trace] in Ht;
      eexists r, w', _; split; [reflexivity|];
      split;
      [rewrite Ht, (app_assoc (trace w)); f_equal;
       rewrite <- !app_assoc; reflexivity|];
      split; [calm_events|];
      split; [exact Hnw|];
      intros Hr; destruct (Hcoder Hr) as (results & Hin);
      exists results; find_event
  end.

(** C6.  When the researcher's clarifying question is the empty string,
    [execute] does not suspend: the wait loop is never polled, [active] is
    cleared only by the exit calls of a run that returns, and the Coder is
    invoked with the stand-in for the user's reply. *)
Theorem no_question_no_suspension
    prompt project_name_from_user arrivals w plan pr keywords research :
  planner_execute C prompt project_name_from_user = Some plan ->
  planner_parse_response C plan = Some pr ->
  extract_keywords C (focus pr) = Some keywords ->
  let pn :=
    if PyStr.truthy project_name_from_user
    then default "" project_name_from_user
    else project pr in
  researcher_execute C plan
    (KwSet (collected_context_keywords w ∪ list_to_set (keywords.*1))) pn
    = Some research ->
  ask_user research = "" ->
  exists r w' t,
    execute C prompt project_name_from_user arrivals w = (r, w')
    /\ trace w' = trace w ++ t ++ closing_events r pn
    /\ Forall (fun e => calm e = true) t
    /\ r <> Waiting
    /\ (r = Return tt ->
        exists results,
          EvRole (CoderExecute plan "Nothing from the user." results pn) ∈ t).
Proof.
  intros Hplan Hparse Hkw pn Hres Hask. subst pn. unfold execute.
  destruct (PyStr.truthy project_name_from_user).
  - run.
    destruct (sessions w !! default "" project_name_from_user) as [s|] eqn:Hs;
      run.
    + rewrite Hplan. run. rewrite Hparse. run.
      enter_pipeline w Hkw Hres Hask.
    + eexists _, _, _. split; [reflexivity|]. cbn [trace closing_events].
      split; [rewrite app_nil_r; reflexivity|].
      split; [calm_events|]. split; [discriminate|intros [=]].
  - run. rewrite Hplan. run. rewrite Hparse. run.
    destruct (sessions w !! project pr) as [s|] eqn:Hs; run.
    + rewrite Hs. run. enter_pipeline w Hkw Hres Hask.
    + enter_pipeline w Hkw Hres Hask.
Qed.

End NoQuestion.

(** * Concrete runs *)

Section Witnesses.

Import Sample Written.

Lemma todo_session : sessions todo !! "todo-app" = Some asked.
Proof. vm_compute. reflexivity. Defined.

Lemma os_system_bound_in_run_only_witness :
  sessions todo !! "todo-app" = Some asked
  /\ code_to_markdown_convert (selecting "feature") "todo-app" = Some "files"
  /\ action__execute (selecting "feature") (map body greeting) "todo-app"
     = Some ("Let me see.", "feature")
  /\ action__execute (selecting "run") (map body greeting) "todo-app"
     = Some ("Let me see.", "run")
  /\ (exists w',
        subsequent_execute (selecting "feature") "add a button" "todo-app" todo
        = (Raise (UnboundLocalError "os_system"), w'))
  /\ exists r w' rest,
      subsequent_execute (selecting "run") "run it" "todo-app" todo = (r, w')
      /\ trace w' =
           trace todo
           ++ preamble_events "todo-app" (map body greeting) "Let me see." "run"
           ++ EvRole
                (RunnerExecute (map body greeting) "files" "Linux"
                   "/projects/todo-app" "todo-app") :: rest.
Proof.
  split; [exact todo_session|]. do 3 (split; [reflexivity|]). split.
  - destruct
      (proj1
         (os_system_bound_in_run_only (selecting "feature") "add a button"
            "todo-app" todo asked "files" "Let me see." todo_session eq_refl)
         "feature" (or_introl eq_refl) eq_refl)
      as (w' & E & _).
    exists w'. exact E.
  - destruct
      (proj2
         (os_system_bound_in_run_only (selecting "run") "run it"
            "todo-app" todo asked "files" "Let me see." todo_session eq_refl)
         eq_refl)
      as (r & w' & rest & E & Ht & _).
    exists r, w', rest. split; [exact E|exact Ht].
Defined.

Lemma completed_run_final_state_witness :
  subsequent_execute (selecting "deploy") "deploy it" "todo-app" todo
  = (Return tt,
     (subsequent_execute (selecting "deploy") "deploy it" "todo-app" todo).2)
  /\ execute (collaborators "" "Which framework?" []) "Build a todo app" None
       [([], []); ([react], [])] (world "other" [])
     = (Return tt,
        (execute (collaborators "" "Which framework?" []) "Build a todo app"
           None [([], []); ([react], [])] (world "other" [])).2)
  /\ (exists s' t,
        sessions
          (subsequent_execute (selecting "deploy") "deploy it" "todo-app" todo).2
          !! "todo-app" = Some s'
        /\ completed s' = true /\ active s' = false
        /\ trace
             (subsequent_execute (selecting "deploy") "deploy it" "todo-app"
                todo).2
           = trace todo ++ EvSetActive "todo-app" true
               :: t ++ exit_events "todo-app")
  /\ exists s' t1 t2,
      sessions
        (execute (collaborators "" "Which framework?" []) "Build a todo app"
           None [([], []); ([react], [])] (world "other" [])).2
        !! "todo-app" = Some s'
      /\ completed s' = true /\ active s' = false
      /\ trace
           (execute (collaborators "" "Which framework?" []) "Build a todo app"
              None [([], []); ([react], [])] (world "other" [])).2
         = trace (world "other" []) ++ t1
           ++ EvSetActive "todo-app" true :: t2 ++ exit_events "todo-app".
Proof.
  assert (subsequent_execute (selecting "deploy") "deploy it" "todo-app" todo
          = (Return tt,
             (subsequent_execute (selecting "deploy") "deploy it" "todo-app"
                todo).2)) as E1 by (vm_compute; reflexivity).
  assert (execute (collaborators "" "Which framework?" []) "Build a todo app"
            None [([], []); ([react], [])] (world "other" [])
          = (Return tt,
             (execute (collaborators "" "Which framework?" [])
                "Build a todo app" None [([], []); ([react], [])]
                (world "other" [])).2)) as E2 by (vm_compute; reflexivity).
  split; [exact E1|]. split; [exact E2|]. split.
  - exact (proj1 (completed_run_final_state (selecting "deploy")) _ _ _ _ E1).
  - destruct
      (proj2 (completed_run_final_state (collaborators "" "Which framework?" []))
         _ _ _ _ _ E2)
      as (plan & pr & Hplan & Hparse & H).
    injection Hplan as <-. injection Hparse as <-. exact H.
Defined.

Lemma wait_accepts_latest_user_message_witness :
  sessions todo !! "todo-app" = Some asked
  /\ Exists (fun m => origin m = user) (messages asked ++ [react])
  /\ "Which framework?" <> ""
  /\ (exists accepted w',
        poll "todo-app" ([react], []) todo = (Return accepted, w')
        /\ (is_Some accepted
            <-> exists m,
                last (messages asked ++ [react] ++ []) = Some m
                /\ origin m = user))
  /\ (exists w',
        poll "todo-app" ([react], [system_message "Still there?"]) todo
        = (Return None, w'))
  /\ exists t s',
      trace
        (suspend_for_input "todo-app" "Which framework?"
           [([], []); ([react], [])] todo).2
      = trace todo ++ t
        ++ [EvAddMessage system "todo-app" acknowledgement; EvSleep 5;
            EvSetActive "todo-app" true]
      /\ sessions
           (suspend_for_input "todo-app" "Which framework?"
              [([], []); ([react], [])] todo).2 !! "todo-app" = Some s'
      /\ active s' = true.
Proof.
  assert (Exists (fun m => origin m = user) (messages asked ++ [react]))
    as Huser by (apply Exists_cons_hd; reflexivity).
  assert ("Which framework?" <> "") as Hask by discriminate.
  split; [exact todo_session|]. split; [exact Huser|]. split; [exact Hask|].
  split; [|split].
  - destruct
      (proj1 (wait_accepts_latest_user_message "todo-app") todo asked
         ([react], []) todo_session Huser)
      as (accepted & w' & E & Hiff & _).
    exists accepted, w'. split; [exact E|exact Hiff].
  - destruct
      (proj1 (proj2 (wait_accepts_latest_user_message "todo-app")) todo asked
         ([react], [system_message "Still there?"]) (messages asked)
         "React" "Still there?" todo_session eq_refl)
      as (w' & E & _).
    exists w'. exact E.
  - destruct
      (proj2 (proj2 (wait_accepts_latest_user_message "todo-app")) todo
         "Which framework?" [([], []); ([react], [])] "React"
         (suspend_for_input "todo-app" "Which framework?"
            [([], []); ([react], [])] todo).2 Hask
         ltac:(vm_compute; reflexivity))
      as (t & s' & Ht & Hs & Hactive & _).
    exists t, s'. split; [exact Ht|]. split; [exact Hs|exact Hactive].
Defined.


Lemma alpha_written : Spelling.written_as "alpha" alpha_spelt.
Proof.
  exists [0xA0; 0x20]%N, "Alpha", [0x2003]%N. split; [reflexivity|].
  split; [repeat constructor|]. split; [repeat constructor|].
  split; [right; reflexivity|]. repeat split; left; reflexivity.
Defined.

Lemma beta_written : Spelling.written_as "beta" beta_spelt.
Proof.
  exists [0x3000]%N, "BETA", [0x9; 0x85]%N. split; [reflexivity|].
  split; [repeat constructor|]. split; [repeat constructor|].
  repeat split; right; reflexivity.
Defined.

Lemma search_queries_alpha_beta_witness :
  Spelling.written_as "alpha" alpha_spelt
  /\ Spelling.written_as "beta" beta_spelt
  /\ answers_query (selecting "") "todo-app" "alpha"
       "https://example.org/alpha" "text of https://example.org/alpha"
       "formatted text of https://example.org/alpha"
  /\ answers_query (selecting "") "todo-app" "beta"
       "https://example.org/beta" "text of https://example.org/beta"
       "formatted text of https://example.org/beta"
  /\ exists results w',
      search_queries (selecting "") [alpha_spelt; beta_spelt] "todo-app" todo
      = (Return results, w')
      /\ size results = 2
      /\ results !! "alpha"
         = Some "formatted text of https://example.org/alpha"
      /\ results !! "beta"
         = Some "formatted text of https://example.org/beta".
Proof.
  assert (answers_query (selecting "") "todo-app" "alpha"
            "https://example.org/alpha" "text of https://example.org/alpha"
            "formatted text of https://example.org/alpha") as Ha
    by (repeat split; reflexivity).
  assert (answers_query (selecting "") "todo-app" "beta"
            "https://example.org/beta" "text of https://example.org/beta"
            "formatted text of https://example.org/beta") as Hb
    by (repeat split; reflexivity).
  split; [exact alpha_written|]. split; [exact beta_written|].
  split; [exact Ha|]. split; [exact Hb|].
  destruct
    (search_queries_alpha_beta (selecting "") alpha_spelt beta_spelt
       "todo-app" todo
       _ _ _ _ _ _ alpha_written beta_written Ha Hb)
    as (results & w' & E & Hsize & _ & Hfirst & Hsecond).
  exists results, w'. repeat split; assumption.
Defined.

Lemma no_question_no_suspension_witness :
  planner_execute (selecting "") "Build a todo app" None = Some "plan"
  /\ planner_parse_response (selecting "") "plan" = Some planned
  /\ extract_keywords (selecting "") (focus planned) = Some [("todo app", 1)]
  /\ ask_user {| queries := [" Alpha"; "BETA "]; ask_user := "" |} = ""
  /\ exists r w' t,
      execute (selecting "") "Build a todo app" None [] todo = (r, w')
      /\ trace w' = trace todo ++ t ++ closing_events r "todo-app"
      /\ Forall (fun e => calm e = true) t
      /\ r <> Waiting.
Proof.
  do 4 (split; [reflexivity|]).
  destruct
    (no_question_no_suspension (selecting "") "Build a todo app" None [] todo
       "plan" planned [("todo app", 1)]
       {| queries := [" Alpha"; "BETA "]; ask_user := "" |}
       eq_refl eq_refl eq_refl eq_refl eq_refl)
    as (r & w' & t & E & Ht & Hcalm & Hnw & _).
  exists r, w', t. repeat split; assumption.
Defined.



Lemma contextual_keywords_monotone_witness :
  extract_keywords (selecting "") "todo app" = Some [("todo app", 1)]
  /\ collected_context_keywords
       (update_contextual_keywords (selecting "") "todo app" todo).2
     = collected_context_keywords todo ∪ list_to_set ([("todo app", 1)].*1)
  /\ (collected_context_keywords todo
       :: keyword_history (selecting "") ["todo app"; "react"] todo) !! 1
     = Some (collected_context_keywords
               (update_contextual_keywords (selecting "") "todo app" todo).2)
  /\ collected_context_keywords
       (update_contextual_keywords (selecting "") "todo app" todo).2
     ⊆ collected_context_keywords
         (update_contextual_keywords (selecting "") "react"
            (update_contextual_keywords (selecting "") "todo app" todo).2).2.
Proof.
  split; [reflexivity|]. split; [|split; [reflexivity|]].
  - exact (proj2
             (proj1 (contextual_keywords_monotone (selecting ""))
                "todo app" todo [("todo app", 1)] eq_refl)).
  - exact (proj2 (proj2 (contextual_keywords_monotone (selecting "")))
             ["todo app"; "react"] todo 1 _ _ eq_refl eq_refl).
Defined.

Lemma todo_app_plain : Url.plain "todo app".
Proof.
  repeat split; first [left; reflexivity | right; reflexivity].
Defined.

Lemma download_link_replaces_spaces_witness :
  Url.plain "todo app"
  /\ function pdf_item = "generate_pdf_document"
  /\ PyStr.replace " " "%20" "todo app" = Url.url_encode "todo app"
  /\ dispatch (selecting "report") "report" "a report" "todo app" [] "files"
       (world "todo app" [])
     = (Return tt,
        (dispatch (selecting "report") "report" "a report" "todo app" []
           "files" (world "todo app" [])).2)
  /\ decision_branch (selecting "") pdf_item "todo app" (world "todo app" [])
     = (Return tt,
        (decision_branch (selecting "") pdf_item "todo app"
           (world "todo app" [])).2)
  /\ last
       (log_of
          (dispatch (selecting "report") "report" "a report" "todo app" []
             "files" (world "todo app" [])).2 "todo app")
     = Some
         (system_message
            ("I have generated the PDF document. You can download it from here: "
             +:+ "http://127.0.0.1:1337/api/download-project-pdf?project_name="
             +:+ "todo%20app"))
  /\ last
       (log_of
          (decision_branch (selecting "") pdf_item "todo app"
             (world "todo app" [])).2 "todo app")
     = Some
         (system_message
            ("I have generated the PDF document. You can download it from here: "
             +:+ "http://127.0.0.1:1337/api/download-project-pdf?project_name="
             +:+ "todo%20app")).
Proof.
  assert (dispatch (selecting "report") "report" "a report" "todo app" []
            "files" (world "todo app" [])
          = (Return tt,
             (dispatch (selecting "report") "report" "a report" "todo app" []
                "files" (world "todo app" [])).2)) as E1
    by (vm_compute; reflexivity).
  assert (decision_branch (selecting "") pdf_item "todo app"
            (world "todo app" [])
          = (Return tt,
             (decision_branch (selecting "") pdf_item "todo app"
                (world "todo app" [])).2)) as E2
    by (vm_compute; reflexivity).
  split; [exact todo_app_plain|]. split; [reflexivity|].
  split; [|split; [exact E1|split; [exact E2|split]]].
  - exact (proj2 (proj2 (download_link_replaces_spaces (selecting "report")
                           "todo app")) todo_app_plain).
  - destruct
      (proj1 (download_link_replaces_spaces (selecting "report") "todo app")
         "a report" [] "files" _ _ E1)
      as (markdown & _ & Hlast).
    exact Hlast.
  - destruct
      (proj1 (proj2 (download_link_replaces_spaces (selecting "") "todo app"))
         pdf_item _ _ eq_refl E2)
      as (user_prompt & markdown & _ & Hlast).
    exact Hlast.
Defined.

Lemma chat_is_no_action_kind : "chat" ∉ action_kinds.
Proof.
  intros H. unfold action_kinds in H.
  repeat (apply elem_of_cons in H as [H|H]; [discriminate H|]).
  inversion H.
Defined.

Lemma subsequent_execute_unknown_action_witness :
  sessions todo !! "todo-app" = Some asked
  /\ code_to_markdown_convert (selecting "chat") "todo-app" = Some "files"
  /\ action__execute (selecting "chat") (map body greeting) "todo-app"
     = Some ("Let me see.", "chat")
  /\ ("chat" ∉ action_kinds)
  /\ exists w',
      subsequent_execute (selecting "chat") "hello" "todo-app" todo
      = (Return tt, w')
      /\ sessions w' !! "todo-app"
         = Some {| active := false; completed := true;
                   messages := greeting ++ [system_message "Let me see."] |}.
Proof.
  split; [exact todo_session|]. split; [reflexivity|].
  split; [reflexivity|]. split; [exact chat_is_no_action_kind|].
  destruct
    (subsequent_execute_unknown_action (selecting "chat") "hello" "todo-app"
       todo asked "files" "Let me see." "chat" todo_session eq_refl eq_refl
       chat_is_no_action_kind)
    as (w' & E & _ & Hs).
  exists w'. split; [exact E|exact Hs].
Defined.

(** The download link is not url-encoded: for the objective "Q&A bot" the
    [report] branch appends a message whose link carries the ampersand as
    it is, so the message does not contain the url-encoded name as the
    value of [project_name]. *)
Lemma download_link_not_url_encoded :
  Url.url_encode "Q&A bot" = "Q%26A%20bot"
  /\ (dispatch (selecting "report") "report" "a report" "Q&A bot" [] "files"
        (world "Q&A bot" [])).1 = Return tt
  /\ exists m,
      last
        (log_of
           (dispatch (selecting "report") "report" "a report" "Q&A bot" []
              "files" (world "Q&A bot" [])).2 "Q&A bot") = Some m
      /\ body m
         = "I have generated the PDF document. You can download it from here: http://127.0.0.1:1337/api/download-project-pdf?project_name=Q&A%20bot"
      /\ Url.contains ("project_name=" +:+ Url.url_encode "Q&A bot") (body m)
         = false.
Proof.
  split; [reflexivity|]. split; [vm_compute; reflexivity|].
  eexists. split; [vm_compute; reflexivity|].
  split; vm_compute; reflexivity.
Qed.


End Witnesses.

(** * What the agent keeps *)

Section Keeping.

Context {Score : Type} (C : Collaborators Score).
Context (J : gmap string Session -> gset string -> Prop).

Lemma keeps_silent {A} (m : M A) :
  (forall w,
      sessions (m w).2 = sessions w
      /\ collected_context_keywords (m w).2 = collected_context_keywords w
      /\ (m w).1 <> Waiting) ->
  keeps J m.
Proof.
  intros H w HJ. destruct (H w) as (Hs & Hk & Hw).
  unfold holds. rewrite Hs, Hk. split; assumption.
Qed.

Lemma keeps_ret {A} (a : A) : keeps J (ret a).
Proof. apply keeps_silent. intros w. repeat split. discriminate. Qed.

Lemma keeps_raise {A} e : keeps J (@raise A e).
Proof. apply keeps_silent. intros w. repeat split. discriminate. Qed.

Lemma keeps_get_world : keeps J get_world.
Proof. apply keeps_silent. intros w. repeat split. discriminate. Qed.

Lemma keeps_emit e : keeps J (emit e).
Proof. apply keeps_silent. intros w. repeat split. discriminate. Qed.

Lemma keeps_answer_of {A} e (o : option A) : keeps J (answer_of e o).
Proof.
  apply keeps_silent. intros w. destruct o; repeat split; discriminate.
Qed.

Lemma keeps_bind {A B} (m : M A) (k : A -> M B) :
  keeps J m -> (forall a, keeps J (k a)) -> keeps J (bind m k).
Proof.
  intros Hm Hk w HJ. destruct (Hm w HJ) as (H1 & Hw). unfold bind.
  destruct (m w) as [[a|e|] w1]; cbn [fst snd] in *.
  - exact (Hk a w1 H1).
  - split; [exact H1|discriminate].
  - contradiction.
Qed.

Lemma keeps_call_role {A} c (o : option A) : keeps J (call_role c o).
Proof.
  apply keeps_bind; [apply keeps_emit|intros _; apply keeps_answer_of].
Qed.

Lemma keeps_call_service {A} e s (o : option A) : keeps J (call_service e s o).
Proof.
  apply keeps_bind; [apply keeps_emit|intros _; apply keeps_answer_of].
Qed.

Lemma keeps_update_session pn f :
  respects J pn f -> keeps J (update_session pn f).
Proof.
  intros Hf w HJ. unfold update_session. run_cbn.
  destruct (sessions w !! pn) as [s|] eqn:Hs; cbn [fst snd].
  - split; [|discriminate]. unfold holds. cbn [sessions collected_context_keywords].
    exact (Hf _ _ _ HJ Hs).
  - split; [exact HJ|discriminate].
Qed.

Lemma keeps_create_project pn : admits J pn -> keeps J (create_project pn).
Proof.
  intros Hnew w HJ. unfold create_project. run_cbn.
  destruct (sessions w !! pn) as [s|] eqn:Hs; cbn [fst snd].
  - split; [exact HJ|discriminate].
  - split; [|discriminate]. unfold holds. cbn [sessions collected_context_keywords].
    exact (Hnew _ _ HJ Hs).
Qed.

Lemma keeps_concurrent_append pn ms :
  respects J pn (append_messages ms) -> keeps J (concurrent_append pn ms).
Proof.
  intros Hf w HJ. unfold concurrent_append. run_cbn.
  destruct (sessions w !! pn) as [s|] eqn:Hs; cbn [fst snd].
  - split; [|discriminate]. unfold holds. cbn [sessions collected_context_keywords].
    exact (Hf _ _ _ HJ Hs).
  - split; [exact HJ|discriminate].
Qed.

Lemma keeps_add_message_from_devika pn text :
  (forall ms, respects J pn (append_messages ms)) ->
  keeps J (add_message_from_devika pn text).
Proof.
  intros H. apply keeps_bind; [apply keeps_emit|intros _].
  apply keeps_update_session, H.
Qed.

Lemma keeps_add_message_from_user pn text :
  (forall ms, respects J pn (append_messages ms)) ->
  keeps J (add_message_from_user pn text).
Proof.
  intros H. apply keeps_bind; [apply keeps_emit|intros _].
  apply keeps_update_session, H.
Qed.

Lemma keeps_set_agent_active pn b :
  respects J pn (with_active b) -> keeps J (set_agent_active pn b).
Proof.
  intros H. apply keeps_bind; [apply keeps_emit|intros _].
  apply keeps_update_session, H.
Qed.

Lemma keeps_set_agent_completed pn b :
  respects J pn (with_completed b) -> keeps J (set_agent_completed pn b).
Proof.
  intros H. apply keeps_bind; [apply keeps_emit|intros _].
  apply keeps_update_session, H.
Qed.

Lemma keeps_search_queries queries pn : keeps J (search_queries C queries pn).
Proof.
  apply keeps_silent. intros w. unfold search_queries.
  destruct (search_queries_from_frame C ∅ queries pn w) as (Hw & Hs & Hk & _).
  repeat split; assumption.
Qed.

Lemma keeps_update_contextual_keywords sentence :
  ignores_keywords J -> keeps J (update_contextual_keywords C sentence).
Proof.
  intros HJ w Hw. rewrite update_contextual_keywords_run.
  destruct (extract_keywords C sentence); cbn [fst snd].
  - split; [|discriminate]. unfold holds in *.
    cbn [sessions collected_context_keywords]. eapply HJ, Hw.
  - split; [exact Hw|discriminate].
Qed.

End Keeping.

(** Goes through straight-line agent code, leaving what [J] must respect. *)
Ltac keeps_step :=
  first
    [ apply keeps_ret | apply keeps_raise | apply keeps_get_world
    | apply keeps_emit | apply keeps_answer_of
    | apply keeps_call_role | apply keeps_call_service
    | apply keeps_search_queries
    | apply keeps_add_message_from_devika; assumption
    | apply keeps_add_message_from_user; assumption
    | apply keeps_set_agent_active; solve [auto]
    | apply keeps_set_agent_completed; solve [auto]
    | apply keeps_create_project; solve [auto]
    | apply keeps_concurrent_append; solve [auto]
    | apply keeps_update_contextual_keywords; assumption
    | apply keeps_bind; [|intros ?]
    | match goal with
      | |- keeps _ (if ?b then _ else _) => destruct b
      | |- keeps _ (match ?o with Some _ => _ | None => _ end) => destruct o
      | |- keeps _ (let (_, _) := ?p in _) => destruct p
      end ].

Ltac keeps_tac := repeat keeps_step.

Section KeepingAgent.

Context {Score : Type} (C : Collaborators Score).
Context (J : gmap string Session -> gset string -> Prop).

Lemma keeps_dispatch action prompt pn conversation md :
  (forall ms, respects J pn (append_messages ms)) ->
  keeps J (dispatch C action prompt pn conversation md).
Proof.
  intros Hmsg.
  unfold dispatch, netlify_deploy, read_local, getitem, pdf, go_to,
    screenshot, save_code, print.
  keeps_tac.
Qed.

Lemma keeps_decision_branch item pn :
  (forall ms, respects J pn (append_messages ms)) ->
  keeps J (decision_branch C item pn).
Proof.
  intros Hmsg.
  unfold decision_branch, getitem, pdf, go_to, screenshot, save_code.
  keeps_tac.
Qed.

Lemma keeps_decision_items items pn :
  (forall ms, respects J pn (append_messages ms)) ->
  keeps J (decision_items C items pn).
Proof.
  intros Hmsg. induction items as [|item rest IH]; cbn [decision_items].
  - apply keeps_ret.
  - apply keeps_bind; [apply keeps_add_message_from_devika, Hmsg|intros _].
    apply keeps_bind; [apply keeps_decision_branch, Hmsg|intros _]. exact IH.
Qed.

Lemma keeps_make_decision prompt pn :
  (forall ms, respects J pn (append_messages ms)) ->
  keeps J (make_decision C prompt pn).
Proof.
  intros Hmsg. unfold make_decision.
  apply keeps_bind; [apply keeps_call_role|intros items].
  apply keeps_decision_items, Hmsg.
Qed.

Lemma keeps_subsequent_execute prompt pn :
  (forall ms, respects J pn (append_messages ms)) ->
  (forall b, respects J pn (with_active b)) ->
  (forall b, respects J pn (with_completed b)) ->
  keeps J (subsequent_execute C prompt pn).
Proof.
  intros Hmsg Hact Hcom.
  unfold subsequent_execute, get_all_messages_formatted, action_execute, print.
  keeps_tac. apply keeps_dispatch, Hmsg.
Qed.

Lemma keeps_poll pn arrived :
  (forall ms, respects J pn (append_messages ms)) ->
  keeps J (poll pn arrived).
Proof.
  intros Hmsg.
  unfold poll, logger_info, time_sleep, get_latest_message_from_user,
    validate_last_message_is_from_user.
  keeps_tac.
Qed.

Lemma preserves_wait_for_user_query pn arrivals :
  (forall ms, respects J pn (append_messages ms)) ->
  preserves J (wait_for_user_query pn arrivals).
Proof.
  intros Hmsg. induction arrivals as [|arrived rest IH]; intros w HJ.
  - exact HJ.
  - cbn [wait_for_user_query]. unfold bind.
    destruct (keeps_poll pn arrived Hmsg w HJ) as (H1 & _).
    destruct (poll pn arrived w) as [[[reply|]|e|] w1]; cbn [fst snd] in *;
      auto.
Qed.

End KeepingAgent.

Section Preserving.

Context {Score : Type} (C : Collaborators Score).
Context (J : gmap string Session -> gset string -> Prop).

Lemma preserves_of_keeps {A} (m : M A) : keeps J m -> preserves J m.
Proof. intros H w HJ. exact (proj1 (H w HJ)). Qed.

Lemma preserves_bind {A B} (m : M A) (k : A -> M B) :
  preserves J m -> (forall a, preserves J (k a)) -> preserves J (bind m k).
Proof.
  intros Hm Hk w HJ. specialize (Hm w HJ). unfold bind.
  destruct (m w) as [[a|e|] w1]; cbn [fst snd] in *; [|assumption..].
  exact (Hk a w1 Hm).
Qed.

Lemma preserves_suspend_for_input pn ask_user arrivals :
  (forall ms, respects J pn (append_messages ms)) ->
  (forall b, respects J pn (with_active b)) ->
  preserves J (suspend_for_input pn ask_user arrivals).
Proof.
  intros Hmsg Hact. unfold suspend_for_input.
  apply preserves_bind.
  - destruct (String.eqb ask_user "").
    + apply preserves_of_keeps, keeps_ret.
    + apply preserves_bind;
        [apply preserves_of_keeps, keeps_add_message_from_devika, Hmsg|intros _].
      apply preserves_bind;
        [apply preserves_of_keeps, keeps_set_agent_active, Hact|intros _].
      apply preserves_wait_for_user_query, Hmsg.
  - intros reply. apply preserves_of_keeps. keeps_tac.
Qed.

Lemma preserves_execute_pipeline plan pr pn arrivals :
  (forall ms, respects J pn (append_messages ms)) ->
  (forall b, respects J pn (with_active b)) ->
  (forall b, respects J pn (with_completed b)) ->
  ignores_keywords J ->
  preserves J (execute_pipeline C plan pr pn arrivals).
Proof.
  intros Hmsg Hact Hcom Hkw. unfold execute_pipeline, print, save_code.
  repeat first
    [ apply preserves_suspend_for_input; assumption
    | apply preserves_of_keeps; solve [keeps_tac]
    | apply preserves_bind; [|intros ?] ].
Qed.

Lemma preserves_execute prompt pnu arrivals :
  (forall pn ms, respects J pn (append_messages ms)) ->
  (forall pn b, respects J pn (with_active b)) ->
  (forall pn b, respects J pn (with_completed b)) ->
  (forall pn, admits J pn) ->
  ignores_keywords J ->
  preserves J (execute C prompt pnu arrivals).
Proof.
  intros Hmsg Hact Hcom Hnew Hkw. unfold execute, print.
  apply preserves_bind;
    [apply preserves_of_keeps; destruct (PyStr.truthy pnu);
     [apply keeps_add_message_from_user, Hmsg|apply keeps_ret]|intros _].
  apply preserves_bind; [apply preserves_of_keeps, keeps_call_role|intros plan].
  apply preserves_bind; [apply preserves_of_keeps, keeps_emit|intros _].
  apply preserves_bind; [apply preserves_of_keeps, keeps_emit|intros _].
  apply preserves_bind; [apply preserves_of_keeps, keeps_answer_of|intros pr].
  apply preserves_bind.
  - apply preserves_of_keeps. destruct (PyStr.truthy pnu); [apply keeps_ret|].
    apply keeps_bind; [apply keeps_create_project, Hnew|intros _].
    apply keeps_bind; [apply keeps_add_message_from_user, Hmsg|intros _].
    apply keeps_ret.
  - intros pn. apply preserves_execute_pipeline; auto.
Qed.

End Preserving.

(** * Invariants *)

Section Invariants.

Context {Score : Type} (C : Collaborators Score).

Lemma log_extends_respects o l pn f :
  (forall s, messages s `prefix_of` messages (f s)) ->
  respects (log_extends o l) pn f.
Proof.
  intros Hf ss ks s (s0 & Hs0 & Hl) Hs. unfold log_extends.
  destruct (decide (pn = o)) as [->|Hne].
  - rewrite lookup_insert_eq. rewrite Hs in Hs0. injection Hs0 as <-.
    eexists. split; [reflexivity|]. etrans; [exact Hl|apply Hf].
  - rewrite lookup_insert_ne by exact Hne. eauto.
Qed.

Lemma log_extends_admits o l pn : admits (log_extends o l) pn.
Proof.
  intros ss ks (s0 & Hs0 & Hl) Hnone. unfold log_extends.
  rewrite lookup_insert_ne by congruence. eauto.
Qed.

Lemma append_messages_grows ms s :
  messages s `prefix_of` messages (append_messages ms s).
Proof. now exists ms. Qed.

(** X1.  The log of an objective is append-only under the agent: whatever
    [execute], [subsequent_execute] or [make_decision] is called with and
    however the call ends (also while it waits and the user's messages
    arrive), an objective that existed before still exists, and its log
    before the call is a prefix of its log after. *)
Theorem log_is_append_only o s w :
  sessions w !! o = Some s ->
  (forall prompt pn,
      exists s',
        sessions (subsequent_execute C prompt pn w).2 !! o = Some s'
        /\ messages s `prefix_of` messages s')
  /\ (forall prompt pn,
        exists s',
          sessions (make_decision C prompt pn w).2 !! o = Some s'
          /\ messages s `prefix_of` messages s')
  /\ (forall prompt project_name_from_user arrivals,
        exists s',
          sessions (execute C prompt project_name_from_user arrivals w).2 !! o
          = Some s'
          /\ messages s `prefix_of` messages s').
Proof.
  intros Hs.
  assert (holds (log_extends o (messages s)) w) as HJ
    by (exists s; split; [exact Hs|reflexivity]).
  assert (forall pn ms,
             respects (log_extends o (messages s)) pn (append_messages ms))
    as Hmsg by (intros; apply log_extends_respects, append_messages_grows).
  assert (forall pn b, respects (log_extends o (messages s)) pn (with_active b))
    as Hact by (intros; apply log_extends_respects; reflexivity).
  assert (forall pn b,
             respects (log_extends o (messages s)) pn (with_completed b))
    as Hcom by (intros; apply log_extends_respects; reflexivity).
  split; [|split].
  - intros prompt pn.
    refine (proj1 (keeps_subsequent_execute C (log_extends o (messages s))
                     prompt pn _ _ _ w HJ)); auto.
  - intros prompt pn.
    refine (proj1 (keeps_make_decision C (log_extends o (messages s))
                     prompt pn _ w HJ)); auto.
  - intros prompt pnu arrivals.
    refine (preserves_execute C (log_extends o (messages s)) prompt pnu
              arrivals _ _ _ _ _ w HJ); auto.
    + intros pn. apply log_extends_admits.
    + intros ss ks ks' H. exact H.
Qed.

Lemma session_is_respects o x pn f :
  pn <> o -> respects (session_is o x) pn f.
Proof.
  intros Hne ss ks s H _. unfold session_is in *.
  now rewrite lookup_insert_ne.
Qed.

(** X2.  A call touches the session of its own objective only: after
    [subsequent_execute], [make_decision] or the pipeline of [execute] on
    one objective, however it ends, the session of every other objective,
    present or absent, is what it was. *)
Theorem other_objectives_untouched o pn w :
  o <> pn ->
  (forall prompt,
      sessions (subsequent_execute C prompt pn w).2 !! o = sessions w !! o)
  /\ (forall prompt,
        sessions (make_decision C prompt pn w).2 !! o = sessions w !! o)
  /\ (forall plan pr arrivals,
        sessions (execute_pipeline C plan pr pn arrivals w).2 !! o
        = sessions w !! o).
Proof.
  intros Hne.
  assert (holds (session_is o (sessions w !! o)) w) as HJ by reflexivity.
  assert (forall f, respects (session_is o (sessions w !! o)) pn f) as Hf
    by (intros; apply session_is_respects; congruence).
  split; [|split].
  - intros prompt.
    refine (proj1 (keeps_subsequent_execute C
                     (session_is o (sessions w !! o)) prompt pn _ _ _ w HJ));
      auto.
  - intros prompt.
    refine (proj1 (keeps_make_decision C
                     (session_is o (sessions w !! o)) prompt pn _ w HJ));
      auto.
  - intros plan pr arrivals.
    refine (preserves_execute_pipeline C (session_is o (sessions w !! o))
              plan pr pn arrivals _ _ _ _ w HJ); auto.
    intros ss ks ks' H. exact H.
Qed.

Lemma flags_are_respects o a c pn ms :
  respects (flags_are o a c) pn (append_messages ms).
Proof.
  intros ss ks s (s0 & Hs0 & Ha & Hc) Hs. unfold flags_are.
  destruct (decide (pn = o)) as [->|Hne].
  - rewrite lookup_insert_eq. rewrite Hs in Hs0. injection Hs0 as <-.
    eexists. split; [reflexivity|]. split; assumption.
  - rewrite lookup_insert_ne by exact Hne. eauto.
Qed.

(** X3.  [make_decision] is never left waiting and changes no flag: the
    [active] and [completed] flags of every objective are after the call
    what they were before, however it ends.  Neither [make_decision] nor
    [subsequent_execute] changes the keyword set. *)
Theorem make_decision_changes_no_flag prompt pn w :
  (make_decision C prompt pn w).1 <> Waiting
  /\ collected_context_keywords (make_decision C prompt pn w).2
     = collected_context_keywords w
  /\ collected_context_keywords (subsequent_execute C prompt pn w).2
     = collected_context_keywords w
  /\ forall o s,
      sessions w !! o = Some s ->
      exists s',
        sessions (make_decision C prompt pn w).2 !! o = Some s'
        /\ active s' = active s /\ completed s' = completed s.
Proof.
  assert (forall f pn', respects (keywords_are (collected_context_keywords w))
                          pn' f) as Hk
    by (intros f pn' ss ks s H _; exact H).
  split; [|split; [|split]].
  - refine (proj2 (keeps_make_decision C (fun _ _ => True) prompt pn _ w I)).
    intros ms ss ks s _ _. exact I.
  - refine (proj1 (keeps_make_decision C
                     (keywords_are (collected_context_keywords w))
                     prompt pn _ w eq_refl)); auto.
  - refine (proj1 (keeps_subsequent_execute C
                     (keywords_are (collected_context_keywords w))
                     prompt pn _ _ _ w eq_refl)); auto.
  - intros o s Hs.
    refine (proj1 (keeps_make_decision C
                     (flags_are o (active s) (completed s)) prompt pn _ w _)).
    + intros ms. apply flags_are_respects.
    + exists s. repeat split. exact Hs.
Qed.

End Invariants.

(** * How a run ends *)

Section Endings.

Context {Score : Type} (C : Collaborators Score).

Lemma triple_bind (I : World -> Prop) {A B} (m : M A) (k : A -> M B)
    (Q1 : A -> World -> Prop) (QR : B -> World -> Prop) (QE QW : World -> Prop) :
  triple I m Q1 QE QW ->
  (forall a, triple (Q1 a) (k a) QR QE QW) ->
  triple I (bind m k) QR QE QW.
Proof.
  intros Hm Hk w HI. specialize (Hm w HI). unfold bind.
  destruct (m w) as [[a|e|] w1]; [|assumption..].
  exact (Hk a w1 Hm).
Qed.

Lemma triple_of_keeps J {A} (m : M A) (QW : World -> Prop) :
  keeps J m -> triple (holds J) m (fun _ => holds J) (holds J) QW.
Proof.
  intros Hm w HJ. destruct (Hm w HJ) as (H & Hw).
  destruct (m w) as [[a|e|] w1]; cbn [fst snd] in *;
    [assumption..|contradiction].
Qed.

(** With the session there, setting a flag or appending a message returns. *)
Lemma set_agent_active_run pn b w s :
  sessions w !! pn = Some s ->
  set_agent_active pn b w =
  (Return tt,
   log_event [EvSetActive pn b]
     (put_session pn
        {| active := b; completed := completed s; messages := messages s |} w)).
Proof. intros Hs. run. rewrite Hs. reflexivity. Qed.

Lemma add_message_from_devika_run pn text w s :
  sessions w !! pn = Some s ->
  add_message_from_devika pn text w =
  (Return tt,
   log_event [EvAddMessage system pn text]
     (put_session pn (append_messages [system_message text] s) w)).
Proof. intros Hs. run. rewrite Hs. reflexivity. Qed.

Lemma add_message_from_user_run pn text w s :
  sessions w !! pn = Some s ->
  add_message_from_user pn text w =
  (Return tt,
   log_event [EvAddMessage user pn text]
     (put_session pn
        (append_messages [{| origin := user; body := text |}] s) w)).
Proof. intros Hs. run. rewrite Hs. reflexivity. Qed.

Lemma flagged_put pn a c s t w :
  active s = a -> completed s = c ->
  flagged pn a c (log_event t (put_session pn s w)).
Proof.
  intros Ha Hc. exists s. unfold log_event, put_session. cbn [sessions].
  rewrite lookup_insert_eq. auto.
Qed.

Lemma triple_set_agent_active pn b a c (QE QW : World -> Prop) :
  triple (flagged pn a c) (set_agent_active pn b)
    (fun _ => flagged pn b c) QE QW.
Proof.
  intros w (s & Hs & Ha & Hc). rewrite (set_agent_active_run pn b w s Hs).
  apply flagged_put; [reflexivity|exact Hc].
Qed.

Lemma triple_finish pn a c (QE QW : World -> Prop) :
  triple (flagged pn a c) (finish pn) (fun _ => flagged pn false true) QE QW.
Proof.
  intros w (s & Hs & Ha & Hc). rewrite (finish_run pn w s Hs).
  apply flagged_put; reflexivity.
Qed.

Lemma triple_wait_for_user_query pn a c arrivals (QE : World -> Prop) :
  triple (flagged pn a c) (wait_for_user_query pn arrivals)
    (fun _ => flagged pn a c) QE (flagged pn a c).
Proof.
  induction arrivals as [|arrived rest IH]; intros w HI.
  - exact HI.
  - cbn [wait_for_user_query]. unfold bind.
    destruct HI as (s & Hs & Ha & Hc).
    rewrite (poll_run pn arrived w s Hs). cbv zeta.
    destruct (latest_from_user _) as [m|];
      [destruct (last_is_from_user _)|].
    + apply flagged_put; assumption.
    + apply IH, flagged_put; assumption.
    + apply IH, flagged_put; assumption.
Qed.

Lemma triple_suspend_for_input pn c ask_user arrivals (QE : World -> Prop) :
  triple (flagged pn true c) (suspend_for_input pn ask_user arrivals)
    (fun _ => flagged pn true c) QE (flagged pn false c).
Proof.
  unfold suspend_for_input. eapply triple_bind.
  - instantiate (1 := fun _ w => exists a, flagged pn a c w).
    destruct (String.eqb ask_user "").
    + intros w HI. exists true. exact HI.
    + intros w (s & Hs & Ha & Hc). unfold bind.
      rewrite (add_message_from_devika_run pn ask_user w s Hs).
      erewrite set_agent_active_run
        by (unfold log_event, put_session; cbn [sessions];
            apply lookup_insert_eq).
      match goal with
      | |- context [wait_for_user_query pn arrivals ?W] =>
          pose proof (triple_wait_for_user_query pn false c arrivals QE W) as T
      end.
      match type of T with
      | ?P -> _ => assert P as HP by (apply flagged_put; [reflexivity|exact Hc])
      end.
      specialize (T HP).
      destruct (wait_for_user_query pn arrivals _) as [[reply|e|] w1];
        [exists false; exact T|exact T|exact T].
  - intros reply w (a & HI). unfold bind.
    destruct HI as (s & Hs & Ha & Hc).
    rewrite (set_agent_active_run pn true w s Hs).
    apply flagged_put; [reflexivity|exact Hc].
Qed.

End Endings.

Ltac ending_step J :=
  first
    [ apply triple_finish
    | apply triple_suspend_for_input
    | apply (triple_of_keeps J); solve [keeps_tac]
    | eapply triple_bind; [|intros ?]
    | match goal with
      | |- triple _ (let (_, _) := ?p in _) _ _ _ => destruct p
      end ].

Section EndingsOfRuns.

Context {Score : Type} (C : Collaborators Score).

(** X4.  How a run of [subsequent_execute] ends shows in the flags of its
    objective.  A run that returns leaves it inactive and completed; a run
    that raises, in whatever branch, leaves it marked active, with
    [completed] as it was; the method is never left waiting. *)
Theorem subsequent_execute_ending prompt pn w s :
  sessions w !! pn = Some s ->
  match subsequent_execute C prompt pn w with
  | (Return _, w') => flagged pn false true w'
  | (Raise _, w') => flagged pn true (completed s) w'
  | (Waiting, _) => False
  end.
Proof.
  intros Hs.
  assert (forall ms,
             respects (flags_are pn true (completed s)) pn (append_messages ms))
    as Hmsg by (intros; apply flags_are_respects).
  assert (flagged pn (active s) (completed s) w) as HI
    by (exists s; auto).
  clear Hs. revert w HI.
  change (triple (flagged pn (active s) (completed s))
            (subsequent_execute C prompt pn)
            (fun _ => flagged pn false true)
            (flagged pn true (completed s)) (fun _ => False)).
  unfold subsequent_execute, get_all_messages_formatted, action_execute, print.
  eapply triple_bind; [apply triple_set_agent_active|intros ?].
  repeat first
    [ apply (triple_of_keeps (flags_are pn true (completed s)));
      apply keeps_dispatch; assumption
    | ending_step (flags_are pn true (completed s)) ].
Qed.

(** X5.  How the pipeline of [execute] (from line 270 on) ends shows in
    the flags of its objective.  Returned: inactive and completed.  Raised,
    at whatever step: left marked active, [completed] as it was.  Still
    waiting for the user's reply: inactive, [completed] as it was. *)
Theorem execute_pipeline_ending plan pr pn arrivals w s :
  sessions w !! pn = Some s ->
  match execute_pipeline C plan pr pn arrivals w with
  | (Return _, w') => flagged pn false true w'
  | (Raise _, w') => flagged pn true (completed s) w'
  | (Waiting, w') => flagged pn false (completed s) w'
  end.
Proof.
  intros Hs.
  assert (forall ms,
             respects (flags_are pn true (completed s)) pn (append_messages ms))
    as Hmsg by (intros; apply flags_are_respects).
  assert (ignores_keywords (flags_are pn true (completed s))) as Hig
    by (intros ss ks ks' H; exact H).
  assert (flagged pn (active s) (completed s) w) as HI
    by (exists s; auto).
  clear Hs. revert w HI.
  change (triple (flagged pn (active s) (completed s))
            (execute_pipeline C plan pr pn arrivals)
            (fun _ => flagged pn false true)
            (flagged pn true (completed s))
            (flagged pn false (completed s))).
  unfold execute_pipeline, print, save_code.
  eapply triple_bind; [apply triple_set_agent_active|intros ?].
  repeat ending_step (flags_are pn true (completed s)).
Qed.

End EndingsOfRuns.

(** * More on [search_queries] *)

Section MoreSearch.

Context {Score : Type} (C : Collaborators Score).




(** X7.  [search_queries] works on the browser and the search engine only:
    however it ends, it leaves every session and the keyword set as they
    were, it is never left waiting, and the calls it makes are searches,
    navigations, screenshots and Formatter invocations. *)
Theorem search_queries_only_searches queries pn w :
  (search_queries C queries pn w).1 <> Waiting
  /\ sessions (search_queries C queries pn w).2 = sessions w
  /\ collected_context_keywords (search_queries C queries pn w).2
     = collected_context_keywords w
  /\ exists t,
      trace (search_queries C queries pn w).2 = trace w ++ t
      /\ Forall is_search_event t.
Proof. apply (search_queries_from_frame C ∅ queries pn w). Qed.

End MoreSearch.

(** * More on [make_decision] *)

Section MoreDecision.

Context {Score : Type} (C : Collaborators Score).

Lemma decision_branch_unrecognised item pn :
  function item ∉ decision_functions ->
  decision_branch C item pn = ret tt.
Proof.
  intros Hno. unfold decision_branch.
  repeat match goal with
    | |- context [String.eqb (function item) ?k] =>
        destruct (String.eqb_spec (function item) k) as [E|_];
        [exfalso; apply Hno; rewrite E; unfold decision_functions; set_solver|]
    end.
  reflexivity.
Qed.

(** Items with an unrecognised function only have their replies appended. *)
Lemma decision_items_skipped skipped : forall rest pn w s,
  sessions w !! pn = Some s ->
  Forall (fun item => function item ∉ decision_functions) skipped ->
  decision_items C (skipped ++ rest) pn w =
  decision_items C rest pn
    (log_event (reply_events pn skipped)
       (put_session pn (append_messages (reply_messages skipped) s) w)).
Proof.
  induction skipped as [|item skipped IH]; intros rest pn w s Hs Hall.
  - cbn [app reply_events reply_messages map]. f_equal.
    unfold log_event, put_session, append_messages.
    rewrite !app_nil_r. destruct w as [ss ks t]; cbn in *.
    f_equal. rewrite insert_id; [reflexivity|]. rewrite Hs. now destruct s.
  - inversion Hall as [|? ? Hitem Hrest]; subst.
    cbn [app decision_items]. unfold bind at 1.
    rewrite (add_message_from_devika_run pn (reply item) w s Hs).
    unfold bind at 1. rewrite decision_branch_unrecognised by exact Hitem.
    cbn [ret].
    erewrite IH;
      [|unfold log_event, put_session; cbn [sessions]; apply lookup_insert_eq
       |exact Hrest].
    f_equal. unfold log_event, put_session, append_messages, reply_events,
      reply_messages.
    cbn [sessions collected_context_keywords trace messages active completed map].
    rewrite insert_insert_eq, <- !app_assoc. reflexivity.
Qed.

(** X8.  An item whose function [make_decision] does not know is answered
    with its reply and otherwise skipped, without an error: when none of the
    items is known, the call returns having appended the replies, in the
    order of the items, and nothing else. *)
Theorem make_decision_unrecognised prompt pn w s items :
  sessions w !! pn = Some s ->
  decision_execute C prompt pn = Some items ->
  Forall (fun item => function item ∉ decision_functions) items ->
  exists w',
    make_decision C prompt pn w = (Return tt, w')
    /\ trace w' =
         trace w ++ EvRole (DecisionExecute prompt pn) :: reply_events pn items
    /\ log_of w' pn = messages s ++ reply_messages items.
Proof.
  intros Hs Hitems Hall. unfold make_decision. run. rewrite Hitems. run.
  match goal with
  | |- context [decision_items C items pn ?W] =>
      pose proof (decision_items_skipped items [] pn W s Hs Hall) as E
  end.
  rewrite app_nil_r in E. rewrite E.
  cbn [decision_items ret]. eexists. split; [reflexivity|].
  unfold log_of, log_event, put_session. cbn [sessions trace].
  rewrite lookup_insert_eq, <- app_assoc. split; reflexivity.
Qed.


(** X10.  The [coding_project] branch never puts the researcher's question
    to the user: it appends no message, changes no session and waits for
    nothing, and the Coder is invoked with the question itself as its user
    context.  The researcher receives the keywords as a list. *)
Theorem coding_project_asks_nobody item pn w w' user_prompt plan research :
  function item = "coding_project" ->
  args item !! "user_prompt" = Some user_prompt ->
  planner_execute C user_prompt (Some pn) = Some plan ->
  researcher_execute C plan
    (KwList (elements (collected_context_keywords w))) pn = Some research ->
  decision_branch C item pn w = (Return tt, w') ->
  sessions w' = sessions w
  /\ collected_context_keywords w' = collected_context_keywords w
  /\ exists results code searches,
      Forall is_search_event searches
      /\ trace w' =
           trace w
           ++ [EvRole (PlannerExecute user_prompt (Some pn));
               EvRole
                 (ResearcherExecute plan
                    (KwList (elements (collected_context_keywords w))) pn)]
           ++ searches
           ++ [EvRole (CoderExecute plan (ask_user research) results pn);
               EvSaveCode Coder code pn].
Proof.
  intros Hf Hup Hplan Hres. unfold decision_branch. rewrite Hf. eqb_compute.
  run. rewrite Hup. run. rewrite Hplan. run.
  destruct (planner_parse_response C plan); run; [|discriminate].
  rewrite Hres. run.
  match goal with
  | |- context [search_queries C ?qs pn ?W] =>
      pose proof (search_queries_from_frame C ∅ qs pn W) as F;
      fold (search_queries C qs pn) in F;
      destruct (search_queries C qs pn W) as [r1 w1]
  end.
  cbn [fst snd sessions collected_context_keywords trace] in F.
  destruct F as (_ & Hss & Hks & ts & Hts & Hsearch).
  destruct r1 as [results|e|]; [|discriminate..].
  run. destruct (coder_execute C plan _ results pn) as [code|]; run;
    [|discriminate].
  destruct (save_code_to_project C Coder code pn) as [[]|]; run;
    [|discriminate].
  intros H. injection H as <-. cbn [sessions collected_context_keywords trace].
  split; [exact Hss|]. split; [exact Hks|].
  exists results, code, ts. split; [exact Hsearch|].
  rewrite Hts, <- !app_assoc. reflexivity.
Qed.

End MoreDecision.

(** * More on the wait *)

Section MoreWait.

Lemma last_is_from_user_system log late :
  last_is_from_user log = false ->
  Forall from_system late ->
  last_is_from_user (log ++ late) = false.
Proof.
  intros Hlog Hlate. induction late as [|m late IH] using rev_ind.
  - now rewrite app_nil_r.
  - apply Forall_app in Hlate as (_ & Hm). inversion Hm as [|? ? Hsys _]; subst.
    unfold last_is_from_user, is_user. rewrite app_assoc, last_snoc.
    now rewrite Hsys.
Qed.

(** X13.  The two reads of a poll are separate.  When a user message
    arrives between them, the poll accepts, since the log now ends with a
    user message, but the text it hands on is that of the latest user
    message at the first read, not that of the message that arrived; the
    acknowledgement is appended after the arrived message. *)
Theorem poll_takes_text_of_first_read pn w s before text m :
  sessions w !! pn = Some s ->
  latest_from_user (messages s ++ before) = Some m ->
  exists w',
    poll pn (before, [{| origin := user; body := text |}]) w
    = (Return (Some (body m)), w')
    /\ log_of w' pn =
         messages s ++ before
         ++ [{| origin := user; body := text |};
             system_message acknowledgement].
Proof.
  intros Hs Hm. rewrite (poll_run pn _ w s Hs). cbv zeta. cbn [fst snd].
  rewrite Hm.
  assert (last_is_from_user
            (messages s ++ before ++ [{| origin := user; body := text |}])
          = true) as ->
    by (unfold last_is_from_user; now rewrite !app_assoc, last_snoc).
  eexists. split; [reflexivity|].
  unfold log_of, log_event, put_session. cbn [sessions].
  rewrite lookup_insert_eq. cbn [messages]. now rewrite <- !app_assoc.
Qed.

(** X14.  Only a user message ends the wait; there is no timeout.  As long
    as everything that arrives is of system origin, and the log did not end
    with a user message to begin with, the loop is still waiting after any
    number of polls: it has appended nothing of its own, and each poll has
    logged its line and slept. *)
Theorem wait_goes_on_without_user_message pn arrivals : forall w s,
  sessions w !! pn = Some s ->
  last_is_from_user (messages s) = false ->
  Forall (fun arrived => Forall from_system (arrived.1 ++ arrived.2)) arrivals ->
  exists w',
    wait_for_user_query pn arrivals w = (Waiting, w')
    /\ log_of w' pn
       = messages s ++ concat (map (fun arrived => arrived.1 ++ arrived.2) arrivals)
    /\ trace w' =
         trace w ++ concat (replicate (length arrivals) waiting_events)
    /\ flagged pn (active s) (completed s) w'.
Proof.
  induction arrivals as [|arrived rest IH]; intros w s Hs Hlast Hall.
  - exists w. split; [reflexivity|]. cbn [map concat length replicate].
    unfold log_of. rewrite Hs, !app_nil_r. repeat split. exists s. auto.
  - inversion Hall as [|? ? Harr Hrest]; subst.
    cbn [wait_for_user_query]. unfold bind.
    rewrite (poll_run pn arrived w s Hs). cbv zeta.
    rewrite (last_is_from_user_system _ _ Hlast Harr).
    assert (forall X : outcome (option string) * World,
               match latest_from_user (messages s ++ arrived.1) with
               | Some _ => X
               | None => X
               end = X) as -> by (intros; now destruct (latest_from_user _)).
    edestruct (IH (log_event waiting_events
                     (put_session pn
                        {| active := active s; completed := completed s;
                           messages := messages s ++ arrived.1 ++ arrived.2 |}
                        w)))
      as (w' & E & Hlog & Ht & Hflags).
    + unfold log_event, put_session. cbn [sessions]. apply lookup_insert_eq.
    + cbn [messages]. exact (last_is_from_user_system _ _ Hlast Harr).
    + exact Hrest.
    + exists w'. split; [exact E|]. cbn [messages active completed] in *.
      split; [|split; [|exact Hflags]].
      * rewrite Hlog. cbn [map concat]. now rewrite <- !app_assoc.
      * rewrite Ht. unfold log_event, put_session.
        cbn [trace length replicate concat]. now rewrite <- !app_assoc.
Qed.

End MoreWait.

(** * Missing keys in the deployment *)

Section MoreDeploy.

Context {Score : Type} (C : Collaborators Score).

(** X11.  Missing keys in what Netlify answers raise [KeyError] after the
    remote calls were made.  A site without an [id] has been created but is
    never deployed to; a deployment without a [deploy_url] has been carried
    out, and the [deploy] branch then stops before appending its message. *)
Theorem deploy_missing_keys pn w site :
  netlify_create_site C = Some site ->
  (site !! "id" = None ->
   netlify_deploy C pn w
   = (Raise (KeyError "id"), log_event [EvNetlifyCreateSite] w))
  /\ (forall site_id metadata prompt conversation md,
        site !! "id" = Some site_id ->
        netlify_deploy_site C site_id (get_project_path C pn) = Some metadata ->
        metadata !! "deploy_url" = None ->
        dispatch C "deploy" prompt pn conversation md w
        = (Raise (KeyError "deploy_url"),
           log_event
             [EvNetlifyCreateSite;
              EvNetlifyDeploySite site_id (get_project_path C pn)] w)).
Proof.
  intros Hsite. split.
  - intros Hid. unfold netlify_deploy. run. rewrite Hsite. run. rewrite Hid.
    reflexivity.
  - intros site_id metadata prompt conversation md Hid Hdeploy Hurl.
    unfold dispatch. eqb_compute. unfold netlify_deploy. run.
    rewrite Hsite. run. rewrite Hid. run. rewrite Hdeploy. run. rewrite Hurl.
    unfold log_event. now rewrite <- app_assoc.
Qed.

End MoreDeploy.

(** * More on [execute] *)

Section MoreExecute.

Context {Score : Type} (C : Collaborators Score).

(** X15.  [execute] records the prompt before it plans when it is given a
    project name, and after it has planned when it is not.  So when the
    Planner fails, a named, existing objective is left with the prompt on
    its log and its flags as they were, while a run without a name leaves
    the store exactly as it was: no project is created. *)
Theorem execute_planner_failure prompt project_name_from_user arrivals w :
  planner_execute C prompt project_name_from_user = None ->
  (forall s,
      PyStr.truthy project_name_from_user = true ->
      sessions w !! default "" project_name_from_user = Some s ->
      exists w',
        execute C prompt project_name_from_user arrivals w
        = (Raise (RoleInvocationError Planner), w')
        /\ sessions w' !! default "" project_name_from_user
           = Some {| active := active s; completed := completed s;
                     messages :=
                       messages s ++ [{| origin := user; body := prompt |}] |}
        /\ trace w' =
             trace w
             ++ [EvAddMessage user (default "" project_name_from_user) prompt;
                 EvRole (PlannerExecute prompt project_name_from_user)])
  /\ (PyStr.truthy project_name_from_user = false ->
      exists w',
        execute C prompt project_name_from_user arrivals w
        = (Raise (RoleInvocationError Planner), w')
        /\ sessions w' = sessions w
        /\ trace w' =
             trace w ++ [EvRole (PlannerExecute prompt project_name_from_user)]).
Proof.
  intros Hplan. split.
  - intros s Htruthy Hs. unfold execute. rewrite Htruthy. run.
    rewrite Hs. run. rewrite Hplan. run.
    eexists. split; [reflexivity|]. cbn [sessions trace].
    rewrite lookup_insert_eq, <- app_assoc. split; reflexivity.
  - intros Hfalsy. unfold execute. rewrite Hfalsy. run. rewrite Hplan. run.
    eexists. split; [reflexivity|]. split; reflexivity.
Qed.

(** X16.  A run of [execute] on a new objective whose researcher has no
    question, once it returns, has written this log and nothing else: the
    user's prompt, the planner's reply, the plans as JSON, the summary, the
    announcement of the queries, and the completion notice.  The objective is
    inactive and completed, and the keyword set has gained the terms
    extracted from the planner's focus. *)
Theorem execute_new_objective prompt arrivals w w' plan pr keywords research :
  planner_execute C prompt None = Some plan ->
  planner_parse_response C plan = Some pr ->
  sessions w !! project pr = None ->
  extract_keywords C (focus pr) = Some keywords ->
  researcher_execute C plan
    (KwSet (collected_context_keywords w ∪ list_to_set (keywords.*1)))
    (project pr) = Some research ->
  ask_user research = "" ->
  execute C prompt None arrivals w = (Return tt, w') ->
  sessions w' !! project pr =
    Some {| active := false; completed := true;
            messages :=
              [{| origin := user; body := prompt |};
               system_message (planner_reply pr);
               system_message (json_dumps C (plans pr));
               system_message ("In summary: " +:+ summary pr);
               system_message
                 ("I am browsing the web to research the following queries: "
                    +:+ PyStr.join ", " (queries research)
                    +:+ ". If I need anything, I will make sure to ask you.");
               system_message
                 "I have completed the coding task. You can now run the project."]
         |}
  /\ collected_context_keywords w'
     = collected_context_keywords w ∪ list_to_set (keywords.*1).
Proof.
  intros Hplan Hparse Hnew Hkw Hres Hask. unfold execute.
  cbn [PyStr.truthy]. run. rewrite Hplan. run. rewrite Hparse. run.
  rewrite Hnew. run. unfold execute_pipeline. run.
  rewrite update_contextual_keywords_run, Hkw. run. rewrite Hres. run.
  unfold suspend_for_input. rewrite Hask. eqb_compute. run.
  match goal with
  | |- context [search_queries C ?qs ?pn ?W] =>
      pose proof (search_queries_from_frame C ∅ qs pn W) as F;
      fold (search_queries C qs pn) in F;
      destruct (search_queries C qs pn W) as [r1 w1]
  end.
  cbn [fst snd sessions collected_context_keywords trace] in F.
  destruct F as (_ & Hss & Hks & _).
  destruct r1 as [results|e|]; [|discriminate..].
  run. destruct (coder_execute C plan _ results (project pr)) as [code|]; run;
    [|discriminate].
  destruct (save_code_to_project C Coder code (project pr)) as [[]|]; run;
    [|discriminate].
  rewrite Hss. run. intros H. injection H as <-.
  cbn [sessions collected_context_keywords]. rewrite lookup_insert_eq.
  split; [reflexivity|exact Hks].
Qed.

End MoreExecute.

(** * More on the download link *)

Section MoreLink.

Lemma has_char_app c s t :
  has_char c (s +:+ t) = has_char c s || has_char c t.
Proof.
  induction s as [|d s IH]; simpl; [reflexivity|].
  now rewrite IH, orb_assoc.
Qed.

Lemma replace_space_no_space s :
  has_char " " (PyStr.replace " " "%20" s) = false.
Proof.
  induction s as [|c s IH]; simpl; [reflexivity|].
  destruct (Ascii.eqb c " ") eqn:E; simpl; [exact IH|].
  now rewrite E, IH.
Qed.

Lemma replace_space_twice s :
  PyStr.replace " " "%20" (PyStr.replace " " "%20" s)
  = PyStr.replace " " "%20" s.
Proof.
  induction s as [|c s IH]; [reflexivity|].
  cbn [PyStr.replace]. destruct (Ascii.eqb c " ") eqn:E.
  - change ("%20" +:+ PyStr.replace " " "%20" s)
      with (String "%" (String "2" (String "0" (PyStr.replace " " "%20" s)))).
    cbn [PyStr.replace]. rewrite IH. reflexivity.
  - cbn [PyStr.replace]. now rewrite E, IH.
Qed.

(** X17.  The download URL never holds a space, and it does not tell an
    objective from the one named by its own encoding: an objective whose
    name has a space and the objective named with [%20] in its place are
    two objectives with one download link. *)
Theorem download_url_no_space_not_injective project_name :
  has_char " " (pdf_download_url project_name) = false
  /\ pdf_download_url (PyStr.replace " " "%20" project_name)
     = pdf_download_url project_name
  /\ (has_char " " project_name = true ->
      PyStr.replace " " "%20" project_name <> project_name).
Proof.
  unfold pdf_download_url. split; [|split].
  - rewrite has_char_app, replace_space_no_space. reflexivity.
  - now rewrite replace_space_twice.
  - intros Hspace Heq.
    pose proof (replace_space_no_space project_name) as Hnone.
    rewrite Heq in Hnone. congruence.
Qed.

End MoreLink.

(** * More on the keyword set *)

Section MoreKeywords.

Context {Score : Type} (C : Collaborators Score).

(** X18.  What the keyword set holds after two updates depends neither on
    repetition nor on order, as long as the extractor answers: updating
    twice with one sentence gives what one update gives, and two sentences
    give the same set in either order.  (An extractor that fails on the
    first sentence stops the sequence, so the order matters then.) *)
Theorem keywords_update_idempotent_commutative s1 s2 w k1 k2 :
  extract_keywords C s1 = Some k1 ->
  extract_keywords C s2 = Some k2 ->
  collected_context_keywords
    ((update_contextual_keywords C s1 ;;; update_contextual_keywords C s1) w).2
  = collected_context_keywords (update_contextual_keywords C s1 w).2
  /\ collected_context_keywords
       ((update_contextual_keywords C s1 ;;; update_contextual_keywords C s2) w).2
     = collected_context_keywords
         ((update_contextual_keywords C s2 ;;; update_contextual_keywords C s1) w).2.
Proof.
  intros H1 H2. unfold bind.
  rewrite !update_contextual_keywords_run, H1, H2. cbn.
  rewrite !update_contextual_keywords_run, H1, H2. cbn.
  split; set_solver.
Qed.

End MoreKeywords.

(** * More concrete runs *)

Section MoreWitnesses.

Import Sample Faulty Written Pair.

Lemma log_is_append_only_witness :
  sessions todo !! "todo-app" = Some asked
  /\ (exists s',
        sessions
          (subsequent_execute (selecting "answer") "What is it?" "todo-app"
             todo).2 !! "todo-app" = Some s'
        /\ messages asked `prefix_of` messages s')
  /\ exists s',
      sessions
        (execute (collaborators "" "Which framework?" []) "Use React"
           (Some "todo-app") [([], []); ([react], [])] todo).2 !! "todo-app"
      = Some s'
      /\ messages asked `prefix_of` messages s'.
Proof.
  split; [exact todo_session|]. split.
  - exact (proj1
             (log_is_append_only (selecting "answer") "todo-app" asked todo
                todo_session) "What is it?" "todo-app").
  - exact (proj2 (proj2
             (log_is_append_only (collaborators "" "Which framework?" [])
                "todo-app" asked todo todo_session))
             "Use React" (Some "todo-app") [([], []); ([react], [])]).
Defined.

Lemma other_objectives_untouched_witness :
  "todo-app" <> "blog"
  /\ sessions both !! "todo-app" = Some asked
  /\ sessions both !! "blog" = Some (session blog_log)
  /\ (subsequent_execute (selecting "report") "A report, please" "blog"
        both).1 = Return tt
  /\ log_of
       (subsequent_execute (selecting "report") "A report, please" "blog"
          both).2 "blog"
     = blog_log
       ++ [system_message "Let me see."; system_message (pdf_response "blog")]
  /\ sessions
       (subsequent_execute (selecting "report") "A report, please" "blog"
          both).2 !! "todo-app" = sessions both !! "todo-app"
  /\ (make_decision (collaborators "" "" [pdf_item]) "A report, please"
        "blog" both).1 = Return tt
  /\ sessions
       (make_decision (collaborators "" "" [pdf_item]) "A report, please"
          "blog" both).2 !! "todo-app" = sessions both !! "todo-app"
  /\ (execute_pipeline (collaborators "" "Which framework?" []) "plan"
        planned "blog" [([react], [])] both).1 = Return tt
  /\ sessions
       (execute_pipeline (collaborators "" "Which framework?" []) "plan"
          planned "blog" [([react], [])] both).2 !! "todo-app"
     = sessions both !! "todo-app".
Proof.
  assert ("todo-app" <> "blog") as Hne by discriminate.
  split; [exact Hne|]. do 4 (split; [vm_compute; reflexivity|]).
  split; [|split; [vm_compute; reflexivity|split;
                     [|split; [vm_compute; reflexivity|]]]].
  - exact (proj1 (other_objectives_untouched (selecting "report") "todo-app"
                    "blog" both Hne) "A report, please").
  - exact (proj1 (proj2
             (other_objectives_untouched (collaborators "" "" [pdf_item])
                "todo-app" "blog" both Hne)) "A report, please").
  - exact (proj2 (proj2
             (other_objectives_untouched
                (collaborators "" "Which framework?" []) "todo-app" "blog"
                both Hne)) "plan" planned [([react], [])]).
Defined.

Lemma make_decision_changes_no_flag_witness :
  sessions todo !! "todo-app" = Some asked
  /\ exists s',
      sessions
        (make_decision (collaborators "" "" [pdf_item]) "A report, please"
           "todo-app" todo).2 !! "todo-app" = Some s'
      /\ active s' = active asked /\ completed s' = completed asked.
Proof.
  split; [exact todo_session|].
  exact (proj2 (proj2 (proj2
           (make_decision_changes_no_flag (collaborators "" "" [pdf_item])
              "A report, please" "todo-app" todo)))
           "todo-app" asked todo_session).
Defined.

Lemma subsequent_execute_ending_witness :
  sessions todo !! "todo-app" = Some asked
  /\ flagged "todo-app" false true
       (subsequent_execute (selecting "answer") "What is it?" "todo-app" todo).2
  /\ flagged "todo-app" true (completed asked)
       (subsequent_execute (selecting "bug") "It crashes" "todo-app" todo).2.
Proof.
  split; [exact todo_session|]. split.
  - pose proof
      (subsequent_execute_ending (selecting "answer") "What is it?"
         "todo-app" todo asked todo_session) as H.
    destruct (subsequent_execute (selecting "answer") "What is it?"
                "todo-app" todo) as [[[]|e|] w'] eqn:E;
      [exact H|vm_compute in E; discriminate E|destruct H].
  - pose proof
      (subsequent_execute_ending (selecting "bug") "It crashes"
         "todo-app" todo asked todo_session) as H.
    destruct (subsequent_execute (selecting "bug") "It crashes"
                "todo-app" todo) as [[[]|e|] w'] eqn:E;
      [vm_compute in E; discriminate E|exact H|destruct H].
Defined.

Lemma execute_pipeline_ending_witness :
  sessions todo !! "todo-app" = Some asked
  /\ flagged "todo-app" false (completed asked)
       (execute_pipeline (collaborators "" "Which framework?" []) "plan"
          planned "todo-app" [([], [])] todo).2
  /\ flagged "todo-app" false true
       (execute_pipeline (collaborators "" "Which framework?" []) "plan"
          planned "todo-app" [([react], [])] todo).2.
Proof.
  split; [exact todo_session|]. split.
  - pose proof
      (execute_pipeline_ending (collaborators "" "Which framework?" [])
         "plan" planned "todo-app" [([], [])] todo asked todo_session) as H.
    destruct (execute_pipeline (collaborators "" "Which framework?" [])
                "plan" planned "todo-app" [([], [])] todo)
      as [[[]|e|] w'] eqn:E;
      [vm_compute in E; discriminate E|vm_compute in E; discriminate E
      |exact H].
  - pose proof
      (execute_pipeline_ending (collaborators "" "Which framework?" [])
         "plan" planned "todo-app" [([react], [])] todo asked todo_session)
      as H.
    destruct (execute_pipeline (collaborators "" "Which framework?" [])
                "plan" planned "todo-app" [([react], [])] todo)
      as [[[]|e|] w'] eqn:E;
      [exact H|vm_compute in E; discriminate E|vm_compute in E; discriminate E].
Defined.


Lemma make_decision_unrecognised_witness :
  sessions todo !! "todo-app" = Some asked
  /\ decision_execute (collaborators "" "" [send_email]) "Mail it" "todo-app"
     = Some [send_email]
  /\ Forall (fun item => function item ∉ decision_functions) [send_email]
  /\ exists w',
      make_decision (collaborators "" "" [send_email]) "Mail it" "todo-app"
        todo = (Return tt, w')
      /\ log_of w' "todo-app"
         = messages asked ++ [system_message "I cannot send email."].
Proof.
  assert (Forall (fun item => function item ∉ decision_functions) [send_email])
    as Hall.
  { constructor; [|constructor]. unfold decision_functions.
    cbn [function send_email]. intros H.
    repeat (apply elem_of_cons in H as [H|H]; [discriminate H|]).
    inversion H. }
  split; [exact todo_session|]. split; [reflexivity|]. split; [exact Hall|].
  destruct
    (make_decision_unrecognised (collaborators "" "" [send_email]) "Mail it"
       "todo-app" todo asked [send_email] todo_session eq_refl Hall)
    as (w' & E & _ & Hlog).
  exists w'. split; [exact E|exact Hlog].
Defined.


Lemma coding_project_asks_nobody_witness :
  decision_branch (collaborators "" "Which framework?" []) coding_item
    "todo-app" todo
  = (Return tt,
     (decision_branch (collaborators "" "Which framework?" []) coding_item
        "todo-app" todo).2)
  /\ sessions
       (decision_branch (collaborators "" "Which framework?" []) coding_item
          "todo-app" todo).2 = sessions todo
  /\ exists results code searches,
      trace
        (decision_branch (collaborators "" "Which framework?" []) coding_item
           "todo-app" todo).2
      = trace todo
        ++ [EvRole (PlannerExecute "Add a login page" (Some "todo-app"));
            EvRole
              (ResearcherExecute "plan"
                 (KwList (elements (collected_context_keywords todo)))
                 "todo-app")]
        ++ searches
        ++ [EvRole (CoderExecute "plan" "Which framework?" results "todo-app");
            EvSaveCode Coder code "todo-app"].
Proof.
  assert (decision_branch (collaborators "" "Which framework?" []) coding_item
            "todo-app" todo
          = (Return tt,
             (decision_branch (collaborators "" "Which framework?" [])
                coding_item "todo-app" todo).2)) as E
    by (vm_compute; reflexivity).
  split; [exact E|].
  destruct
    (coding_project_asks_nobody (collaborators "" "Which framework?" [])
       coding_item "todo-app" todo _ "Add a login page" "plan"
       {| queries := [" Alpha"; "BETA "]; ask_user := "Which framework?" |}
       eq_refl eq_refl eq_refl eq_refl E)
    as (Hss & _ & results & code & searches & _ & Ht).
  split; [exact Hss|]. exists results, code, searches. exact Ht.
Defined.

Lemma deploy_missing_keys_witness :
  netlify_create_site no_site_id = Some {[ "name" := "site-1" ]}
  /\ netlify_create_site no_deploy_url = Some {[ "id" := "site-1" ]}
  /\ netlify_deploy no_site_id "todo-app" todo
     = (Raise (KeyError "id"), log_event [EvNetlifyCreateSite] todo)
  /\ dispatch no_deploy_url "deploy" "Deploy it" "todo-app"
       (map body greeting) "files" todo
     = (Raise (KeyError "deploy_url"),
        log_event
          [EvNetlifyCreateSite;
           EvNetlifyDeploySite "site-1" (get_project_path no_deploy_url "todo-app")]
          todo).
Proof.
  split; [reflexivity|]. split; [reflexivity|]. split.
  - exact (proj1 (deploy_missing_keys no_site_id "todo-app" todo
                    {[ "name" := "site-1" ]} eq_refl) eq_refl).
  - exact (proj2 (deploy_missing_keys no_deploy_url "todo-app" todo
                    {[ "id" := "site-1" ]} eq_refl)
             "site-1" {[ "state" := "error" ]} "Deploy it"
             (map body greeting) "files" eq_refl eq_refl eq_refl).
Defined.

Lemma wait_resumes_on_reply_witness :
  sessions todo !! "todo-app" = Some asked
  /\ last_is_from_user (messages asked) = false
  /\ exists w',
      wait_for_user_query "todo-app"
        (replicate 2 ([], []) ++ ([{| origin := user; body := "React" |}], [])
           :: [])
        todo = (Return "React", w')
      /\ log_of w' "todo-app"
         = messages asked ++ [{| origin := user; body := "React" |};
                              system_message acknowledgement].
Proof.
  split; [exact todo_session|]. split; [reflexivity|].
  destruct (wait_resumes_on_reply "todo-app" 2 "React" [] todo asked
              todo_session eq_refl) as (w' & E & Hlog & _).
  exists w'. split; [exact E|exact Hlog].
Defined.

Lemma poll_takes_text_of_first_read_witness :
  sessions todo !! "todo-app" = Some asked
  /\ latest_from_user (messages asked ++ [ping])
     = Some {| origin := user; body := "Build a todo app" |}
  /\ exists w',
      poll "todo-app" ([ping], [{| origin := user; body := "React" |}]) todo
      = (Return (Some "Build a todo app"), w').
Proof.
  split; [exact todo_session|]. split; [reflexivity|].
  destruct (poll_takes_text_of_first_read "todo-app" todo asked [ping] "React"
              {| origin := user; body := "Build a todo app" |}
              todo_session eq_refl) as (w' & E & _).
  exists w'. exact E.
Defined.

Lemma wait_goes_on_without_user_message_witness :
  sessions todo !! "todo-app" = Some asked
  /\ last_is_from_user (messages asked) = false
  /\ exists w',
      wait_for_user_query "todo-app" [([ping], []); ([], [ping])] todo
      = (Waiting, w')
      /\ log_of w' "todo-app" = messages asked ++ [ping; ping].
Proof.
  assert (Forall (fun arrived : list Message * list Message =>
                    Forall from_system (arrived.1 ++ arrived.2))
            [([ping], []); ([], [ping])]) as Hall
    by (repeat constructor).
  split; [exact todo_session|]. split; [reflexivity|].
  destruct (wait_goes_on_without_user_message "todo-app"
              [([ping], []); ([], [ping])] todo asked todo_session eq_refl
              Hall) as (w' & E & Hlog & _).
  exists w'. split; [exact E|exact Hlog].
Defined.

Lemma execute_planner_failure_witness :
  planner_execute no_plan "Use React" (Some "todo-app") = None
  /\ PyStr.truthy (Some "todo-app") = true
  /\ sessions todo !! "todo-app" = Some asked
  /\ (exists w',
        execute no_plan "Use React" (Some "todo-app") [] todo
        = (Raise (RoleInvocationError Planner), w')
        /\ sessions w' !! "todo-app"
           = Some {| active := active asked; completed := completed asked;
                     messages :=
                       messages asked
                       ++ [{| origin := user; body := "Use React" |}] |})
  /\ exists w',
      execute no_plan "Build a blog" None [] todo
      = (Raise (RoleInvocationError Planner), w')
      /\ sessions w' = sessions todo.
Proof.
  split; [reflexivity|]. split; [reflexivity|]. split; [exact todo_session|].
  split.
  - destruct (proj1 (execute_planner_failure no_plan "Use React"
                       (Some "todo-app") [] todo eq_refl)
                asked eq_refl todo_session) as (w' & E & Hs & _).
    exists w'. split; [exact E|exact Hs].
  - destruct (proj2 (execute_planner_failure no_plan "Build a blog" None []
                       todo eq_refl) eq_refl) as (w' & E & Hs & _).
    exists w'. split; [exact E|exact Hs].
Defined.

Lemma execute_new_objective_witness :
  sessions (world "blog" []) !! project planned = None
  /\ execute (collaborators "" "" []) "Build a todo app" None []
       (world "blog" [])
     = (Return tt,
        (execute (collaborators "" "" []) "Build a todo app" None []
           (world "blog" [])).2)
  /\ log_of
       (execute (collaborators "" "" []) "Build a todo app" None []
          (world "blog" [])).2 "todo-app"
     = [{| origin := user; body := "Build a todo app" |};
        system_message "On it.";
        system_message "1. list 2. add 3. remove";
        system_message "In summary: a small todo app";
        system_message
          ("I am browsing the web to research the following queries: "
             +:+ " Alpha, BETA "
             +:+ ". If I need anything, I will make sure to ask you.");
        system_message
          "I have completed the coding task. You can now run the project."].
Proof.
  assert (sessions (world "blog" []) !! project planned = None) as Hnew
    by (vm_compute; reflexivity).
  assert (execute (collaborators "" "" []) "Build a todo app" None []
            (world "blog" [])
          = (Return tt,
             (execute (collaborators "" "" []) "Build a todo app" None []
                (world "blog" [])).2)) as E
    by (vm_compute; reflexivity).
  split; [exact Hnew|]. split; [exact E|].
  destruct
    (execute_new_objective (collaborators "" "" []) "Build a todo app" []
       (world "blog" []) _ "plan" planned [("todo app", 1)]
       {| queries := [" Alpha"; "BETA "]; ask_user := "" |}
       eq_refl eq_refl Hnew eq_refl eq_refl eq_refl E) as (Hs & _).
  cbn [project planned] in Hs. unfold log_of. rewrite Hs. reflexivity.
Defined.

Lemma download_url_no_space_not_injective_witness :
  has_char " " "todo app" = true
  /\ PyStr.replace " " "%20" "todo app" <> "todo app"
  /\ pdf_download_url "todo%20app" = pdf_download_url "todo app".
Proof.
  split; [reflexivity|]. split.
  - exact (proj2 (proj2 (download_url_no_space_not_injective "todo app"))
             eq_refl).
  - exact (proj1 (proj2 (download_url_no_space_not_injective "todo app"))).
Defined.

Lemma keywords_update_idempotent_commutative_witness :
  extract_keywords (selecting "") "todo" = Some [("todo", 1)]
  /\ extract_keywords (selecting "") "app" = Some [("app", 1)]
  /\ collected_context_keywords
       ((update_contextual_keywords (selecting "") "todo" ;;;
         update_contextual_keywords (selecting "") "app") todo).2
     = collected_context_keywords
         ((update_contextual_keywords (selecting "") "app" ;;;
           update_contextual_keywords (selecting "") "todo") todo).2.
Proof.
  split; [reflexivity|]. split; [reflexivity|].
  exact (proj2 (keywords_update_idempotent_commutative (selecting "") "todo"
                  "app" todo [("todo", 1)] [("app", 1)] eq_refl eq_refl)).
Defined.

End MoreWitnesses.
